(** * database.py: the PostgreSQL data-access layer of the purchase-request
      tracker, as a shallow embedding

    [DatabaseManager] is modelled as a state-and-exception monad over a
    [world]: the two attributes of the Python object ([connection_pool],
    [is_connected]), the tables every reader sees ([committed]), the open
    transaction of the connection in use ([txn]), the two id sequences
    and a trace of the calls made to the pool and to the server.

    What is not in database.py is modelled from the documented behaviour of
    the library it calls: psycopg2's [SimpleConnectionPool] (getconn,
    putconn), PostgreSQL's transactions, sequences and the operators the SQL
    text uses (=, <=, >=, ILIKE, IS NULL, COUNT, ORDER BY).  The table
    definitions are not part of the module either: a cell holds the value the
    driver was given, and what the server refuses (constraints, lost
    connections) is the parameter [fault] of the section below.  Texts are
    byte strings, compared byte by byte, with case folding on the ASCII
    letters; calls run one after the other. *)

From Stdlib Require Import ZArith Lia Ascii String.
From Stdlib Require OrderedTypeEx.
From stdpp Require Import base option list gmap strings sorting pretty.

(** ** Python values that travel between the caller, the driver and a cell *)

Inductive val : Type :=
| VNone
| VInt (z : Z)
| VStr (s : string).

#[global] Instance val_eq_dec : EqDecision val.
Proof. solve_decision. Defined.

(** A Python [dict] with string keys. *)
Abbreviation dict := (gmap string val).

(** [str(v)], as an f-string renders it. *)
Definition str (v : val) : string :=
  match v with
  | VNone => "None"
  | VInt z => pretty z
  | VStr s => s
  end.

(** Truth value testing: [None], [0] and [''] are false. *)
Definition truthy (v : val) : bool :=
  match v with
  | VNone => false
  | VInt z => negb (z =? 0)%Z
  | VStr s => negb (String.eqb s "")
  end.

(** ** The two tables *)

(** purchase_requests: the ten columns [save_request] writes, the generated
    [id] and [deleted_at] (NULL, here [None], on an active row). *)
Module PR.
Record cols : Type := Cols {
  request_number : val;
  request_date_jalali : val;
  request_date_gregorian : val;
  requesting_unit : val;
  requester_name : val;
  pdf_file_path : val;
  year : val;
  month : val;
  month_name : val;
  status : val }.

Record row : Type := Row {
  id : Z;
  data : cols;
  deleted_at : option Z }.
End PR.

(** request_items: the seven columns [save_request] writes and the generated
    [id]. *)
Module RI.
Record cols : Type := Cols {
  request_id : Z;
  row_number : val;
  description : val;
  quantity : val;
  unit : val;
  purchase_location : val;
  notes : val }.

Record row : Type := Row {
  id : Z;
  data : cols }.
End RI.

#[global] Instance PR_cols_eq_dec : EqDecision PR.cols.
Proof. solve_decision. Defined.
#[global] Instance PR_row_eq_dec : EqDecision PR.row.
Proof. solve_decision. Defined.
#[global] Instance RI_cols_eq_dec : EqDecision RI.cols.
Proof. solve_decision. Defined.
#[global] Instance RI_row_eq_dec : EqDecision RI.row.
Proof. solve_decision. Defined.

Record db : Type := Db {
  purchase_requests : list PR.row;
  request_items : list RI.row }.

Definition empty_db : db := Db [] [].

(** ** SQL text *)

(** The predicates [search_requests] appends to its WHERE clause; a clause
    that holds a placeholder carries the parameter appended to [params]
    with it. *)
Inductive clause : Type :=
| DeletedAtIsNull                        (* " AND pr.deleted_at IS NULL" *)
| RequestNumberEq (p : val)              (* " AND pr.request_number = %s" *)
| RequesterNameILike (p : string)        (* " AND pr.requester_name ILIKE %s" *)
| RequestingUnitILike (p : string)       (* " AND pr.requesting_unit ILIKE %s" *)
| YearEq (p : val)                       (* " AND pr.year = %s" *)
| MonthEq (p : val)                      (* " AND pr.month = %s" *)
| StatusEq (p : val)                     (* " AND pr.status = %s" *)
| DateGe (p : val)                       (* " AND pr.request_date_gregorian >= %s" *)
| DateLe (p : val).                      (* " AND pr.request_date_gregorian <= %s" *)

(** Every statement the module sends, with its parameters. *)
Inductive stmt : Type :=
| InsertRequest (c : PR.cols)
| InsertItem (c : RI.cols)
| UpdateStatus (new_status : val) (request_id : Z)
| ClearDeletedAt (request_id : Z)
| DeleteRequest (request_id : Z)
| SelectMaxRequestNumber
| SelectRequestById (request_id : Z)
| SelectItemsByRequest (request_id : Z)
| SelectRequestByNumber (request_number : val)
| SelectActiveByNumber (request_number : val)
| SelectItemsILike (pattern_description pattern_notes : string)
| SelectRequests (where_ : list clause)
| SelectCount (status : option string)
| SelectVersion
| Commit.

(** ** The manager, the server and what happened between them *)

Inductive event : Type :=
| Getconn
| Putconn
| Execute (s : stmt)
| Rollback.

(** SimpleConnectionPool(1, 5, ...): connections waiting in the pool, handed
    out, and whether closeall() ran. *)
Record pool : Type := Pool {
  idle : nat;
  used : nat;
  closed : bool }.

Definition minconn : nat := 1.
Definition maxconn : nat := 5.

Record world : Type := World {
  connection_pool : option pool;   (* self.connection_pool *)
  is_connected : bool;             (* self.is_connected *)
  server_up : bool;                (* the server accepts a new connection *)
  committed : db;                  (* what every session reads *)
  txn : option db;                 (* the open transaction of the session in use *)
  purchase_requests_id_seq : Z;
  request_items_id_seq : Z;
  trace : list event }.

Definition set_pool (p : option pool) (w : world) : world :=
  World p (is_connected w) (server_up w) (committed w) (txn w)
        (purchase_requests_id_seq w) (request_items_id_seq w) (trace w).
Definition set_connected (b : bool) (w : world) : world :=
  World (connection_pool w) b (server_up w) (committed w) (txn w)
        (purchase_requests_id_seq w) (request_items_id_seq w) (trace w).
Definition set_committed (d : db) (w : world) : world :=
  World (connection_pool w) (is_connected w) (server_up w) d (txn w)
        (purchase_requests_id_seq w) (request_items_id_seq w) (trace w).
Definition set_txn (t : option db) (w : world) : world :=
  World (connection_pool w) (is_connected w) (server_up w) (committed w) t
        (purchase_requests_id_seq w) (request_items_id_seq w) (trace w).
Definition set_seqs (a b : Z) (w : world) : world :=
  World (connection_pool w) (is_connected w) (server_up w) (committed w)
        (txn w) a b (trace w).
Definition log (e : event) (w : world) : world :=
  World (connection_pool w) (is_connected w) (server_up w) (committed w)
        (txn w) (purchase_requests_id_seq w) (request_items_id_seq w)
        (trace w ++ [e]).

(** ** Exceptions and the monad *)

Inductive exn : Type :=
| KeyError (key : string)
| AttributeError (msg : string)
| Error (msg : string).            (* psycopg2.Error and its subclasses *)

(** [str(e)] *)
Definition str_exn (e : exn) : string :=
  match e with
  | KeyError k => "'" +:+ k +:+ "'"
  | AttributeError m => m
  | Error m => m
  end.

(** [except Error] and [except Exception] *)
Definition is_Error (e : exn) : bool :=
  match e with Error _ => true | _ => false end.
Definition is_Exception (e : exn) : bool := true.

Inductive outcome (A : Type) : Type :=
| Return (a : A)
| Raise (e : exn).
Arguments Return {A} a.
Arguments Raise {A} e.

Definition M (A : Type) : Type := world -> outcome A * world.

Definition ret {A} (a : A) : M A := fun w => (Return a, w).
Definition raise {A} (e : exn) : M A := fun w => (Raise e, w).
Definition bind {A B} (m : M A) (k : A -> M B) : M B :=
  fun w => match m w with
           | (Return a, w') => k a w'
           | (Raise e, w') => (Raise e, w')
           end.

Notation "'do' x <- m ; k" := (bind m (fun x => k))
  (at level 10, x name, m at level 100, k at level 200).
Notation "m ;; k" := (bind m (fun _ => k))
  (at level 100, k at level 200, right associativity).

Definition get {A} (f : world -> A) : M A := fun w => (Return (f w), w).
Definition modify (f : world -> world) : M unit := fun w => (Return tt, f w).

(** try: body / except <class> as e: handler e *)
Definition try_except {A} (body : M A) (class : exn -> bool)
    (handler : exn -> M A) : M A :=
  fun w => match body w with
           | (Return a, w') => (Return a, w')
           | (Raise e, w') => if class e then handler e w' else (Raise e, w')
           end.

(** try: body / finally: fin.  The outcome of [body] (a returned value or a
    pending exception) survives [fin] unless [fin] raises itself. *)
Definition try_finally {A} (body : M A) (fin : M unit) : M A :=
  fun w => match body w with
           | (r, w') => match fin w' with
                        | (Return _, w'') => (r, w'')
                        | (Raise e, w'') => (Raise e, w'')
                        end
           end.

(** Runs [m] and hands its outcome over as a value. *)
Definition attempt {A} (m : M A) : M (outcome A) :=
  fun w => match m w with (r, w') => (Return r, w') end.

Fixpoint for_each {A} (f : A -> M unit) (l : list A) : M unit :=
  match l with
  | [] => ret tt
  | x :: l' => f x ;; for_each f l'
  end.

(** ** psycopg2: the pool and a connection *)

Inductive connection : Type := Conn.

(** [pool.getconn()]: an idle connection if there is one, a new one below
    [maxconn]; PoolError and OperationalError are subclasses of Error. *)
Definition take (p : pool) : pool :=
  Pool (Nat.pred (idle p)) (S (used p)) false.

Definition getconn (p : pool) : M connection :=
  fun w =>
    if closed p then (Raise (Error "connection pool is closed"), w)
    else if (idle p =? 0)%nat && (maxconn <=? used p)%nat
    then (Raise (Error "connection pool exhausted"), w)
    else if (idle p =? 0)%nat && negb (server_up w)
    then (Raise (Error "could not connect to server"), w)
    else (Return Conn, log Getconn (set_pool (Some (take p)) w)).

(** [pool.putconn(conn)]: a connection that is put away is rolled back when
    a transaction is open on it (or closed when the pool holds [minconn]
    already, which ends that transaction as well). *)
Definition put (p : pool) : pool :=
  Pool (if (idle p <? minconn)%nat then S (idle p) else idle p)
       (Nat.pred (used p)) false.

Definition putconn (p : pool) (c : connection) : M unit :=
  fun w =>
    if closed p then (Raise (Error "connection pool is closed"), w)
    else (Return tt, log Putconn (set_txn None (set_pool (Some (put p)) w))).

(** The tables a statement of the session in use reads. *)
Definition snapshot (w : world) : db := default (committed w) (txn w).

(** [connection.commit()] and [connection.rollback()] *)
Definition rollback : M unit :=
  modify (fun w => log Rollback (set_txn None w)).

(** ** PostgreSQL operators on cells *)

(** [a = b]: unknown (not true) as soon as one side is NULL, no implicit
    cast between an integer and a text. *)
Definition sql_eq (a b : val) : bool :=
  match a, b with
  | VNone, _ | _, VNone => false
  | _, _ => bool_decide (a = b)
  end.

(** [a <= b] in a WHERE clause. *)
Definition sql_le (a b : val) : bool :=
  match a, b with
  | VInt x, VInt y => (x <=? y)%Z
  | VStr x, VStr y => String.leb x y
  | _, _ => false
  end.

(** The order ORDER BY sorts a column by: integers, then texts, then NULL
    (NULLs come last ascending, first descending). *)
Definition order_le (a b : val) : bool :=
  match a, b with
  | _, VNone => true
  | VNone, _ => false
  | VInt x, VInt y => (x <=? y)%Z
  | VInt _, VStr _ => true
  | VStr _, VInt _ => false
  | VStr x, VStr y => String.leb x y
  end.

(** Case folding of the ASCII letters; every other byte is kept. *)
Definition lower_ascii (c : ascii) : ascii :=
  let n := nat_of_ascii c in
  if ((65 <=? n) && (n <=? 90))%nat then ascii_of_nat (n + 32) else c.

Fixpoint lower (s : string) : string :=
  match s with
  | EmptyString => EmptyString
  | String c s' => String (lower_ascii c) (lower s')
  end.

Definition is_percent (c : ascii) : bool := Ascii.eqb c "%".
Definition is_underscore (c : ascii) : bool := Ascii.eqb c "_".
Definition is_backslash (c : ascii) : bool := Ascii.eqb c "\".

(** [s LIKE p]: [%] stands for any run of characters, [_] for any single
    one, a backslash takes the next character of the pattern as it is.  The
    server refuses a pattern that ends in a lone backslash; the patterns
    built below all end in [%], and that case is given the value false. *)
Fixpoint like (p s : string) : bool :=
  match p with
  | EmptyString => match s with EmptyString => true | String _ _ => false end
  | String c p' =>
      if is_percent c then
        (fix skip (s : string) : bool :=
           like p' s || match s with
                        | EmptyString => false
                        | String _ s' => skip s'
                        end) s
      else if is_underscore c then
        match s with
        | EmptyString => false
        | String _ s' => like p' s'
        end
      else if is_backslash c then
        match p' with
        | EmptyString => false
        | String c' p'' =>
            match s with
            | EmptyString => false
            | String a s' => Ascii.eqb c' a && like p'' s'
            end
        end
      else
        match s with
        | EmptyString => false
        | String a s' => Ascii.eqb c a && like p' s'
        end
  end.

(** [cell ILIKE pattern]: LIKE without regard to case; not true on NULL,
    and a cell that is no text matches nothing. *)
Definition ilike (cell : val) (pattern : string) : bool :=
  match cell with
  | VStr s => like (lower pattern) (lower s)
  | _ => false
  end.

(** [t] is a prefix of [s]; [t] occurs in [s]. *)
Fixpoint prefixb (t s : string) : bool :=
  match t, s with
  | EmptyString, _ => true
  | String a t', String b s' => Ascii.eqb a b && prefixb t' s'
  | String _ _, EmptyString => false
  end.

Fixpoint containsb (t s : string) : bool :=
  prefixb t s || match s with
                 | EmptyString => false
                 | String _ s' => containsb t s'
                 end.

(** Case-insensitive substring: [t.lower() in s.lower()]. *)
Definition icontains (t : string) (cell : val) : bool :=
  match cell with
  | VStr s => containsb (lower t) (lower s)
  | _ => false
  end.

(** No character of [t] means anything to LIKE. *)
Fixpoint plain (t : string) : bool :=
  match t with
  | EmptyString => true
  | String c t' =>
      negb (is_percent c) && negb (is_underscore c) && negb (is_backslash c)
      && plain t'
  end.

(** ** The statements' meaning on the tables *)

Definition active (r : PR.row) : Prop := PR.deleted_at r = None.

Definition number_of (r : PR.row) : val := PR.request_number (PR.data r).
Definition status_of (r : PR.row) : val := PR.status (PR.data r).

(** INSERT INTO purchase_requests (...) VALUES (...) RETURNING id *)
Definition db_insert_request (i : Z) (c : PR.cols) (d : db) : db :=
  Db (purchase_requests d ++ [PR.Row i c None]) (request_items d).

(** INSERT INTO request_items (...) VALUES (...) *)
Definition db_insert_item (i : Z) (c : RI.cols) (d : db) : db :=
  Db (purchase_requests d) (request_items d ++ [RI.Row i c]).

(** UPDATE purchase_requests SET status = %s WHERE id = %s *)
Definition set_status (s : val) (r : PR.row) : PR.row :=
  let c := PR.data r in
  PR.Row (PR.id r)
    (PR.Cols (PR.request_number c) (PR.request_date_jalali c)
       (PR.request_date_gregorian c) (PR.requesting_unit c)
       (PR.requester_name c) (PR.pdf_file_path c) (PR.year c) (PR.month c)
       (PR.month_name c) s)
    (PR.deleted_at r).

Definition db_update_status (s : val) (i : Z) (d : db) : db :=
  Db (map (fun r => if decide (PR.id r = i) then set_status s r else r)
        (purchase_requests d))
     (request_items d).

(** UPDATE purchase_requests SET deleted_at = NULL
    WHERE id = %s AND deleted_at IS NOT NULL *)
Definition restorable (i : Z) (r : PR.row) : Prop :=
  PR.id r = i ∧ PR.deleted_at r ≠ None.

#[global] Instance restorable_dec i r : Decision (restorable i r).
Proof. unfold restorable. apply _. Defined.

Definition clear_deleted_at (r : PR.row) : PR.row :=
  PR.Row (PR.id r) (PR.data r) None.

Definition db_restore (i : Z) (d : db) : db :=
  Db (map (fun r => if decide (restorable i r) then clear_deleted_at r else r)
        (purchase_requests d))
     (request_items d).

(** DELETE FROM purchase_requests WHERE id = %s, the items going with it
    (ON DELETE CASCADE). *)
Definition db_delete (i : Z) (d : db) : db :=
  Db (filter (fun r => PR.id r ≠ i) (purchase_requests d))
     (filter (fun it => RI.request_id (RI.data it) ≠ i) (request_items d)).

(** ... RETURNING request_number: one value per row the UPDATE touched. *)
Definition returning_number (rows : list PR.row) : list val :=
  map number_of rows.

(** SELECT * FROM purchase_requests WHERE id = %s *)
Definition requests_by_id (i : Z) (d : db) : list PR.row :=
  filter (fun r => PR.id r = i) (purchase_requests d).

(** SELECT * FROM purchase_requests WHERE request_number = %s *)
Definition requests_by_number (n : val) (d : db) : list PR.row :=
  filter (fun r => sql_eq (number_of r) n = true) (purchase_requests d).

(** ... WHERE request_number = %s AND deleted_at IS NULL *)
Definition active_by_number (n : val) (d : db) : list PR.row :=
  filter (fun r => sql_eq (number_of r) n = true ∧ active r)
    (purchase_requests d).

(** SELECT * FROM request_items WHERE request_id = %s ORDER BY row_number *)
Definition by_row_number (a b : RI.row) : Prop :=
  order_le (RI.row_number (RI.data a)) (RI.row_number (RI.data b)) = true.

#[global] Instance by_row_number_dec a b : Decision (by_row_number a b).
Proof. unfold by_row_number. apply _. Defined.

Definition items_of (i : Z) (d : db) : list RI.row :=
  merge_sort by_row_number
    (filter (fun it => RI.request_id (RI.data it) = i) (request_items d)).

(** SELECT COUNT(...) FROM purchase_requests WHERE [status = '...' AND]
    deleted_at IS NULL *)
Definition counted (s : option string) (r : PR.row) : Prop :=
  match s with
  | None => active r
  | Some s => sql_eq (status_of r) (VStr s) = true ∧ active r
  end.

#[global] Instance counted_dec s r : Decision (counted s r).
Proof. destruct s; unfold counted, active; apply _. Defined.

Definition count_requests (s : option string) (d : db) : nat :=
  length (filter (counted s) (purchase_requests d)).

(** SELECT MAX(request_number) FROM purchase_requests: NULLs do not count. *)
Definition max_val (a b : val) : val :=
  match a, b with
  | VNone, _ => b
  | _, VNone => a
  | _, _ => if order_le a b then b else a
  end.

Definition max_request_number (d : db) : val :=
  foldr max_val VNone (map number_of (purchase_requests d)).

(** SELECT DISTINCT pr.id, ..., ri.description, ri.notes, ri.row_number
    FROM purchase_requests pr INNER JOIN request_items ri
      ON pr.id = ri.request_id
    WHERE ri.description ILIKE %s OR ri.notes ILIKE %s
    ORDER BY pr.request_date_gregorian DESC, ri.row_number;
    one record per row, under the keys of [formatted_results]. *)
Module Match.
Record row : Type := Row {
  id : Z;
  request_number : val;
  request_date_jalali : val;
  request_date_gregorian : val;
  requesting_unit : val;
  requester_name : val;
  pdf_file_path : val;
  status : val;
  matched_description : val;
  matched_notes : val;
  row_number : val }.
End Match.

#[global] Instance Match_row_eq_dec : EqDecision Match.row.
Proof. solve_decision. Defined.

Definition owns (r : PR.row) (it : RI.row) : Prop :=
  PR.id r = RI.request_id (RI.data it).

#[global] Instance owns_dec r it : Decision (owns r it).
Proof. unfold owns. apply _. Defined.

Definition inner_join (d : db) : list (PR.row * RI.row) :=
  r ← purchase_requests d;
  it ← filter (owns r) (request_items d);
  [(r, it)].

Definition item_matches (p1 p2 : string) (x : PR.row * RI.row) : Prop :=
  ilike (RI.description (RI.data x.2)) p1
  || ilike (RI.notes (RI.data x.2)) p2 = true.

#[global] Instance item_matches_dec p1 p2 x : Decision (item_matches p1 p2 x).
Proof. unfold item_matches. apply _. Defined.

Definition project_match (x : PR.row * RI.row) : Match.row :=
  let c := PR.data x.1 in
  let i := RI.data x.2 in
  Match.Row (PR.id x.1) (PR.request_number c) (PR.request_date_jalali c)
    (PR.request_date_gregorian c) (PR.requesting_unit c)
    (PR.requester_name c) (PR.pdf_file_path c) (PR.status c)
    (RI.description i) (RI.notes i) (RI.row_number i).

Definition by_date_desc_row_number (a b : Match.row) : Prop :=
  (if order_le (Match.request_date_gregorian a) (Match.request_date_gregorian b)
   then if order_le (Match.request_date_gregorian b) (Match.request_date_gregorian a)
        then order_le (Match.row_number a) (Match.row_number b)
        else false
   else true) = true.

#[global] Instance by_date_desc_row_number_dec a b :
  Decision (by_date_desc_row_number a b).
Proof. unfold by_date_desc_row_number. apply _. Defined.

Definition items_like (p1 p2 : string) (d : db) : list Match.row :=
  merge_sort by_date_desc_row_number
    (remove_dups (project_match <$> filter (item_matches p1 p2) (inner_join d))).

(** SELECT pr.*, COALESCE(COUNT(ri.id), 0) as items_count
    FROM purchase_requests pr LEFT JOIN request_items ri
      ON pr.id = ri.request_id
    WHERE 1=1 <clauses> GROUP BY pr.id ORDER BY pr.request_number DESC.
    The clauses read columns of pr only and pr.id is the key of pr: one
    row per request that passes them, with the number of its items. *)
Record found : Type := Found {
  request : PR.row;
  items_count : nat }.

Definition clause_holds (r : PR.row) (c : clause) : bool :=
  match c with
  | DeletedAtIsNull => bool_decide (active r)
  | RequestNumberEq p => sql_eq (number_of r) p
  | RequesterNameILike p => ilike (PR.requester_name (PR.data r)) p
  | RequestingUnitILike p => ilike (PR.requesting_unit (PR.data r)) p
  | YearEq p => sql_eq (PR.year (PR.data r)) p
  | MonthEq p => sql_eq (PR.month (PR.data r)) p
  | StatusEq p => sql_eq (status_of r) p
  | DateGe p => sql_le p (PR.request_date_gregorian (PR.data r))
  | DateLe p => sql_le (PR.request_date_gregorian (PR.data r)) p
  end.

Definition where_holds (cs : list clause) (r : PR.row) : Prop :=
  forallb (clause_holds r) cs = true.

#[global] Instance where_holds_dec cs r : Decision (where_holds cs r).
Proof. unfold where_holds. apply _. Defined.

Definition count_items (r : PR.row) (d : db) : nat :=
  length (filter (owns r) (request_items d)).

Definition by_number_desc (a b : found) : Prop :=
  order_le (number_of (request b)) (number_of (request a)) = true.

#[global] Instance by_number_desc_dec a b : Decision (by_number_desc a b).
Proof. unfold by_number_desc. apply _. Defined.

Definition select_requests (cs : list clause) (d : db) : list found :=
  merge_sort by_number_desc
    ((fun r => Found r (count_items r d))
       <$> filter (where_holds cs) (purchase_requests d)).

Section Engine.

(** What the server refuses: [fault d s] is the message of the Error that
    statement [s] raises on tables [d], if it raises one. *)
Variable fault : db -> stmt -> option string.

(** [cursor.execute(s)] up to the server's verdict: the statement opens a
    transaction if none is open (autocommit is off), and either raises or
    hands over the tables it runs on. *)
Definition execute (s : stmt) : M db :=
  fun w =>
    let d := snapshot w in
    let w1 := log (Execute s) (set_txn (Some d) w) in
    match fault d s with
    | Some msg => (Raise (Error msg), w1)
    | None => (Return d, w1)
    end.

Definition commit : M unit :=
  fun w =>
    let d := snapshot w in
    let w1 := log (Execute Commit) w in
    match fault d Commit with
    | Some msg => (Raise (Error msg), w1)
    | None => (Return tt, set_txn None (set_committed d w1))
    end.


(** INSERT ... RETURNING id followed by [cursor.fetchone()[0]]: the id comes
    from the sequence, which no rollback rewinds. *)
Definition insert_request (c : PR.cols) : M Z :=
  do i <- get purchase_requests_id_seq;
  modify (fun w => set_seqs (i + 1) (request_items_id_seq w) w) ;;
  do d <- execute (InsertRequest c);
  modify (set_txn (Some (db_insert_request i c d))) ;;
  ret i.

Definition insert_item (c : RI.cols) : M unit :=
  do i <- get request_items_id_seq;
  modify (fun w => set_seqs (purchase_requests_id_seq w) (i + 1) w) ;;
  do d <- execute (InsertItem c);
  modify (set_txn (Some (db_insert_item i c d))).

(** [cursor.executemany(query, rows)] *)
Definition executemany (rows : list RI.cols) : M unit :=
  for_each insert_item rows.

(** A write: the transaction goes on with the tables [f] makes of those the
    statement ran on, which are handed back for what RETURNING reads. *)
Definition update (s : stmt) (f : db -> db) : M db :=
  do d <- execute s;
  modify (set_txn (Some (f d))) ;;
  ret d.

(** ** DatabaseManager *)

Definition msg_not_connected : string := "اتصال به دیتابیس برقرار نیست".
Definition msg_no_connection : string := "خطا در دریافت اتصال".

(** [d[k]] and [d.get(k, default)] *)
Definition getitem (d : dict) (k : string) : M val :=
  match d !! k with
  | Some v => ret v
  | None => raise (KeyError k)
  end.

Definition dict_get (d : dict) (k : string) (dflt : val) : val :=
  default dflt (d !! k).

Fixpoint map_M {A B} (f : A -> M B) (l : list A) : M (list B) :=
  match l with
  | [] => ret []
  | x :: l' => do y <- f x; do ys <- map_M f l'; ret (y :: ys)
  end.

Definition _initialize_pool : M (option bool) :=
  try_except
    (do up <- get server_up;
     if up
     then modify (set_pool (Some (Pool minconn 0 false))) ;;
          modify (set_connected true) ;;
          ret (Some true)
     else raise (Error "could not connect to server"))
    is_Error
    (fun _ => modify (set_connected false) ;; ret (Some false)).

Definition __init__ : M unit :=
  modify (set_pool None) ;;
  modify (set_connected false) ;;
  _initialize_pool ;;
  ret tt.

Definition get_connection : M (option connection) :=
  do p <- get connection_pool;
  match p with
  | Some p =>
      try_except (do c <- getconn p; ret (Some c)) is_Error (fun _ => ret None)
  | None => ret None
  end.

Definition return_connection (c : option connection) : M unit :=
  do p <- get connection_pool;
  match p, c with
  | Some p, Some c => putconn p c
  | _, _ => ret tt
  end.

Definition close_all_connections : M unit :=
  do p <- get connection_pool;
  match p with
  | Some p => if closed p then raise (Error "connection pool is closed")
              else modify (set_pool (Some (Pool 0 0 true)))
  | None => ret tt
  end.

(** [self.connection_pool.getconn()] and [.putconn(conn)], on an attribute
    that may hold [None]. *)
Definition pool_getconn : M connection :=
  do p <- get connection_pool;
  match p with
  | Some p => getconn p
  | None => raise (AttributeError "'NoneType' object has no attribute 'getconn'")
  end.

Definition pool_putconn (c : connection) : M unit :=
  do p <- get connection_pool;
  match p with
  | Some p => putconn p c
  | None => raise (AttributeError "'NoneType' object has no attribute 'putconn'")
  end.

Definition get_max_request_number : M val :=
  do connected <- get is_connected;
  if negb connected then ret VNone else
  do connection <- get_connection;
  match connection with
  | None => ret VNone
  | Some conn =>
      try_finally
        (try_except
           (do d <- execute SelectMaxRequestNumber;
            ret (max_request_number d))
           is_Error (fun _ => ret VNone))
        (return_connection (Some conn))
  end.

(** The parameters of the two INSERT statements, read off the dicts in the
    order the tuples are written. *)
Definition request_params (request_data : dict) : M PR.cols :=
  do request_number <- getitem request_data "request_number";
  do request_date_jalali <- getitem request_data "request_date_jalali";
  do request_date_gregorian <- getitem request_data "request_date_gregorian";
  do requesting_unit <- getitem request_data "requesting_unit";
  do requester_name <- getitem request_data "requester_name";
  do pdf_file_path <- getitem request_data "pdf_file_path";
  do year <- getitem request_data "year";
  do month <- getitem request_data "month";
  do month_name <- getitem request_data "month_name";
  ret (PR.Cols request_number request_date_jalali request_date_gregorian
         requesting_unit requester_name pdf_file_path year month month_name
         (dict_get request_data "status" (VStr "pending"))).

Definition item_params (request_id : Z) (item : dict) : M RI.cols :=
  do row_number <- getitem item "row_number";
  do description <- getitem item "description";
  do quantity <- getitem item "quantity";
  do unit <- getitem item "unit";
  do notes <- getitem item "notes";
  ret (RI.Cols request_id row_number description quantity unit
         (dict_get item "purchase_location" (VStr "تهران")) notes).

Definition save_request (request_data : dict) (items_data : list dict)
  : M (bool * option Z * option string) :=
  do connected <- get is_connected;
  if negb connected then ret (false, None, Some msg_not_connected) else
  do connection <- get_connection;
  match connection with
  | None => ret (false, None, Some msg_no_connection)
  | Some conn =>
      try_finally
        (try_except
           (do params <- request_params request_data;
            do request_id <- insert_request params;
            match items_data with
            | [] => ret tt
            | _ :: _ =>
                do items_to_insert <- map_M (item_params request_id) items_data;
                executemany items_to_insert
            end ;;
            commit ;;
            ret (true, Some request_id, None))
           is_Error
           (fun e =>
              rollback ;;
              ret (false, None, Some ("خطا در ذخیره درخواست: " +:+ str_exn e))))
        (return_connection (Some conn))
  end.

Definition get_request_by_id (request_id : Z)
  : M (option (PR.row * list RI.row)) :=
  do connected <- get is_connected;
  if negb connected then ret None else
  do connection <- get_connection;
  match connection with
  | None => ret None
  | Some conn =>
      try_finally
        (try_except
           (do d <- execute (SelectRequestById request_id);
            match head (requests_by_id request_id d) with
            | None => ret None
            | Some request =>
                do d' <- execute (SelectItemsByRequest request_id);
                ret (Some (request, items_of request_id d'))
            end)
           is_Error (fun _ => ret None))
        (return_connection (Some conn))
  end.

Definition get_request_by_number (request_number : val) : M (option PR.row) :=
  do connected <- get is_connected;
  if negb connected then ret None else
  do connection <- get_connection;
  match connection with
  | None => ret None
  | Some conn =>
      try_finally
        (try_except
           (do d <- execute (SelectRequestByNumber request_number);
            ret (head (requests_by_number request_number d)))
           is_Error (fun _ => ret None))
        (return_connection (Some conn))
  end.

Definition delete_request (request_id : Z) : M (bool * option string) :=
  do connected <- get is_connected;
  if negb connected then ret (false, Some msg_not_connected) else
  do connection <- get_connection;
  match connection with
  | None => ret (false, Some msg_no_connection)
  | Some conn =>
      try_finally
        (try_except
           (update (DeleteRequest request_id) (db_delete request_id) ;;
            commit ;;
            ret (true, None))
           is_Error
           (fun e =>
              rollback ;;
              ret (false, Some ("خطا در حذف درخواست: " +:+ str_exn e))))
        (return_connection (Some conn))
  end.

Definition test_connection : M bool :=
  do connection <- get_connection;
  match connection with
  | Some conn =>
      try_finally
        (try_except
           (execute SelectVersion ;; ret true)
           is_Error (fun _ => ret false))
        (return_connection (Some conn))
  | None => ret false
  end.

Definition valid_statuses : list string :=
  ["pending"; "approved"; "rejected"; "completed"].

(** [', '.join(l)] *)
Fixpoint join (sep : string) (l : list string) : string :=
  match l with
  | [] => ""
  | [x] => x
  | x :: l' => x +:+ sep +:+ join sep l'
  end.

Definition msg_invalid_status : string :=
  "وضعیت نامعتبر. مقادیر مجاز: " +:+ join ", " valid_statuses.
Definition msg_not_found : string := "درخواست مورد نظر یافت نشد".

(** [conn] is still [None] when getconn raises: the handler then has
    nothing to roll back and the finally clause nothing to put away. *)
Definition update_request_status (request_id : Z) (new_status : val)
  : M (bool * option string) :=
  if negb (bool_decide (new_status ∈ VStr <$> valid_statuses))
  then ret (false, Some msg_invalid_status)
  else
    do c <- attempt pool_getconn;
    match c with
    | Raise e => ret (false, Some ("خطا در تغییر وضعیت: " +:+ str_exn e))
    | Return conn =>
        try_finally
          (try_except
             (do d <- update (UpdateStatus new_status request_id)
                        (db_update_status new_status request_id);
              match head (returning_number (requests_by_id request_id d)) with
              | None => ret (false, Some msg_not_found)
              | Some _ => commit ;; ret (true, None)
              end)
             is_Exception
             (fun e =>
                rollback ;;
                ret (false, Some ("خطا در تغییر وضعیت: " +:+ str_exn e))))
          (pool_putconn conn)
    end.

Definition search_in_items (search_text : val)
  : M (option (list Match.row) * option string) :=
  do connected <- get is_connected;
  if negb connected then ret (None, Some "دیتابیس متصل نیست") else
  do c <- attempt pool_getconn;
  match c with
  | Raise e => ret (None, Some (str_exn e))
  | Return conn =>
      try_except
        (let search_pattern := "%" +:+ str search_text +:+ "%" in
         do d <- execute (SelectItemsILike search_pattern search_pattern);
         pool_putconn conn ;;
         ret (Some (items_like search_pattern search_pattern d), None))
        is_Exception
        (fun e => pool_putconn conn ;; ret (None, Some (str_exn e)))
  end.

Definition get_request_items (request_id : Z) : M (list RI.row) :=
  do connected <- get is_connected;
  if negb connected then ret [] else
  do connection <- get_connection;
  match connection with
  | None => ret []
  | Some conn =>
      try_finally
        (try_except
           (do d <- execute (SelectItemsByRequest request_id);
            ret (items_of request_id d))
           is_Error (fun _ => ret []))
        (return_connection (Some conn))
  end.

Definition check_duplicate_request_number (request_number : val)
  : M (bool * option PR.row) :=
  do connected <- get is_connected;
  if negb connected then ret (false, None) else
  do connection <- get_connection;
  match connection with
  | None => ret (false, None)
  | Some conn =>
      try_finally
        (try_except
           (do d <- execute (SelectActiveByNumber request_number);
            match head (active_by_number request_number d) with
            | Some result => ret (true, Some result)
            | None => ret (false, None)
            end)
           is_Error (fun _ => ret (false, None)))
        (return_connection (Some conn))
  end.

Definition msg_not_restorable : string := "درخواست یافت نشد یا حذف نشده است".

Definition restore_request (request_id : Z) : M (bool * option string) :=
  do connected <- get is_connected;
  if negb connected then ret (false, Some msg_not_connected) else
  do connection <- get_connection;
  match connection with
  | None => ret (false, Some msg_no_connection)
  | Some conn =>
      try_finally
        (try_except
           (do d <- update (ClearDeletedAt request_id) (db_restore request_id);
            match head (returning_number
                          (filter (restorable request_id) (purchase_requests d))) with
            | None => ret (false, Some msg_not_restorable)
            | Some _ => commit ;; ret (true, None)
            end)
           is_Error
           (fun e =>
              rollback ;;
              ret (false, Some ("خطا در بازیابی درخواست: " +:+ str_exn e))))
        (return_connection (Some conn))
  end.

(** [if key in filters and filters[key]: query += ...; params.append(...)] *)
Definition add_clause (filters : dict) (key : string) (mk : val -> clause)
    (query : list clause) : list clause :=
  match filters !! key with
  | Some v => if truthy v then query ++ [mk v] else query
  | None => query
  end.

Definition substring_pattern (v : val) : string := "%" +:+ str v +:+ "%".

Definition build_query (filters : option dict) (include_deleted : bool)
  : list clause :=
  let query := if include_deleted then [] else [DeletedAtIsNull] in
  match filters with
  | None => query
  | Some f =>
      if bool_decide (f = ∅) then query else
      let query := add_clause f "request_number" RequestNumberEq query in
      let query := add_clause f "requester_name"
                     (fun v => RequesterNameILike (substring_pattern v)) query in
      let query := add_clause f "requesting_unit"
                     (fun v => RequestingUnitILike (substring_pattern v)) query in
      let query := add_clause f "year" YearEq query in
      let query := add_clause f "month" MonthEq query in
      let query := add_clause f "status" StatusEq query in
      let query := add_clause f "date_from" DateGe query in
      add_clause f "date_to" DateLe query
  end.

Definition search_requests (filters : option dict) (include_deleted : bool)
  : M (list found) :=
  do connected <- get is_connected;
  if negb connected then ret [] else
  do connection <- get_connection;
  match connection with
  | None => ret []
  | Some conn =>
      try_finally
        (try_except
           (let query := build_query filters include_deleted in
            do d <- execute (SelectRequests query);
            ret (select_requests query d))
           is_Error (fun _ => ret []))
        (return_connection (Some conn))
  end.

Record statistics : Type := Statistics {
  total : nat;
  pending : nat;
  approved : nat;
  rejected : nat;
  completed : nat }.

Definition no_statistics : statistics := Statistics 0 0 0 0 0.

Definition select_count (s : option string) : M nat :=
  do d <- execute (SelectCount s);
  ret (count_requests s d).

Definition get_statistics : M statistics :=
  do connected <- get is_connected;
  if negb connected then ret no_statistics else
  do connection <- get_connection;
  match connection with
  | None => ret no_statistics
  | Some conn =>
      try_finally
        (try_except
           (do total <- select_count None;
            do pending <- select_count (Some "pending");
            do approved <- select_count (Some "approved");
            do rejected <- select_count (Some "rejected");
            do completed <- select_count (Some "completed");
            ret (Statistics total pending approved rejected completed))
           is_Error (fun _ => ret no_statistics))
        (return_connection (Some conn))
  end.

End Engine.

(** ** Vocabulary of the properties *)

(** A call can get a connection: the pool exists, is open, and holds an
    idle connection or may open one more. *)
Definition can_acquire (w : world) : bool :=
  match connection_pool w with
  | Some p => negb (closed p)
              && (negb (idle p =? 0)%nat
                  || ((used p <? maxconn)%nat && server_up w))
  | None => false
  end.

(** The world after a successful [get_connection], and after the connection
    went back. *)
Definition acquire (w : world) : world :=
  match connection_pool w with
  | Some p => log Getconn (set_pool (Some (take p)) w)
  | None => w
  end.

Definition release (w : world) : world :=
  match connection_pool w with
  | Some p => log Putconn (set_txn None (set_pool (Some (put p)) w))
  | None => w
  end.

(** The manager is connected, a connection can be had and no transaction is
    left open: the state between two calls of a connected manager. *)
Definition ready (w : world) : Prop :=
  is_connected w = true ∧ can_acquire w = true ∧ txn w = None.

(** Computations that only read their arguments: they leave the world alone
    and raise nothing the driver would raise. *)
Definition lookup_only {A} (m : M A) : Prop :=
  ∃ r, (∀ w, m w = (r, w)) ∧ ∀ e, r = Raise e → is_Error e = false.

(** The keys [save_request] subscripts. *)
Definition request_fields : list string :=
  ["request_number"; "request_date_jalali"; "request_date_gregorian";
   "requesting_unit"; "requester_name"; "pdf_file_path"; "year"; "month";
   "month_name"].
Definition item_fields : list string :=
  ["row_number"; "description"; "quantity"; "unit"; "notes"].

Definition has_fields (fields : list string) (d : dict) : Prop :=
  Forall (λ k, is_Some (d !! k)) fields.

(** The outcome [r] in world [w'] of [save_request rd items] started in [w]
    is all or nothing: success with the request row and one accepted row per
    item appended to the tables, or a failure with the tables as they were.
    The failure is a (False, None, message) triple, or the exception a
    subscript raised on a dict that lacks the key. *)
Definition all_or_nothing (fault : db → stmt → option string)
    (rd : dict) (items : list dict) (w : world)
    (r : outcome (bool * option Z * option string)) (w' : world) : Prop :=
  (∃ request_id params new_items,
      r = Return (true, Some request_id, None)
      ∧ request_id = purchase_requests_id_seq w
      ∧ (request_params rd w).1 = Return params
      ∧ (map_M (item_params request_id) items w).1 = Return (RI.data <$> new_items)
      ∧ length new_items = length items
      ∧ Forall (λ it, RI.request_id (RI.data it) = request_id) new_items
      ∧ Forall (λ it, ∃ d, fault d (InsertItem (RI.data it)) = None) new_items
      ∧ committed w' =
          Db (purchase_requests (committed w) ++ [PR.Row request_id params None])
             (request_items (committed w) ++ new_items))
  ∨ (committed w' = committed w
     ∧ ((∃ msg, r = Return (false, None, Some msg))
        ∨ ∃ e, r = Raise e
               ∧ ((request_params rd w).1 = Raise e
                  ∨ (map_M (item_params (purchase_requests_id_seq w)) items w).1
                    = Raise e))).

(** The rows a search selects.  A filter counts when its key is in the dict
    and its value is true in Python's sense; a row is selected when it
    passes every filter that counts and, unless deleted rows are asked for,
    is active.  [name_test text cell] is the test the two name filters
    apply. *)
Definition filter_passes (filters : option dict) (key : string)
    (test : val → bool) : bool :=
  match filters with
  | Some f =>
      match f !! key with
      | Some v => if truthy v then test v else true
      | None => true
      end
  | None => true
  end.

Definition selected_with (name_test : val → val → bool)
    (filters : option dict) (include_deleted : bool) (r : PR.row) : Prop :=
  (include_deleted || bool_decide (active r))
  && filter_passes filters "request_number" (λ v, sql_eq (number_of r) v)
  && filter_passes filters "requester_name"
       (λ v, name_test v (PR.requester_name (PR.data r)))
  && filter_passes filters "requesting_unit"
       (λ v, name_test v (PR.requesting_unit (PR.data r)))
  && filter_passes filters "year" (λ v, sql_eq (PR.year (PR.data r)) v)
  && filter_passes filters "month" (λ v, sql_eq (PR.month (PR.data r)) v)
  && filter_passes filters "status" (λ v, sql_eq (status_of r) v)
  && filter_passes filters "date_from"
       (λ v, sql_le v (PR.request_date_gregorian (PR.data r)))
  && filter_passes filters "date_to"
       (λ v, sql_le (PR.request_date_gregorian (PR.data r)) v)
  = true.

#[global] Instance selected_with_dec name_test filters include_deleted r :
  Decision (selected_with name_test filters include_deleted r).
Proof. unfold selected_with. apply _. Defined.

(** As the query has it: the name filters are ILIKE against %text%. *)
Definition selected : option dict → bool → PR.row → Prop :=
  selected_with (λ v cell, ilike cell (substring_pattern v)).

(** As the specification words it: the name filters are case-insensitive
    substring tests. *)
Definition selected_by_substring : option dict → bool → PR.row → Prop :=
  selected_with (λ v cell, icontains (str v) cell).

(** The texts of the two name filters hold no character LIKE gives a
    meaning to. *)
Definition plain_names (filters : option dict) : Prop :=
  ∀ f key v, filters = Some f →
             key ∈ ["requester_name"; "requesting_unit"] →
             f !! key = Some v → plain (str v) = true.

(** The shape most methods share: the flag, a connection, the body under
    try, the connection put back under finally. *)
Definition with_connection {A} (not_connected no_connection : A)
    (body : M A) : M A :=
  do connected <- get is_connected;
  if negb connected then ret not_connected else
  do connection <- get_connection;
  match connection with
  | None => ret no_connection
  | Some conn => try_finally body (return_connection (Some conn))
  end.

(** [m] never takes the world out of the relation [I]. *)
Definition keeps (I : relation world) {A} (m : M A) : Prop :=
  ∀ w, I w (m w).2.

(** The manager's side of the world, and the committed tables. *)
Definition same_manager : relation world :=
  λ w w', connection_pool w' = connection_pool w
          ∧ is_connected w' = is_connected w
          ∧ server_up w' = server_up w.

Definition same_tables : relation world :=
  λ w w', committed w' = committed w.

(** Connections handed out and not yet put back. *)
Definition in_use (w : world) : option nat := used <$> connection_pool w.

(** [m] leaves no connection out and no transaction open, and a manager
    that was ready for a call is ready for the next. *)
Definition returns_connection {A} (m : M A) : Prop :=
  ∀ w, txn w = None →
       txn (m w).2 = None
       ∧ in_use (m w).2 = in_use w
       ∧ (ready w → ready (m w).2).

(** Neither the flag nor whether there is a pool, open or closed, differs. *)
Definition same_connectivity : relation world :=
  λ w w', is_connected w' = is_connected w
          ∧ closed <$> connection_pool w' = closed <$> connection_pool w.

(** The invariant [K] goes from a world to the next. *)
Definition carries (K : world → Prop) : relation world := λ w w', K w → K w'.

(** The tables a session can see: the committed ones and those of the open
    transaction. *)
Definition tables_of (w : world) : list db :=
  committed w :: match txn w with Some d => [d] | None => [] end.

(** Every id in purchase_requests came out of the sequence, and every item
    belongs to a request that is there. *)
Definition ids_below (s : Z) (d : db) : Prop :=
  ∀ r, r ∈ purchase_requests d → (PR.id r < s)%Z.

Definition no_orphans (d : db) : Prop :=
  ∀ it, it ∈ request_items d →
        ∃ r, r ∈ purchase_requests d ∧ PR.id r = RI.request_id (RI.data it).

(** [P] holds of every table in sight, at the value of the sequence. *)
Definition throughout (P : Z → db → Prop) (w : world) : Prop :=
  ∀ d, d ∈ tables_of w → P (purchase_requests_id_seq w) d.

Definition ids_in_sequence : world → Prop := throughout ids_below.
Definition items_owned : world → Prop := throughout (λ _, no_orphans).

Definition consistent (w : world) : Prop :=
  ids_below (purchase_requests_id_seq w) (committed w)
  ∧ no_orphans (committed w).

(** ** Worlds and arguments the properties are tried on *)

(** Three servers: one that refuses nothing, one that refuses the item
    described as "Paper", one that fails every statement. *)
Definition no_fault : db → stmt → option string := λ _ _, None.

Definition refuse_paper : db → stmt → option string :=
  λ _ s,
    match s with
    | InsertItem c =>
        if bool_decide (RI.description c = VStr "Paper")
        then Some "value too long for type character varying(3)"
        else None
    | _ => None
    end.

Definition server_gone : db → stmt → option string :=
  λ _ _, Some "server closed the connection unexpectedly".

(** Before [__init__], with the server reachable or not. *)
Definition boot : world := World None false true empty_db None 1 1 [].
Definition boot_down : world := World None false false empty_db None 1 1 [].

Definition online : world := (__init__ boot).2.
Definition offline : world := (__init__ boot_down).2.

Definition request_1001 : dict :=
  {[ "request_number" := VStr "1001";
     "request_date_jalali" := VStr "1403/01/01";
     "request_date_gregorian" := VStr "2024-03-20";
     "requesting_unit" := VStr "IT";
     "requester_name" := VStr "Ali";
     "pdf_file_path" := VStr "1001.pdf";
     "year" := VInt 1403;
     "month" := VInt 1;
     "month_name" := VStr "Farvardin" ]}.

Definition item_n (n : Z) (description : string) : dict :=
  {[ "row_number" := VInt n;
     "description" := VStr description;
     "quantity" := VInt 2;
     "unit" := VStr "box";
     "notes" := VNone ]}.

Definition two_items : list dict := [item_n 1 "Pen"; item_n 2 "Paper"].

(** The manager after request 1001 and its two items were saved, and after
    a request was saved under a status of the caller's invention. *)
Definition saved : world :=
  (save_request no_fault request_1001 two_items online).2.

Definition archived : world :=
  (save_request no_fault (<["status" := VStr "archived"]> request_1001) []
     online).2.

(** Tables in which request 1001 is soft-deleted and still owns an item. *)
Definition deleted_1001 : PR.row :=
  PR.Row 1
    (PR.Cols (VStr "1001") (VStr "1403/01/01") (VStr "2024-03-20") (VStr "IT")
       (VStr "Ali") (VStr "1001.pdf") (VInt 1403) (VInt 1) (VStr "Farvardin")
       (VStr "pending"))
    (Some 1730000000%Z).

Definition pen_of_1001 : RI.row :=
  RI.Row 1 (RI.Cols 1 (VInt 1) (VStr "Pen") (VInt 2) (VStr "box")
              (VStr "Tehran") VNone).

Definition bin : world :=
  set_committed (Db [deleted_1001] [pen_of_1001]) online.

(** A second request under the number of the soft-deleted one, the tables
    that hold both, and the manager after [close_all_connections]. *)
Definition active_1001 : PR.row := PR.Row 2 (PR.data deleted_1001) None.

Definition reissued : world :=
  set_committed (Db [deleted_1001; active_1001] [pen_of_1001])
    (set_seqs 3 2 online).

Definition closed_down : world := (close_all_connections online).2.

(** ** Properties *)

Section Properties.
Variable fault : db -> stmt -> option string.

Lemma get_connection_some w :
  can_acquire w = true → get_connection w = (Return (Some Conn), acquire w).
Proof.
  unfold can_acquire, get_connection, acquire, bind, get, try_except, getconn.
  destruct (connection_pool w) as [p|]; [|done].
  rewrite (Nat.leb_antisym (used p)).
  destruct (closed p), (idle p =? 0)%nat, (used p <? maxconn)%nat,
    (server_up w); by cbn.
Qed.

Lemma get_connection_none w :
  can_acquire w = false → get_connection w = (Return None, w).
Proof.
  unfold can_acquire, get_connection, bind, get, try_except, getconn.
  destruct (connection_pool w) as [p|]; [|done].
  rewrite (Nat.leb_antisym (used p)).
  destruct (closed p), (idle p =? 0)%nat, (used p <? maxconn)%nat,
    (server_up w); by cbn.
Qed.

Lemma acquire_pool w :
  can_acquire w = true → ∃ p, connection_pool (acquire w) = Some p ∧ closed p = false.
Proof.
  unfold can_acquire, acquire. destruct (connection_pool w) as [p|]; [|done].
  intros _. by exists (take p).
Qed.

Lemma return_connection_open w p :
  connection_pool w = Some p → closed p = false →
  return_connection (Some Conn) w = (Return tt, release w).
Proof.
  intros Hp Hc. unfold return_connection, release, bind, get, putconn.
  by rewrite Hp, Hc.
Qed.

Lemma lookup_only_ret {A} (a : A) : lookup_only (ret a).
Proof. exists (Return a). by split. Qed.

Lemma lookup_only_getitem d k : lookup_only (getitem d k).
Proof.
  unfold getitem. destruct (d !! k) as [v|].
  - apply lookup_only_ret.
  - exists (Raise (KeyError k)). split; [done|]. by intros e [= <-].
Qed.

Lemma lookup_only_bind {A B} (m : M A) (k : A → M B) :
  lookup_only m → (∀ a, lookup_only (k a)) → lookup_only (bind m k).
Proof.
  intros [r [Hm He]] Hk. destruct r as [a|e].
  - destruct (Hk a) as [r' [Hr' He']]. exists r'. split; [|done].
    intros w. unfold bind. by rewrite Hm, Hr'.
  - exists (Raise e). split; [|by intros e' [= <-]; apply He].
    intros w. unfold bind. by rewrite Hm.
Qed.

Lemma lookup_only_map_M {A B} (f : A → M B) l :
  (∀ a, lookup_only (f a)) → lookup_only (map_M f l).
Proof.
  intros Hf. induction l as [|x l IH]; simpl.
  - apply lookup_only_ret.
  - apply lookup_only_bind; [done|]. intros y.
    apply lookup_only_bind; [done|]. intros ys. apply lookup_only_ret.
Qed.

Lemma lookup_only_request_params rd : lookup_only (request_params rd).
Proof.
  unfold request_params.
  repeat (apply lookup_only_bind; [apply lookup_only_getitem|intros ?]).
  apply lookup_only_ret.
Qed.

Lemma lookup_only_item_params i item : lookup_only (item_params i item).
Proof.
  unfold item_params.
  repeat (apply lookup_only_bind; [apply lookup_only_getitem|intros ?]).
  apply lookup_only_ret.
Qed.

Lemma item_params_owner i item w c :
  (item_params i item w).1 = Return c → RI.request_id c = i.
Proof.
  unfold item_params, getitem, bind, ret, raise.
  repeat (match goal with |- context [?d !! ?k] => destruct (d !! k) end;
          [|by intros [=]]).
  by intros [= <-].
Qed.

Lemma map_M_item_params i items : ∀ w cols,
  (map_M (item_params i) items w).1 = Return cols →
  length cols = length items ∧ Forall (λ c, RI.request_id c = i) cols.
Proof.
  induction items as [|item items IH]; intros w cols.
  - by intros [= <-].
  - cbn [map_M]. unfold bind at 1.
    destruct (lookup_only_item_params i item) as (r & Hr & _).
    pose proof (item_params_owner i item w) as Hown. rewrite Hr in *.
    destruct r as [c|e]; [|by intros [=]].
    unfold bind at 1. specialize (IH w).
    destruct (map_M (item_params i) items w) as [[cs|e] w1]; [|by intros [=]].
    intros [= <-]. destruct (IH cs eq_refl) as [Hlen Hall].
    split; [by rewrite !length_cons, Hlen|]. constructor; [by apply Hown|done].
Qed.

Lemma lookup_only_run {A} (m : M A) w :
  lookup_only m → m w = ((m w).1, w) ∧ ∀ w', (m w').1 = (m w).1.
Proof. intros [r [Hm _]]. split; [|intros w']; by rewrite !Hm. Qed.


Lemma insert_item_run c w d :
  txn w = Some d →
  insert_item fault c w =
    let i := request_items_id_seq w in
    let w1 := log (Execute (InsertItem c))
                (set_txn (Some d) (set_seqs (purchase_requests_id_seq w) (i + 1) w)) in
    match fault d (InsertItem c) with
    | Some msg => (Raise (Error msg), w1)
    | None => (Return tt, set_txn (Some (db_insert_item i c d)) w1)
    end.
Proof.
  intros Hd. unfold insert_item, bind, get, modify, execute, snapshot.
  simpl. rewrite Hd. simpl. by destruct (fault d (InsertItem c)).
Qed.

Lemma executemany_spec rows : ∀ w d, txn w = Some d →
  ∃ r w', executemany fault rows w = (r, w')
    ∧ committed w' = committed w
    ∧ connection_pool w' = connection_pool w
    ∧ ((∀ d s, fault d s = None) → r = Return tt)
    ∧ match r with
      | Return _ =>
          ∃ new, txn w' = Some (Db (purchase_requests d) (request_items d ++ new))
                 ∧ RI.data <$> new = rows
                 ∧ Forall (λ c, ∃ d', fault d' (InsertItem c) = None) rows
      | Raise e => is_Error e = true
      end.
Proof.
  induction rows as [|c rows IH]; intros w d Hd.
  - exists (Return tt), w. repeat split; try done.
    exists []. by rewrite app_nil_r, Hd; destruct d.
  - unfold executemany in *. simpl. unfold bind.
    rewrite (insert_item_run c w d Hd). simpl.
    destruct (fault d (InsertItem c)) as [msg|] eqn:Hf.
    + eexists _, _. split; [done|]. simpl. repeat split; try done.
      intros H. by rewrite H in Hf.
    + match goal with |- context [for_each _ rows ?w1] =>
        destruct (IH w1 (db_insert_item (request_items_id_seq w) c d) eq_refl)
          as (r & w' & Hrun & Hc & Hp & Hok & Hr) end.
      rewrite Hrun.
      exists r, w'. split; [done|]. repeat split; try done.
      destruct r as [[]|e]; [|done].
      destruct Hr as (new & Ht & Hnew & Hacc). simpl in Ht.
      exists (RI.Row (request_items_id_seq w) c :: new).
      rewrite Ht. split; [by rewrite <- app_assoc|].
      split; [rewrite fmap_cons; by f_equal|].
      constructor; [by exists d|done].
Qed.


Lemma bind_run {A B} (m : M A) (k : A → M B) w :
  bind m k w = match m w with
               | (Return a, w') => k a w'
               | (Raise e, w') => (Raise e, w')
               end.
Proof. done. Qed.

Lemma insert_request_run c w :
  insert_request fault c w =
    let i := purchase_requests_id_seq w in
    let d := snapshot w in
    let w1 := log (Execute (InsertRequest c))
                (set_txn (Some d) (set_seqs (i + 1) (request_items_id_seq w) w)) in
    match fault d (InsertRequest c) with
    | Some msg => (Raise (Error msg), w1)
    | None => (Return i, set_txn (Some (db_insert_request i c d)) w1)
    end.
Proof.
  unfold insert_request, bind, get, modify, execute, snapshot. simpl.
  by destruct (fault _ _).
Qed.

Lemma commit_run w :
  commit fault w =
    match fault (snapshot w) Commit with
    | Some msg => (Raise (Error msg), log (Execute Commit) w)
    | None => (Return tt, set_txn None (set_committed (snapshot w) (log (Execute Commit) w)))
    end.
Proof. done. Qed.

Lemma release_spec w p :
  connection_pool w = Some p →
  txn (release w) = None ∧ committed (release w) = committed w.
Proof. intros Hp. unfold release. by rewrite Hp. Qed.

Lemma items_step i items x d w0 :
  txn x = Some d →
  ∃ r x',
    (match items with
     | [] => ret tt
     | _ :: _ =>
         do items_to_insert <- map_M (item_params i) items;
         executemany fault items_to_insert
     end) x = (r, x')
    ∧ committed x' = committed x
    ∧ connection_pool x' = connection_pool x
    ∧ (∀ cols, (∀ d s, fault d s = None) →
         (map_M (item_params i) items w0).1 = Return cols → r = Return tt)
    ∧ match r with
      | Return _ =>
          ∃ new, txn x' = Some (Db (purchase_requests d) (request_items d ++ new))
                 ∧ (map_M (item_params i) items w0).1 = Return (RI.data <$> new)
                 ∧ Forall (λ it, ∃ d', fault d' (InsertItem (RI.data it)) = None) new
      | Raise e =>
          is_Error e = true ∨ (map_M (item_params i) items w0).1 = Raise e
      end.
Proof.
  intros Hd. destruct items as [|it items'].
  - exists (Return tt), x. repeat split; try done.
    exists []. by rewrite app_nil_r, Hd; destruct d.
  - remember (it :: items') as l eqn:Hl. clear Hl.
    assert (Hpure : lookup_only (map_M (item_params i) l)).
    { apply lookup_only_map_M. intros a. apply lookup_only_item_params. }
    destruct Hpure as (r0 & Hr0 & _).
    rewrite bind_run, !Hr0. cbn [fst].
    destruct r0 as [cols|e].
    + destruct (executemany_spec cols x d Hd) as (r & x' & Hrun & Hc & Hp & Hok & Hr).
      exists r, x'. rewrite Hrun. repeat split; try done.
      * intros _ Hnf _. by apply Hok.
      * destruct r as [[]|e]; [|by left]. destruct Hr as (new & Ht & Hnew & Hacc).
        exists new. rewrite Hnew. repeat split; try done.
        rewrite <- Hnew, Forall_fmap in Hacc. exact Hacc.
    + exists (Raise e), x. repeat split; try done. by right.
Qed.

Lemma save_request_run rd items w :
  ready w →
  ∃ r w', save_request fault rd items w = (r, w')
    ∧ txn w' = None ∧ all_or_nothing fault rd items w r w'
    ∧ (∀ params cols,
         (∀ d s, fault d s = None) →
         (request_params rd w).1 = Return params →
         (map_M (item_params (purchase_requests_id_seq w)) items w).1 = Return cols →
         r = Return (true, Some (purchase_requests_id_seq w), None)).
Proof.
  intros (Hc & Ha & Ht).
  destruct (acquire_pool w Ha) as (p & Hp & Hcl).
  assert (Hca : committed (acquire w) = committed w).
  { unfold acquire. by destruct (connection_pool w). }
  assert (Hta : txn (acquire w) = None).
  { unfold acquire. by destruct (connection_pool w). }
  assert (Hsa : purchase_requests_id_seq (acquire w) = purchase_requests_id_seq w).
  { unfold acquire. by destruct (connection_pool w). }
  assert (Hfin : ∀ x, connection_pool x = Some p →
            return_connection (Some Conn) x = (Return tt, release x)
            ∧ txn (release x) = None ∧ committed (release x) = committed x).
  { intros x Hx. split; [by apply (return_connection_open x p)|].
    by apply (release_spec x p). }
  destruct (save_request fault rd items w) as [r w'] eqn:Hrun.
  exists r, w'. split; [done|].
  unfold save_request in Hrun. rewrite bind_run in Hrun. unfold get at 1 in Hrun.
  rewrite Hc in Hrun. cbn [negb] in Hrun. cbv beta iota in Hrun.
  rewrite bind_run, (get_connection_some w Ha) in Hrun. cbv beta iota in Hrun.
  unfold try_finally, try_except in Hrun.
  rewrite bind_run in Hrun.
  destruct (lookup_only_run (request_params rd) (acquire w) (lookup_only_request_params rd)) as [Hrp Hrp'].
  rewrite Hrp, <- (Hrp' w) in Hrun. clear Hrp Hrp'.
  destruct ((request_params rd w).1) as [params|e] eqn:Hparams.
  2:{ destruct (lookup_only_request_params rd) as (r0 & Hr0 & He0).
      rewrite Hr0 in Hparams. simpl in Hparams. rewrite (He0 e Hparams) in Hrun.
      destruct (Hfin _ Hp) as (Hf1 & Hf2 & Hf3). rewrite Hf1 in Hrun.
      injection Hrun as <- <-. split; [done|]. split.
      - right. split; [congruence|]. right. exists e. split; [done|].
        left. by rewrite Hr0.
      - by intros ? ? _ [=]. }
  rewrite bind_run, insert_request_run in Hrun. cbv zeta in Hrun.
  unfold snapshot at 1 2 3 in Hrun. rewrite Hta, Hca, Hsa in Hrun. cbn [default] in Hrun.
  destruct (fault (committed w) (InsertRequest params)) as [msg|] eqn:Hfault.
  { cbn [is_Error] in Hrun. rewrite bind_run in Hrun. unfold rollback, modify, ret in Hrun.
    match type of Hrun with context [return_connection _ ?x] =>
      destruct (Hfin x Hp) as (Hf1 & Hf2 & Hf3) end.
    rewrite Hf1 in Hrun. injection Hrun as <- <-. split; [done|]. split.
    - right. split; [by rewrite Hf3, <- Hca|]. left; eauto.
    - intros ? ? Hnf. by rewrite Hnf in Hfault. }
  rewrite bind_run in Hrun.
  match type of Hrun with context [set_txn (Some ?d) ?x] =>
    destruct (items_step (purchase_requests_id_seq w) items
                (set_txn (Some d) x) d w eq_refl)
      as (r2 & x' & Hstep & Hc' & Hp' & Hok & Hr2) end.
  rewrite Hstep in Hrun. clear Hstep.
  simpl in Hc', Hp'.
  destruct r2 as [[]|e].
  - destruct Hr2 as (new & Htx & Hmap & Hacc).
    rewrite bind_run, commit_run in Hrun. unfold snapshot in Hrun.
    rewrite Htx in Hrun. cbn [default] in Hrun.
    destruct (fault _ Commit) as [msg|] eqn:Hcommit.
    + cbn [is_Error] in Hrun. rewrite bind_run in Hrun.
      unfold rollback, modify, ret in Hrun.
      match type of Hrun with context [return_connection _ ?x] =>
        destruct (Hfin x) as (Hf1 & Hf2 & Hf3); [by simpl; rewrite Hp'|] end.
      rewrite Hf1 in Hrun. injection Hrun as <- <-. split; [done|]. split.
      * right. split; [by rewrite Hf3; simpl; rewrite Hc', <- Hca|]. left; eauto.
      * intros ? ? Hnf. by rewrite Hnf in Hcommit.
    + unfold ret in Hrun.
      match type of Hrun with context [return_connection _ ?x] =>
        destruct (Hfin x) as (Hf1 & Hf2 & Hf3); [by simpl; rewrite Hp'|] end.
      rewrite Hf1 in Hrun. injection Hrun as <- <-. split; [done|]. split; [|done].
      left. exists (purchase_requests_id_seq w), params, new.
      destruct (map_M_item_params _ _ _ _ Hmap) as [Hlen Hown].
      rewrite length_fmap in Hlen. rewrite Forall_fmap in Hown.
      repeat split; done.
  - assert (Hno : ∀ cols, (∀ d s, fault d s = None) →
        (map_M (item_params (purchase_requests_id_seq w)) items w).1 = Return cols →
        False).
    { intros cols Hnf Hcols. by specialize (Hok cols Hnf Hcols). }
    destruct (is_Error e) eqn:He.
    + rewrite bind_run in Hrun. unfold rollback, modify, ret in Hrun.
      match type of Hrun with context [return_connection _ ?x] =>
        destruct (Hfin x) as (Hf1 & Hf2 & Hf3); [by simpl; rewrite Hp'|] end.
      rewrite Hf1 in Hrun. injection Hrun as <- <-. split; [done|]. split.
      * right. split; [by rewrite Hf3; simpl; rewrite Hc', <- Hca|]. left; eauto.
      * intros ? cols Hnf _ Hm. by destruct (Hno cols Hnf Hm).
    + destruct (Hfin x') as (Hf1 & Hf2 & Hf3); [by rewrite Hp'|].
      rewrite Hf1 in Hrun. injection Hrun as <- <-. split; [done|]. split.
      * right. split; [by rewrite Hf3, Hc', <- Hca|]. right.
        exists e. split; [done|]. right. by destruct Hr2 as [[=]|Hm].
      * intros ? cols Hnf _ Hm. by destruct (Hno cols Hnf Hm).
Qed.

Lemma save_request_unavailable rd items w :
  is_connected w = false ∨ can_acquire w = false →
  ∃ msg, save_request fault rd items w = (Return (false, None, Some msg), w).
Proof.
  intros H. unfold save_request. rewrite bind_run. unfold get at 1.
  destruct (is_connected w) eqn:Hc; cbn [negb]; cbv beta iota.
  - destruct H as [[=]|Ha]. rewrite bind_run, (get_connection_none w Ha).
    by eexists.
  - by eexists.
Qed.

(** C1 (atomicity of save_request).  Started with no transaction open,
    [save_request] ends with none open and is all or nothing: either it
    returns (true, id, None) and the committed tables are the old ones plus
    the request row and one row per item, each carrying the new id, or it
    fails (a (false, None, message) result or an exception) and the committed
    tables are untouched.  In particular, when the server refuses one of the
    item rows after the request row went in, nothing of the call is visible:
    every row a reader finds was there before. *)
Theorem save_request_atomic rd items w :
  txn w = None →
  let r := (save_request fault rd items w).1 in
  let w' := (save_request fault rd items w).2 in
  txn w' = None
  ∧ all_or_nothing fault rd items w r w'
  ∧ ∀ cols c,
      (map_M (item_params (purchase_requests_id_seq w)) items w).1 = Return cols →
      c ∈ cols →
      (∀ d, fault d (InsertItem c) ≠ None) →
      committed w' = committed w
      ∧ ∀ row, row ∈ purchase_requests (committed w') →
               row ∈ purchase_requests (committed w).
Proof.
  intros Ht r w'.
  assert (H : txn w' = None ∧ all_or_nothing fault rd items w r w').
  { destruct (is_connected w) eqn:Hc; [destruct (can_acquire w) eqn:Ha|].
    - destruct (save_request_run rd items w) as (r0 & w0 & Hrun & H1 & H2 & _);
        [done|].
      subst r w'. by rewrite Hrun.
    - destruct (save_request_unavailable rd items w) as [msg Hrun]; [by right|].
      subst r w'. rewrite Hrun. split; [done|]. right. split; [done|]. left; eauto.
    - destruct (save_request_unavailable rd items w) as [msg Hrun]; [by left|].
      subst r w'. rewrite Hrun. split; [done|]. right. split; [done|]. left; eauto. }
  destruct H as [H1 H2]. split; [done|]. split; [done|].
  intros cols c Hcols Hc Hrefused.
  assert (Hsame : committed w' = committed w).
  { destruct H2 as [(i & params & new & _ & -> & _ & Hmap & _ & _ & Hacc & _)|[H2 _]];
      [|done].
    rewrite Hcols in Hmap. injection Hmap as ->.
    apply list_elem_of_fmap in Hc as (it & -> & Hit).
    rewrite Forall_forall in Hacc. destruct (Hacc it Hit) as [d Hd].
    by destruct (Hrefused d). }
  split; [done|]. by rewrite Hsame.
Qed.

Lemma request_params_ok rd w :
  has_fields request_fields rd →
  ∃ params, request_params rd w = (Return params, w)
    ∧ PR.status params = dict_get rd "status" (VStr "pending").
Proof.
  unfold has_fields, request_fields. rewrite !Forall_cons.
  intros ([? H1] & [? H2] & [? H3] & [? H4] & [? H5] & [? H6] & [? H7]
          & [? H8] & [? H9] & _).
  unfold request_params, getitem, bind.
  rewrite H1, H2, H3, H4, H5, H6, H7, H8, H9. by eexists.
Qed.

Lemma item_params_ok i item w :
  has_fields item_fields item → ∃ c, item_params i item w = (Return c, w).
Proof.
  unfold has_fields, item_fields. rewrite !Forall_cons.
  intros ([? H1] & [? H2] & [? H3] & [? H4] & [? H5] & _).
  unfold item_params, getitem, bind. rewrite H1, H2, H3, H4, H5. by eexists.
Qed.

Lemma map_M_item_params_ok i items w :
  Forall (has_fields item_fields) items →
  ∃ cols, map_M (item_params i) items w = (Return cols, w).
Proof.
  induction 1 as [|item items Hitem _ IH].
  - by exists [].
  - destruct (item_params_ok i item w Hitem) as [c Hc].
    destruct IH as [cols Hcols]. exists (c :: cols).
    cbn [map_M]. rewrite bind_run, Hc, bind_run, Hcols. done.
Qed.

(** C9 (save_request does not validate the status).  On a connected
    manager whose server refuses nothing, a request dict that holds the nine
    subscripted keys (and items that hold theirs) is saved, and the row that
    is committed carries under [status] the very value found under the key
    'status', whatever it is; 'pending' is stored only when the key is
    absent. *)
Theorem save_request_status_verbatim rd items w :
  ready w →
  (∀ d s, fault d s = None) →
  has_fields request_fields rd →
  Forall (has_fields item_fields) items →
  let request_id := purchase_requests_id_seq w in
  let w' := (save_request fault rd items w).2 in
  (save_request fault rd items w).1 = Return (true, Some request_id, None)
  ∧ ∃ row,
      purchase_requests (committed w') = purchase_requests (committed w) ++ [row]
      ∧ PR.id row = request_id
      ∧ (∀ v, rd !! "status" = Some v → status_of row = v)
      ∧ (rd !! "status" = None → status_of row = VStr "pending").
Proof.
  intros Hready Hnf Hrd Hitems request_id w'. subst request_id.
  destruct (request_params_ok rd w Hrd) as (params & Hparams & Hstatus).
  destruct (map_M_item_params_ok (purchase_requests_id_seq w) items w Hitems)
    as [cols Hcols].
  destruct (save_request_run rd items w Hready) as (r & w0 & Hrun & _ & Hcases & Hok).
  assert (Hr : r = Return (true, Some (purchase_requests_id_seq w), None)).
  { apply (Hok params cols Hnf); [by rewrite Hparams|by rewrite Hcols]. }
  subst w'. rewrite Hrun. cbn [fst snd]. split; [done|].
  destruct Hcases as [(i & params' & new & _ & -> & Hp' & _ & _ & _ & _ & Hdb)
                     |[_ [[msg ->]|(e & -> & _)]]]; [|done..].
  rewrite Hparams in Hp'. injection Hp' as <-.
  exists (PR.Row (purchase_requests_id_seq w) params None).
  rewrite Hdb. cbn. repeat split; try done.
  - intros v Hv. unfold status_of. cbn. rewrite Hstatus. unfold dict_get. by rewrite Hv.
  - intros Hv. unfold status_of. cbn. rewrite Hstatus. unfold dict_get. by rewrite Hv.
Qed.

Lemma pool_getconn_some w :
  can_acquire w = true → pool_getconn w = (Return Conn, acquire w).
Proof.
  unfold can_acquire, pool_getconn, acquire, bind, get, getconn.
  destruct (connection_pool w) as [p|]; [|done].
  rewrite (Nat.leb_antisym (used p)).
  destruct (closed p), (idle p =? 0)%nat, (used p <? maxconn)%nat,
    (server_up w); by cbn.
Qed.

Lemma pool_putconn_open w p :
  connection_pool w = Some p → closed p = false →
  pool_putconn Conn w = (Return tt, release w).
Proof.
  intros Hp Hc. unfold pool_putconn, release, bind, get, putconn.
  by rewrite Hp, Hc.
Qed.

Lemma acquire_spec w :
  committed (acquire w) = committed w
  ∧ txn (acquire w) = txn w
  ∧ is_connected (acquire w) = is_connected w
  ∧ purchase_requests_id_seq (acquire w) = purchase_requests_id_seq w.
Proof. unfold acquire. by destruct (connection_pool w). Qed.

Lemma snapshot_acquire w : txn w = None → snapshot (acquire w) = committed w.
Proof.
  intros Ht. destruct (acquire_spec w) as (Hc & Ht' & _).
  unfold snapshot. by rewrite Ht', Ht, Hc.
Qed.

(** C3 (update_status validates before it touches storage).  A status
    outside pending, approved, rejected, completed is turned down with the
    message that lists these four, and the world is the one the call started
    in: no connection was taken, no statement sent.  With a valid status and
    a connection at hand, an id that no row carries yields the not-found
    failure, and the tables stay as they were. *)
Theorem update_request_status_validates request_id new_status w :
  (new_status ∉ VStr <$> valid_statuses →
   update_request_status fault request_id new_status w =
     (Return (false,
              Some "وضعیت نامعتبر. مقادیر مجاز: pending, approved, rejected, completed"),
      w))
  ∧ (new_status ∈ VStr <$> valid_statuses →
     can_acquire w = true →
     txn w = None →
     fault (committed w) (UpdateStatus new_status request_id) = None →
     requests_by_id request_id (committed w) = [] →
     (update_request_status fault request_id new_status w).1 =
       Return (false, Some msg_not_found)
     ∧ committed (update_request_status fault request_id new_status w).2 =
         committed w).
Proof.
  split.
  - intros Hbad. unfold update_request_status.
    by rewrite bool_decide_eq_false_2.
  - intros Hok Ha Ht Hfault Hnone.
    destruct (acquire_pool w Ha) as (p & Hp & Hcl).
    assert (∃ w', update_request_status fault request_id new_status w =
                    (Return (false, Some msg_not_found), w')
                  ∧ committed w' = committed w) as (w' & -> & Hc); [|done].
    eexists. split.
    + unfold update_request_status.
      rewrite bool_decide_eq_true_2 by done. cbn [negb].
      rewrite bind_run. unfold attempt. rewrite (pool_getconn_some w Ha).
      cbv beta iota. unfold try_finally, try_except.
      rewrite bind_run. unfold update. rewrite bind_run. unfold execute at 1.
      rewrite (snapshot_acquire w Ht), Hfault. cbv beta iota zeta.
      rewrite bind_run. unfold modify at 1, ret at 1. rewrite Hnone.
      change (head (returning_number [])) with (@None val).
      cbv beta iota. unfold ret at 1.
      match goal with |- context [pool_putconn _ ?x] =>
        rewrite (pool_putconn_open x p) by done end.
      reflexivity.
    + match goal with |- committed (release ?x) = _ =>
        destruct (release_spec x p) as [_ ->]; [done|] end.
      cbn. by destruct (acquire_spec w) as (-> & _).
Qed.

Lemma filter_none {A} (P : A → Prop) `{∀ x, Decision (P x)} (l : list A) :
  (∀ x, x ∈ l → ¬ P x) → filter P l = [].
Proof.
  induction l as [|x l IH]; intros Hl; [done|].
  rewrite filter_cons_False by (apply Hl; left).
  apply IH. intros y Hy. apply Hl. by right.
Qed.

Lemma filter_head {A} (P : A → Prop) `{∀ x, Decision (P x)} (l : list A) x :
  x ∈ l → P x → is_Some (head (filter P l)).
Proof.
  intros Hx HP. apply head_is_Some. intros Hnil.
  by apply (filter_nil_not_elem_of P l x).
Qed.

Lemma db_restore_active i d row :
  row ∈ purchase_requests (db_restore i d) → PR.id row = i → active row.
Proof.
  unfold db_restore. cbn. intros Hrow Hid.
  apply list_elem_of_fmap in Hrow as (r0 & -> & _).
  destruct (decide (restorable i r0)) as [|Hn]; [done|].
  unfold active. destruct (PR.deleted_at r0) eqn:Hd; [|done].
  destruct Hn. split; [done|]. by rewrite Hd.
Qed.

Lemma restore_request_run request_id w :
  ready w →
  fault (committed w) (ClearDeletedAt request_id) = None →
  fault (db_restore request_id (committed w)) Commit = None →
  restore_request fault request_id w =
    let x := set_txn (Some (db_restore request_id (committed w)))
               (log (Execute (ClearDeletedAt request_id))
                  (set_txn (Some (committed w)) (acquire w))) in
    match head (returning_number
                  (filter (restorable request_id)
                     (purchase_requests (committed w)))) with
    | Some _ =>
        (Return (true, None),
         release (set_txn None
                    (set_committed (db_restore request_id (committed w))
                       (log (Execute Commit) x))))
    | None => (Return (false, Some msg_not_restorable), release x)
    end.
Proof.
  intros (Hc & Ha & Ht) Hfault Hcommit.
  destruct (acquire_pool w Ha) as (p & Hp & Hcl).
  unfold restore_request. rewrite bind_run. unfold get at 1. rewrite Hc.
  cbn [negb]. cbv beta iota.
  rewrite bind_run, (get_connection_some w Ha). cbv beta iota.
  unfold try_finally, try_except.
  rewrite bind_run. unfold update. rewrite bind_run. unfold execute at 1.
  rewrite (snapshot_acquire w Ht), Hfault. cbv beta iota zeta.
  rewrite bind_run. unfold modify at 1, ret at 1. cbv beta iota.
  destruct (head (returning_number
                    (filter (restorable request_id)
                       (purchase_requests (committed w))))) as [n|].
  - rewrite bind_run, commit_run.
    change (snapshot (set_txn (Some ?d) ?y)) with d.
    rewrite Hcommit. unfold ret at 1. cbv beta iota.
    match goal with |- context [return_connection _ ?x] =>
      rewrite (return_connection_open x p) by done end.
    reflexivity.
  - unfold ret at 1.
    match goal with |- context [return_connection _ ?x] =>
      rewrite (return_connection_open x p) by done end.
    reflexivity.
Qed.

(** C5 (restore_request clears the timestamp only when it is set).  On a
    connected manager whose server accepts the UPDATE and the COMMIT: when a
    row with this id is soft-deleted the call succeeds, the committed table
    is the old one with that row's timestamp cleared, and every row with
    this id is active; when every row with this id is active, or there is
    none, the call returns the failure message and the tables are as they
    were. *)
Theorem restore_request_only_when_deleted request_id w :
  ready w →
  fault (committed w) (ClearDeletedAt request_id) = None →
  fault (db_restore request_id (committed w)) Commit = None →
  let r := (restore_request fault request_id w).1 in
  let w' := (restore_request fault request_id w).2 in
  ((∃ row, row ∈ purchase_requests (committed w)
           ∧ PR.id row = request_id ∧ PR.deleted_at row ≠ None) →
   r = Return (true, None)
   ∧ committed w' = db_restore request_id (committed w)
   ∧ ∀ row, row ∈ purchase_requests (committed w') →
            PR.id row = request_id → active row)
  ∧ ((∀ row, row ∈ purchase_requests (committed w) →
             PR.id row = request_id → active row) →
     r = Return (false, Some msg_not_restorable)
     ∧ committed w' = committed w).
Proof.
  intros Hready Hfault Hcommit r w'. subst r w'.
  rewrite (restore_request_run request_id w Hready Hfault Hcommit). cbv zeta.
  destruct Hready as (_ & Ha & _).
  destruct (acquire_pool w Ha) as (p & Hp & Hcl).
  split.
  - intros (row & Hrow & Hid & Hdel).
    destruct (filter_head (restorable request_id) _ row Hrow) as [x Hx]; [done|].
    apply head_Some in Hx as [l' ->].
    change (head (returning_number (x :: l'))) with (Some (number_of x)).
    cbn [fst snd].
    match goal with |- context [release ?x] =>
      destruct (release_spec x p) as [_ ->]; [done|] end.
    cbn. repeat split; try done. intros row'. apply db_restore_active.
  - intros Hactive.
    rewrite filter_none; [|intros x Hx [Hid Hdel]; by apply Hdel, Hactive].
    change (head (returning_number [])) with (@None val).
    cbn [fst snd]. split; [done|].
    match goal with |- context [release ?x] =>
      destruct (release_spec x p) as [_ ->]; [done|] end.
    cbn. by destruct (acquire_spec w) as (-> & _).
Qed.

Lemma check_duplicate_request_number_run request_number w :
  ready w →
  check_duplicate_request_number fault request_number w =
    let x := log (Execute (SelectActiveByNumber request_number))
               (set_txn (Some (committed w)) (acquire w)) in
    match fault (committed w) (SelectActiveByNumber request_number) with
    | Some _ => (Return (false, None), release x)
    | None =>
        match head (active_by_number request_number (committed w)) with
        | Some result => (Return (true, Some result), release x)
        | None => (Return (false, None), release x)
        end
    end.
Proof.
  intros (Hc & Ha & Ht).
  destruct (acquire_pool w Ha) as (p & Hp & Hcl).
  unfold check_duplicate_request_number. rewrite bind_run. unfold get at 1.
  rewrite Hc. cbn [negb]. cbv beta iota.
  rewrite bind_run, (get_connection_some w Ha). cbv beta iota.
  unfold try_finally, try_except.
  rewrite bind_run. unfold execute at 1.
  rewrite (snapshot_acquire w Ht). cbv zeta.
  destruct (fault (committed w) (SelectActiveByNumber request_number)).
  - cbn [is_Error]. unfold ret at 1.
    match goal with |- context [return_connection _ ?x] =>
      rewrite (return_connection_open x p) by done end.
    reflexivity.
  - destruct (head (active_by_number request_number (committed w)));
      unfold ret at 1;
      match goal with |- context [return_connection _ ?x] =>
        rewrite (return_connection_open x p) by done end;
      reflexivity.
Qed.

(** C8 (a check that could not run looks like "no duplicate").  Whatever
    the number: a manager that is not connected, or that gets no
    connection, or whose query the server fails, answers (False, None)
    without touching the world in the first two cases; and so does a check
    that ran and found no active row with that number. *)
Theorem check_duplicate_unavailable_looks_free request_number w :
  (is_connected w = false ∨ can_acquire w = false →
   check_duplicate_request_number fault request_number w =
     (Return (false, None), w))
  ∧ (ready w →
     is_Some (fault (committed w) (SelectActiveByNumber request_number)) →
     (check_duplicate_request_number fault request_number w).1 =
       Return (false, None))
  ∧ (ready w →
     fault (committed w) (SelectActiveByNumber request_number) = None →
     active_by_number request_number (committed w) = [] →
     (check_duplicate_request_number fault request_number w).1 =
       Return (false, None)).
Proof.
  repeat split.
  - intros H. unfold check_duplicate_request_number.
    rewrite bind_run. unfold get at 1.
    destruct (is_connected w) eqn:Hc; cbn [negb]; cbv beta iota; [|done].
    destruct H as [[=]|Ha]. by rewrite bind_run, (get_connection_none w Ha).
  - intros Hready [msg Hmsg].
    rewrite (check_duplicate_request_number_run _ _ Hready). cbv zeta.
    by rewrite Hmsg.
  - intros Hready Hfault Hnone.
    rewrite (check_duplicate_request_number_run _ _ Hready). cbv zeta.
    by rewrite Hfault, Hnone.
Qed.

Lemma where_add_clause r f key mk query :
  forallb (clause_holds r) (add_clause f key mk query) =
    forallb (clause_holds r) query
    && filter_passes (Some f) key (λ v, clause_holds r (mk v)).
Proof.
  unfold add_clause, filter_passes.
  destruct (f !! key) as [v|]; [|by rewrite andb_true_r].
  destruct (truthy v); [|by rewrite andb_true_r].
  rewrite forallb_app. cbn. by rewrite andb_true_r.
Qed.

Lemma where_build_query filters include_deleted r :
  where_holds (build_query filters include_deleted) r
  ↔ selected filters include_deleted r.
Proof.
  unfold where_holds, selected, selected_with, build_query.
  assert (Hq : forallb (clause_holds r)
                 (if include_deleted then [] else [DeletedAtIsNull]) =
               include_deleted || bool_decide (active r)).
  { destruct include_deleted; cbn; [done|]. by rewrite andb_true_r. }
  destruct filters as [f|].
  - destruct (decide (f = ∅)) as [->|Hf].
    + rewrite bool_decide_eq_true_2 by done.
      unfold filter_passes. rewrite !lookup_empty, Hq.
      by rewrite !andb_true_r.
    + rewrite bool_decide_eq_false_2 by done.
      by rewrite !where_add_clause, Hq.
  - unfold filter_passes. rewrite Hq. by rewrite !andb_true_r.
Qed.

Lemma like_percent p s :
  like (String "%" p) s =
    like p s || match s with
                | EmptyString => false
                | String _ s' => like (String "%" p) s'
                end.
Proof. by destruct s. Qed.

Lemma like_percent_only s : like "%" s = true.
Proof.
  induction s as [|a s IH]; [done|].
  rewrite like_percent. by rewrite IH, orb_true_r.
Qed.

Lemma like_plain_char c p s :
  is_percent c = false → is_underscore c = false → is_backslash c = false →
  like (String c p) s =
    match s with
    | EmptyString => false
    | String a s' => Ascii.eqb c a && like p s'
    end.
Proof. intros H1 H2 H3. cbn [like]. by rewrite H1, H2, H3. Qed.

Lemma like_plain_prefix q : ∀ s,
  plain q = true → like (q +:+ "%") s = prefixb q s.
Proof.
  induction q as [|c q IH]; intros s Hq.
  - apply like_percent_only.
  - cbn [plain] in Hq. rewrite !andb_true_iff, !negb_true_iff in Hq.
    destruct Hq as [[[H1 H2] H3] Hq].
    change (String c q +:+ "%") with (String c (q +:+ "%")).
    rewrite like_plain_char by done.
    destruct s as [|a s]; [done|]. cbn [prefixb]. by rewrite IH.
Qed.

Lemma like_plain_infix q s :
  plain q = true → like ("%" +:+ q +:+ "%") s = containsb q s.
Proof.
  intros Hq. change ("%" +:+ q +:+ "%") with (String "%" (q +:+ "%")).
  induction s as [|a s IH].
  - rewrite like_percent, like_plain_prefix by done. done.
  - rewrite like_percent, like_plain_prefix by done. cbn [containsb]. by rewrite IH.
Qed.

Lemma lower_app a b : lower (a +:+ b) = lower a +:+ lower b.
Proof. induction a as [|c a IH]; [done|]. simpl. by rewrite IH. Qed.

Lemma lower_ascii_plain c :
  is_percent c = false → is_underscore c = false → is_backslash c = false →
  is_percent (lower_ascii c) = false
  ∧ is_underscore (lower_ascii c) = false
  ∧ is_backslash (lower_ascii c) = false.
Proof.
  destruct c as [[] [] [] [] [] [] [] []]; vm_compute; done.
Qed.

Lemma plain_lower q : plain q = true → plain (lower q) = true.
Proof.
  induction q as [|c q IH]; [done|]. cbn [plain lower].
  rewrite !andb_true_iff, !negb_true_iff.
  intros [[[H1 H2] H3] Hq].
  destruct (lower_ascii_plain c H1 H2 H3) as (-> & -> & ->). by rewrite IH.
Qed.

Lemma ilike_plain v cell :
  plain (str v) = true →
  ilike cell (substring_pattern v) = icontains (str v) cell.
Proof.
  intros Hq. unfold ilike, icontains, substring_pattern.
  destruct cell as [| |s]; [done..|].
  rewrite !lower_app. apply like_plain_infix. by apply plain_lower.
Qed.

Lemma prefixb_spec t : ∀ s, prefixb t s = true ↔ ∃ b, s = t +:+ b.
Proof.
  induction t as [|c t IH]; intros s.
  - split; [by exists s|done].
  - destruct s as [|a s]; cbn [prefixb].
    + split; [done|by intros [b [=]]].
    + rewrite andb_true_iff, IH. split.
      * intros [Hc [b ->]]. apply Ascii.eqb_eq in Hc as ->. by exists b.
      * intros [b [= -> ->]]. split; [apply Ascii.eqb_refl|by exists b].
Qed.

Lemma containsb_spec t s :
  containsb t s = true ↔ ∃ a b, s = a +:+ (t +:+ b).
Proof.
  induction s as [|c s IH]; cbn [containsb]; rewrite orb_true_iff, prefixb_spec.
  - split.
    + intros [[b ->]|[=]]. by exists "", b.
    + intros ([|? a] & b & Hs); [left; by exists b|done].
  - rewrite IH. split.
    + intros [[b ->]|(a & b & ->)]; [by exists "", b|by exists (String c a), b].
    + intros ([|c' a] & b & Hs); [left; by exists b|].
      injection Hs as -> ->. right. by exists a, b.
Qed.

Lemma order_le_total a b : order_le a b = true ∨ order_le b a = true.
Proof.
  destruct a as [|x|x], b as [|y|y]; cbn; auto.
  - destruct (Z.leb_spec x y); [by left|right]. apply Z.leb_le. lia.
  - apply String.leb_total.
Qed.

#[local] Instance by_number_desc_total : Total by_number_desc.
Proof. intros a b. unfold by_number_desc. apply order_le_total. Qed.

Lemma search_requests_run filters include_deleted w :
  ready w →
  fault (committed w) (SelectRequests (build_query filters include_deleted)) = None →
  search_requests fault filters include_deleted w =
    (Return (select_requests (build_query filters include_deleted) (committed w)),
     release (log (Execute (SelectRequests (build_query filters include_deleted)))
                (set_txn (Some (committed w)) (acquire w)))).
Proof.
  intros (Hc & Ha & Ht) Hfault.
  destruct (acquire_pool w Ha) as (p & Hp & Hcl).
  unfold search_requests. rewrite bind_run. unfold get at 1. rewrite Hc.
  cbn [negb]. cbv beta iota.
  rewrite bind_run, (get_connection_some w Ha). cbv beta iota zeta.
  unfold try_finally, try_except.
  rewrite bind_run. unfold execute at 1.
  rewrite (snapshot_acquire w Ht), Hfault. cbv beta iota zeta. unfold ret at 1.
  match goal with |- context [return_connection _ ?x] =>
    rewrite (return_connection_open x p) by done end.
  reflexivity.
Qed.

Lemma filter_passes_ext filters key test1 test2 :
  (∀ f v, filters = Some f → f !! key = Some v → test1 v = test2 v) →
  filter_passes filters key test1 = filter_passes filters key test2.
Proof.
  intros Hext. unfold filter_passes. destruct filters as [f|]; [|done].
  destruct (f !! key) as [v|] eqn:Hv; [|done].
  destruct (truthy v); [|done]. by apply (Hext f).
Qed.

Lemma selected_plain_names filters include_deleted r :
  plain_names filters →
  selected filters include_deleted r
  ↔ selected_by_substring filters include_deleted r.
Proof.
  intros Hplain. unfold selected, selected_by_substring, selected_with.
  rewrite (filter_passes_ext filters "requester_name" _
             (λ v, icontains (str v) (PR.requester_name (PR.data r)))).
  2:{ intros f v Hf Hv. apply ilike_plain.
      apply (Hplain f "requester_name" v Hf); [by left|done]. }
  rewrite (filter_passes_ext filters "requesting_unit" _
             (λ v, icontains (str v) (PR.requesting_unit (PR.data r)))).
  2:{ intros f v Hf Hv. apply ilike_plain.
      apply (Hplain f "requesting_unit" v Hf); [by right; left|done]. }
  done.
Qed.

(** C7, as amended.  On a connected manager whose server answers the
    query, [search_requests] returns one record per request row that is
    selected (it passes every filter whose key is present with a true value,
    and is active unless deleted rows are asked for), each with the number
    of items that belong to it, sorted by request_number descending.  The
    two name filters are ILIKE against %text%; when the two texts hold none
    of the characters LIKE reads as a pattern, the rows selected are those
    the case-insensitive substring test selects. *)
Theorem search_requests_selects filters include_deleted w :
  ready w →
  fault (committed w) (SelectRequests (build_query filters include_deleted)) = None →
  ∃ l, (search_requests fault filters include_deleted w).1 = Return l
       ∧ l ≡ₚ (λ r, Found r (count_items r (committed w)))
                <$> filter (selected filters include_deleted)
                      (purchase_requests (committed w))
       ∧ Sorted by_number_desc l
       ∧ (plain_names filters →
          l ≡ₚ (λ r, Found r (count_items r (committed w)))
                 <$> filter (selected_by_substring filters include_deleted)
                       (purchase_requests (committed w))).
Proof.
  intros Hready Hfault.
  eexists. rewrite (search_requests_run _ _ _ Hready Hfault). cbn [fst].
  split; [done|]. unfold select_requests.
  assert (Hperm :
    merge_sort by_number_desc
      ((λ r, Found r (count_items r (committed w)))
         <$> filter (where_holds (build_query filters include_deleted))
               (purchase_requests (committed w)))
    ≡ₚ (λ r, Found r (count_items r (committed w)))
         <$> filter (selected filters include_deleted)
               (purchase_requests (committed w))).
  { rewrite merge_sort_Permutation.
    rewrite (list_filter_iff (where_holds (build_query filters include_deleted))
               (selected filters include_deleted)); [done|].
    intros r. apply where_build_query. }
  split; [done|]. split; [apply Sorted_merge_sort; apply _|].
  intros Hplain. rewrite Hperm.
  rewrite (list_filter_iff (selected filters include_deleted)
             (selected_by_substring filters include_deleted)); [done|].
  intros r. by apply selected_plain_names.
Qed.

Lemma head_filter_unique {A} (P : A → Prop) `{∀ x, Decision (P x)}
    (l : list A) (a : A) :
  (∀ x, x ∈ l → P x → x = a) → a ∈ l → P a → head (filter P l) = Some a.
Proof.
  intros Huniq Ha HP.
  destruct (filter_head P l a Ha HP) as [x Hx]. rewrite Hx. f_equal.
  apply head_Some_elem_of, list_elem_of_filter in Hx as [HPx Hxl].
  by apply Huniq.
Qed.

Lemma sql_eq_true a b : sql_eq a b = true → a = b.
Proof.
  destruct a, b; cbn; try done; intros H; by apply bool_decide_eq_true in H.
Qed.

Lemma sql_eq_refl a : a ≠ VNone → sql_eq a a = true.
Proof. destruct a; [done|..]; intros _; cbn; by apply bool_decide_eq_true. Qed.

Lemma get_request_by_id_run request_id w :
  ready w →
  (∀ s, fault (committed w) s = None) →
  (get_request_by_id fault request_id w).1 =
    Return (match head (requests_by_id request_id (committed w)) with
            | Some request => Some (request, items_of request_id (committed w))
            | None => None
            end).
Proof.
  intros (Hc & Ha & Ht) Hfault.
  destruct (acquire_pool w Ha) as (p & Hp & Hcl).
  unfold get_request_by_id. rewrite bind_run. unfold get at 1. rewrite Hc.
  cbn [negb]. cbv beta iota.
  rewrite bind_run, (get_connection_some w Ha). cbv beta iota.
  unfold try_finally, try_except.
  rewrite bind_run. unfold execute at 1.
  rewrite (snapshot_acquire w Ht), Hfault. cbv beta iota zeta.
  destruct (head (requests_by_id request_id (committed w))) as [request|].
  - rewrite bind_run. unfold execute at 1.
    change (snapshot (log ?e (set_txn (Some ?d) ?y))) with d.
    rewrite Hfault. cbv beta iota zeta. unfold ret at 1.
    match goal with |- context [return_connection _ ?x] =>
      rewrite (return_connection_open x p) by done end.
    reflexivity.
  - unfold ret at 1.
    match goal with |- context [return_connection _ ?x] =>
      rewrite (return_connection_open x p) by done end.
    reflexivity.
Qed.

Lemma get_request_by_number_run request_number w :
  ready w →
  (∀ s, fault (committed w) s = None) →
  (get_request_by_number fault request_number w).1 =
    Return (head (requests_by_number request_number (committed w))).
Proof.
  intros (Hc & Ha & Ht) Hfault.
  destruct (acquire_pool w Ha) as (p & Hp & Hcl).
  unfold get_request_by_number. rewrite bind_run. unfold get at 1. rewrite Hc.
  cbn [negb]. cbv beta iota.
  rewrite bind_run, (get_connection_some w Ha). cbv beta iota.
  unfold try_finally, try_except.
  rewrite bind_run. unfold execute at 1.
  rewrite (snapshot_acquire w Ht), Hfault. cbv beta iota zeta. unfold ret at 1.
  match goal with |- context [return_connection _ ?x] =>
    rewrite (return_connection_open x p) by done end.
  reflexivity.
Qed.

Lemma search_in_items_run search_text w :
  ready w →
  (∀ s, fault (committed w) s = None) →
  (search_in_items fault search_text w).1 =
    Return (Some (items_like (substring_pattern search_text)
                    (substring_pattern search_text) (committed w)),
            None).
Proof.
  intros (Hc & Ha & Ht) Hfault.
  destruct (acquire_pool w Ha) as (p & Hp & Hcl).
  unfold search_in_items. rewrite bind_run. unfold get at 1. rewrite Hc.
  cbn [negb]. cbv beta iota.
  rewrite bind_run. unfold attempt. rewrite (pool_getconn_some w Ha).
  cbv beta iota zeta. unfold try_except.
  rewrite bind_run. unfold execute at 1.
  rewrite (snapshot_acquire w Ht), Hfault. cbv beta iota zeta.
  rewrite bind_run.
  match goal with |- context [pool_putconn _ ?x] =>
    rewrite (pool_putconn_open x p) by done end.
  reflexivity.
Qed.

Lemma items_like_elem p1 p2 d row it :
  row ∈ purchase_requests d → it ∈ request_items d → owns row it →
  item_matches p1 p2 (row, it) →
  project_match (row, it) ∈ items_like p1 p2 d.
Proof.
  intros Hrow Hit Hown Hmatch. unfold items_like.
  rewrite merge_sort_Permutation, elem_of_remove_dups.
  apply list_elem_of_fmap. exists (row, it). split; [done|].
  apply list_elem_of_filter. split; [done|].
  unfold inner_join. apply list_elem_of_bind. exists row. split; [|done].
  apply list_elem_of_bind. exists it. split; [by left|].
  by apply list_elem_of_filter.
Qed.

(** C10 (the lookups do not look at deleted_at).  Take a soft-deleted row
    of the table, on a connected manager whose server answers its queries.
    [get_request_by_id] on its id returns it with its items, and
    [get_request_by_number] on its number returns it (no other row carrying
    that id, that number); [search_in_items] returns the record of each of
    its items whose description or notes match the text; and
    [search_requests], asked without deleted rows, returns no record of
    it. *)
Theorem lookups_ignore_deleted_at row w :
  ready w →
  (∀ s, fault (committed w) s = None) →
  row ∈ purchase_requests (committed w) →
  PR.deleted_at row ≠ None →
  ((∀ r, r ∈ purchase_requests (committed w) → PR.id r = PR.id row → r = row) →
   (get_request_by_id fault (PR.id row) w).1 =
     Return (Some (row, items_of (PR.id row) (committed w))))
  ∧ (number_of row ≠ VNone →
     (∀ r, r ∈ purchase_requests (committed w) →
           number_of r = number_of row → r = row) →
     (get_request_by_number fault (number_of row) w).1 = Return (Some row))
  ∧ (∀ it search_text,
       it ∈ request_items (committed w) →
       owns row it →
       ilike (RI.description (RI.data it)) (substring_pattern search_text) = true
       ∨ ilike (RI.notes (RI.data it)) (substring_pattern search_text) = true →
       ∃ l, (search_in_items fault search_text w).1 = Return (Some l, None)
            ∧ project_match (row, it) ∈ l)
  ∧ (∀ filters,
       ∃ l, (search_requests fault filters false w).1 = Return l
            ∧ ∀ f, f ∈ l → request f ≠ row).
Proof.
  intros Hready Hfault Hrow Hdel. repeat split.
  - intros Huniq. rewrite (get_request_by_id_run _ _ Hready Hfault).
    unfold requests_by_id.
    by rewrite (head_filter_unique _ _ row).
  - intros Hnum Huniq. rewrite (get_request_by_number_run _ _ Hready Hfault).
    unfold requests_by_number.
    rewrite (head_filter_unique _ _ row); [done| |done|by apply sql_eq_refl].
    intros r Hr Heq. apply Huniq; [done|]. by apply sql_eq_true.
  - intros it search_text Hit Hown Hmatch. eexists.
    rewrite (search_in_items_run _ _ Hready Hfault). split; [done|].
    apply items_like_elem; try done.
    unfold item_matches. cbn [snd]. apply orb_true_iff. done.
  - intros filters. eexists.
    rewrite (search_requests_run _ _ _ Hready (Hfault _)). cbn [fst].
    split; [done|]. intros f Hf Heq. unfold select_requests in Hf.
    rewrite merge_sort_Permutation in Hf.
    apply list_elem_of_fmap in Hf as (r & -> & Hr).
    cbn in Heq. subst r.
    apply list_elem_of_filter in Hr as [Hwhere _].
    apply where_build_query in Hwhere. unfold selected, selected_with in Hwhere.
    rewrite !andb_true_iff in Hwhere. cbn in Hwhere.
    destruct Hwhere as [[[[[[[[Hactive _] _] _] _] _] _] _] _].
    by apply bool_decide_eq_true in Hactive.
Qed.

Lemma count_requests_cons s r rows items :
  count_requests s (Db (r :: rows) items) =
    (if decide (counted s r) then 1 else 0) + count_requests s (Db rows items).
Proof.
  unfold count_requests. cbn [purchase_requests]. rewrite filter_cons.
  by destruct (decide (counted s r)).
Qed.

Lemma counted_status s r : counted (Some s) r → status_of r = VStr s ∧ active r.
Proof. intros [Heq Hactive]. split; [by apply sql_eq_true|done]. Qed.

Lemma count_requests_sum_le d :
  count_requests (Some "pending") d + count_requests (Some "approved") d
  + count_requests (Some "rejected") d + count_requests (Some "completed") d
  ≤ count_requests None d.
Proof.
  destruct d as [rows items]. induction rows as [|r rows IH]; [done|].
  rewrite !count_requests_cons.
  repeat case_decide; repeat match goal with
    | H : counted (Some _) _ |- _ => apply counted_status in H as [? ?]
    end; try congruence; try lia; by exfalso; auto.
Qed.

Lemma count_requests_sum_eq d :
  (∀ r, r ∈ purchase_requests d → active r →
        status_of r ∈ VStr <$> valid_statuses) →
  count_requests None d =
    count_requests (Some "pending") d + count_requests (Some "approved") d
    + count_requests (Some "rejected") d + count_requests (Some "completed") d.
Proof.
  destruct d as [rows items]. cbn [purchase_requests].
  induction rows as [|r rows IH]; intros Hvalid; [done|].
  rewrite !count_requests_cons.
  rewrite IH by (intros r' Hr'; apply Hvalid; by right).
  specialize (Hvalid r (list_elem_of_here _ _)).
  destruct (decide (counted None r)) as [Hactive|Hno].
  - specialize (Hvalid Hactive).
    assert (Hc : ∀ s, counted (Some s) r ↔ status_of r = VStr s).
    { intros s. split; [by intros [? _]%counted_status|].
      intros Heq. split; [|done]. rewrite Heq. by apply sql_eq_refl. }
    cbn in Hvalid. rewrite !elem_of_cons, elem_of_nil in Hvalid.
    destruct Hvalid as [Hs|[Hs|[Hs|[Hs|[]]]]];
      repeat case_decide;
      repeat match goal with H : counted (Some _) _ |- _ => apply Hc in H end;
      repeat match goal with H : ¬ counted (Some _) _ |- _ => rewrite Hc in H end;
      try congruence; lia.
  - repeat case_decide;
      repeat match goal with
        | H : counted (Some _) _ |- _ => apply counted_status in H as [? ?]
        end; try done; lia.
Qed.
Lemma select_count_run s w d :
  txn w = Some d → fault d (SelectCount s) = None →
  select_count fault s w =
    (Return (count_requests s d), log (Execute (SelectCount s)) w).
Proof.
  intros Ht Hfault. unfold select_count. rewrite bind_run. unfold execute.
  cbv beta zeta.
  replace (snapshot w) with d by (unfold snapshot; by rewrite Ht).
  rewrite Hfault. cbv beta iota zeta. unfold ret. do 2 f_equal.
  destruct w; cbn in *. by rewrite Ht.
Qed.

Lemma get_statistics_run w :
  ready w →
  (∀ s, fault (committed w) s = None) →
  (get_statistics fault w).1 =
    Return (Statistics (count_requests None (committed w))
              (count_requests (Some "pending") (committed w))
              (count_requests (Some "approved") (committed w))
              (count_requests (Some "rejected") (committed w))
              (count_requests (Some "completed") (committed w))).
Proof.
  intros (Hc & Ha & Ht) Hfault.
  destruct (acquire_pool w Ha) as (p & Hp & Hcl).
  unfold get_statistics. rewrite bind_run. unfold get at 1. rewrite Hc.
  cbn [negb]. cbv beta iota.
  rewrite bind_run, (get_connection_some w Ha). cbv beta iota.
  unfold try_finally, try_except.
  rewrite bind_run. unfold select_count at 1. rewrite bind_run.
  unfold execute at 1. rewrite (snapshot_acquire w Ht), Hfault.
  cbv beta iota zeta. unfold ret at 1.
  repeat (rewrite bind_run;
          rewrite (select_count_run _ _ (committed w)) by done;
          cbv beta iota).
  unfold ret at 1.
  match goal with |- context [return_connection _ ?x] =>
    rewrite (return_connection_open x p) by done end.
  reflexivity.
Qed.

(** What [get_statistics] does guarantee: the four counts never add up to
    more than the total, and they add up to it when every active request
    carries one of the four statuses. *)
Lemma get_statistics_sum_le_total w :
  ready w →
  (∀ s, fault (committed w) s = None) →
  ∃ s, (get_statistics fault w).1 = Return s
       ∧ pending s + approved s + rejected s + completed s ≤ total s
       ∧ ((∀ r, r ∈ purchase_requests (committed w) → active r →
                status_of r ∈ VStr <$> valid_statuses) →
          total s = pending s + approved s + rejected s + completed s).
Proof.
  intros Hready Hfault. eexists.
  rewrite (get_statistics_run w Hready Hfault). split; [done|]. cbn. split.
  - apply count_requests_sum_le.
  - apply count_requests_sum_eq.
Qed.

Lemma save_request_keyerror rd items w key :
  ready w →
  (request_params rd w).1 = Raise (KeyError key) →
  (save_request fault rd items w).1 = Raise (KeyError key).
Proof.
  intros (Hc & Ha & Ht) Hkey.
  destruct (acquire_pool w Ha) as (p & Hp & Hcl).
  unfold save_request. rewrite bind_run. unfold get at 1. rewrite Hc.
  cbn [negb]. cbv beta iota.
  rewrite bind_run, (get_connection_some w Ha). cbv beta iota.
  unfold try_finally, try_except. rewrite bind_run.
  destruct (lookup_only_run (request_params rd) (acquire w)
              (lookup_only_request_params rd)) as [Hrp Hrp'].
  rewrite Hrp, <- (Hrp' w), Hkey. cbn [is_Error].
  by rewrite (return_connection_open _ p Hp Hcl).
Qed.

(** What [save_request] does guarantee: with dicts that hold the keys it
    subscripts, the call returns one of the two triples. *)
Lemma save_request_returns_triple rd items w :
  txn w = None →
  has_fields request_fields rd →
  Forall (has_fields item_fields) items →
  (save_request fault rd items w).1 =
    Return (true, Some (purchase_requests_id_seq w), None)
  ∨ ∃ msg, (save_request fault rd items w).1 = Return (false, None, Some msg).
Proof.
  intros Ht Hrd Hitems.
  destruct (is_connected w) eqn:Hc; [destruct (can_acquire w) eqn:Ha|].
  - destruct (save_request_run rd items w) as (r & w' & Hrun & _ & Hcases & _);
      [done|].
    rewrite Hrun. cbn [fst].
    destruct (request_params_ok rd w Hrd) as (params & Hparams & _).
    destruct (map_M_item_params_ok (purchase_requests_id_seq w) items w Hitems)
      as [cols Hcols].
    destruct Hcases as [(i & ? & ? & -> & -> & _)|[_ [[msg ->]|(e & -> & He)]]].
    + by left.
    + right. by exists msg.
    + rewrite Hparams, Hcols in He. by destruct He.
  - destruct (save_request_unavailable rd items w) as [msg Hrun]; [by right|].
    right. exists msg. by rewrite Hrun.
  - destruct (save_request_unavailable rd items w) as [msg Hrun]; [by left|].
    right. exists msg. by rewrite Hrun.
Qed.

(** C2, where the code departs from it.  On a connected manager, a request
    dict without the key 'request_number' makes [save_request] raise
    KeyError('request_number') to its caller: [except Error] catches what
    the driver raises and nothing else, so no (False, None, message) triple
    comes back. *)
Theorem save_request_missing_field_raises rd items w :
  ready w →
  rd !! "request_number" = None →
  (save_request fault rd items w).1 = Raise (KeyError "request_number").
Proof.
  intros Hready Hmissing. apply save_request_keyerror; [done|].
  unfold request_params, getitem. rewrite bind_run. by rewrite Hmissing.
Qed.

End Properties.

(** ** Further properties *)

Section Further.
Variable fault : db → stmt → option string.

#[local] Instance same_manager_preorder : PreOrder same_manager.
Proof.
  split.
  - by intros w.
  - intros w1 w2 w3 (H1 & H2 & H3) (H4 & H5 & H6). unfold same_manager.
    by rewrite H4, H5, H6.
Qed.

#[local] Instance same_tables_preorder : PreOrder same_tables.
Proof.
  split; [by intros w|]. intros w1 w2 w3 H1 H2. unfold same_tables in *.
  by rewrite H2.
Qed.

Section Keeps.
Context (I : relation world) `{!PreOrder I}.

Lemma keeps_ret {A} (a : A) : keeps I (ret a).
Proof. intros w. reflexivity. Qed.

Lemma keeps_raise {A} e : keeps I (raise (A := A) e).
Proof. intros w. reflexivity. Qed.

Lemma keeps_get {A} (f : world → A) : keeps I (get f).
Proof. intros w. reflexivity. Qed.

Lemma keeps_modify f : (∀ w, I w (f w)) → keeps I (modify f).
Proof. intros Hf w. apply Hf. Qed.

Lemma keeps_bind {A B} (m : M A) (k : A → M B) :
  keeps I m → (∀ a, keeps I (k a)) → keeps I (bind m k).
Proof.
  intros Hm Hk w. specialize (Hm w). unfold bind.
  destruct (m w) as [[a|e] w1]; [|done].
  etransitivity; [exact Hm|apply Hk].
Qed.

Lemma keeps_try_except {A} (body : M A) class handler :
  keeps I body → (∀ e, keeps I (handler e)) →
  keeps I (try_except body class handler).
Proof.
  intros Hm Hh w. specialize (Hm w). unfold try_except.
  destruct (body w) as [[a|e] w1]; [done|].
  destruct (class e); [|done]. etransitivity; [exact Hm|apply Hh].
Qed.

Lemma keeps_try_finally {A} (body : M A) fin :
  keeps I body → keeps I fin → keeps I (try_finally body fin).
Proof.
  intros Hm Hf w. specialize (Hm w). unfold try_finally.
  destruct (body w) as [r w1]. specialize (Hf w1).
  destruct (fin w1) as [[[]|e] w2]; by etransitivity.
Qed.

Lemma keeps_attempt {A} (m : M A) : keeps I m → keeps I (attempt m).
Proof. intros Hm w. specialize (Hm w). unfold attempt. by destruct (m w). Qed.

Lemma keeps_for_each {A} (f : A → M unit) l :
  (∀ a, keeps I (f a)) → keeps I (for_each f l).
Proof.
  intros Hf. induction l as [|x l IH]; [apply keeps_ret|].
  cbn [for_each]. by apply keeps_bind.
Qed.

Lemma keeps_map_M {A B} (f : A → M B) l :
  (∀ a, keeps I (f a)) → keeps I (map_M f l).
Proof.
  intros Hf. induction l as [|x l IH]; [apply keeps_ret|].
  cbn [map_M]. apply keeps_bind; [done|]. intros y.
  apply keeps_bind; [done|]. intros ys. apply keeps_ret.
Qed.

Lemma keeps_getitem d k : keeps I (getitem d k).
Proof. unfold getitem. destruct (d !! k); [apply keeps_ret|apply keeps_raise]. Qed.
End Keeps.

(** What the primitives keep. *)
Lemma execute_keeps_manager s : keeps same_manager (execute fault s).
Proof. intros w. unfold execute. by destruct (fault _ _). Qed.

Lemma execute_keeps_tables s : keeps same_tables (execute fault s).
Proof. intros w. unfold execute. by destruct (fault _ _). Qed.

Lemma commit_keeps_manager : keeps same_manager (commit fault).
Proof. intros w. unfold commit. by destruct (fault _ _). Qed.

Lemma rollback_keeps_manager : keeps same_manager rollback.
Proof. by intros w. Qed.

Lemma rollback_keeps_tables : keeps same_tables rollback.
Proof. by intros w. Qed.

Lemma getconn_keeps_tables p : keeps same_tables (getconn p).
Proof.
  intros w. unfold getconn.
  by destruct (closed p), (idle p =? 0)%nat, (maxconn <=? used p)%nat,
    (server_up w).
Qed.

Lemma putconn_keeps_tables p c : keeps same_tables (putconn p c).
Proof. intros w. unfold putconn. by destruct (closed p). Qed.

Lemma set_seqs_keeps_manager a b w : same_manager w (set_seqs a b w).
Proof. done. Qed.

Lemma set_txn_keeps_manager t w : same_manager w (set_txn t w).
Proof. done. Qed.

Lemma set_seqs_keeps_tables a b w : same_tables w (set_seqs a b w).
Proof. done. Qed.

Lemma set_txn_keeps_tables t w : same_tables w (set_txn t w).
Proof. done. Qed.

Create HintDb keeps discriminated.
#[local] Hint Resolve execute_keeps_manager execute_keeps_tables
  commit_keeps_manager rollback_keeps_manager rollback_keeps_tables
  getconn_keeps_tables putconn_keeps_tables : keeps.

Ltac keeps_step :=
  first
    [ solve [eauto with keeps]
    | apply keeps_ret; apply _
    | apply keeps_raise; apply _
    | apply keeps_get; apply _
    | apply keeps_getitem; apply _
    | apply keeps_modify; intros ?; solve [done]
    | apply keeps_bind; [apply _| |intros ?]
    | apply keeps_try_except; [apply _| |intros ?]
    | apply keeps_try_finally; [apply _| |]
    | apply keeps_attempt
    | apply keeps_for_each; [apply _|intros ?]
    | apply keeps_map_M; [apply _|intros ?]
    | match goal with
      | |- keeps _ (match ?x with _ => _ end) => destruct x
      | |- keeps _ (if ?b then _ else _) => destruct b
      end
    | progress cbv zeta ].

Ltac keeps_tac := repeat keeps_step.

Lemma get_connection_keeps_tables : keeps same_tables get_connection.
Proof. unfold get_connection. keeps_tac. Qed.

Lemma return_connection_keeps_tables c : keeps same_tables (return_connection c).
Proof. unfold return_connection. keeps_tac. Qed.

Lemma pool_getconn_keeps_tables : keeps same_tables pool_getconn.
Proof. unfold pool_getconn. keeps_tac. Qed.

Lemma pool_putconn_keeps_tables c : keeps same_tables (pool_putconn c).
Proof. unfold pool_putconn. keeps_tac. Qed.

#[local] Hint Resolve get_connection_keeps_tables return_connection_keeps_tables
  pool_getconn_keeps_tables pool_putconn_keeps_tables : keeps.

(** X1 (the reads only read).  Whatever the server refuses and whatever
    state the manager is in, the nine methods that only query
    (get_max_request_number, get_request_by_id, get_request_by_number,
    test_connection, search_in_items, get_request_items,
    check_duplicate_request_number, search_requests, get_statistics) leave
    the committed tables exactly as they found them. *)
Theorem reads_leave_tables :
  (keeps same_tables (get_max_request_number fault))
  ∧ (∀ request_id, keeps same_tables (get_request_by_id fault request_id))
  ∧ (∀ request_number, keeps same_tables (get_request_by_number fault request_number))
  ∧ keeps same_tables (test_connection fault)
  ∧ (∀ search_text, keeps same_tables (search_in_items fault search_text))
  ∧ (∀ request_id, keeps same_tables (get_request_items fault request_id))
  ∧ (∀ request_number,
       keeps same_tables (check_duplicate_request_number fault request_number))
  ∧ (∀ filters include_deleted,
       keeps same_tables (search_requests fault filters include_deleted))
  ∧ keeps same_tables (get_statistics fault).
Proof.
  split_and!; intros;
    unfold get_max_request_number, get_request_by_id, get_request_by_number,
      test_connection, search_in_items, get_request_items,
      check_duplicate_request_number, search_requests, get_statistics,
      select_count;
    keeps_tac.
Qed.

Lemma with_connection_run {A} (d1 d2 : A) body w :
  with_connection d1 d2 body w =
    if is_connected w
    then if can_acquire w
         then try_finally body (return_connection (Some Conn)) (acquire w)
         else (Return d2, w)
    else (Return d1, w).
Proof.
  unfold with_connection. rewrite bind_run. unfold get at 1.
  destruct (is_connected w); cbn [negb]; cbv beta iota; [|done].
  rewrite bind_run. destruct (can_acquire w) eqn:Ha.
  - by rewrite (get_connection_some w Ha).
  - by rewrite (get_connection_none w Ha).
Qed.

Lemma in_use_release_acquire w x :
  can_acquire w = true →
  same_manager (acquire w) x →
  txn (release x) = None
  ∧ in_use (release x) = in_use w
  ∧ (ready w → ready (release x)).
Proof.
  unfold ready, can_acquire, acquire, release, in_use.
  intros Ha (Hpool & Hflag & Hup).
  destruct (connection_pool w) as [p|]; [|done].
  cbn in Hpool, Hflag, Hup. rewrite Hpool. cbn.
  split_and!; try done. intros (Hc & _ & _). rewrite Hflag, Hc.
  split_and!; try done. by destruct (idle p) as [|[|n]].
Qed.

Lemma finally_release {A} (body : M A) w :
  can_acquire w = true →
  keeps same_manager body →
  try_finally body (return_connection (Some Conn)) (acquire w) =
    ((body (acquire w)).1, release (body (acquire w)).2)
  ∧ same_manager (acquire w) (body (acquire w)).2.
Proof.
  intros Ha Hbody. destruct (acquire_pool w Ha) as (p & Hp & Hcl).
  pose proof (Hbody (acquire w)) as Hsame. destruct Hsame as (Hpool & _).
  split; [|apply Hbody]. unfold try_finally.
  destruct (body (acquire w)) as [r x]. cbn [fst snd] in *.
  rewrite (return_connection_open x p); [done|by rewrite Hpool|done].
Qed.

Lemma with_connection_returns {A} (d1 d2 : A) body :
  keeps same_manager body → returns_connection (with_connection d1 d2 body).
Proof.
  intros Hbody w Ht. rewrite with_connection_run.
  destruct (is_connected w); [|done].
  destruct (can_acquire w) eqn:Ha; [|done].
  destruct (finally_release body w Ha Hbody) as [-> Hpool]. cbn [snd].
  by apply in_use_release_acquire.
Qed.

Lemma returns_connection_as {A} (m : M A) d1 d2 body :
  m = with_connection d1 d2 body →
  keeps same_manager body → returns_connection m.
Proof. intros ->. apply with_connection_returns. Qed.

Lemma pool_getconn_cases w :
  (can_acquire w = true ∧ pool_getconn w = (Return Conn, acquire w))
  ∨ ∃ e, pool_getconn w = (Raise e, w).
Proof.
  destruct (can_acquire w) eqn:Ha; [left; split; [done|by apply pool_getconn_some]|].
  right. revert Ha. unfold can_acquire, pool_getconn, bind, get, getconn.
  destruct (connection_pool w) as [p|]; [|by eexists].
  rewrite (Nat.leb_antisym (used p)).
  destruct (closed p), (idle p =? 0)%nat, (used p <? maxconn)%nat,
    (server_up w); cbn; intros; try done; by eexists.
Qed.

Lemma finally_putconn {A} (body : M A) w :
  can_acquire w = true →
  keeps same_manager body →
  try_finally body (pool_putconn Conn) (acquire w) =
    ((body (acquire w)).1, release (body (acquire w)).2)
  ∧ same_manager (acquire w) (body (acquire w)).2.
Proof.
  intros Ha Hbody. destruct (acquire_pool w Ha) as (p & Hp & Hcl).
  pose proof (Hbody (acquire w)) as Hsame. destruct Hsame as (Hpool & _).
  split; [|apply Hbody]. unfold try_finally.
  destruct (body (acquire w)) as [r x]. cbn [fst snd] in *.
  rewrite (pool_putconn_open x p); [done|by rewrite Hpool|done].
Qed.

Lemma update_request_status_returns request_id new_status :
  returns_connection (update_request_status fault request_id new_status).
Proof.
  intros w Ht. unfold update_request_status.
  destruct (bool_decide _); cbn [negb]; [|done].
  rewrite bind_run. unfold attempt.
  destruct (pool_getconn_cases w) as [[Ha ->]|[e ->]]; [|done].
  cbv beta iota.
  match goal with |- context [try_finally ?b _ _] =>
    destruct (finally_putconn b w Ha) as [-> Hpool] end.
  { unfold update. keeps_tac. }
  cbn [snd]. by apply in_use_release_acquire.
Qed.

Lemma search_in_items_returns search_text :
  returns_connection (search_in_items fault search_text).
Proof.
  intros w Ht. unfold search_in_items. rewrite bind_run. unfold get.
  destruct (is_connected w); cbn [negb]; cbv beta iota; [|by unfold ret].
  rewrite bind_run. unfold attempt.
  destruct (pool_getconn_cases w) as [[Ha ->]|[e ->]]; [|by unfold ret].
  cbv beta iota zeta. destruct (acquire_pool w Ha) as (p & Hp & Hcl).
  unfold try_except. rewrite bind_run. unfold execute.
  destruct (fault _ _); cbn [is_Exception]; rewrite bind_run;
    match goal with |- context [pool_putconn _ ?x] =>
      rewrite (pool_putconn_open x p) by done end;
    cbn [snd]; by apply in_use_release_acquire.
Qed.

Lemma test_connection_returns : returns_connection (test_connection fault).
Proof.
  intros w Ht. unfold test_connection. rewrite bind_run.
  destruct (can_acquire w) eqn:Ha.
  - rewrite (get_connection_some w Ha). cbv beta iota.
    match goal with |- context [try_finally ?b _ _] =>
      destruct (finally_release b w Ha) as [-> Hpool] end.
    { keeps_tac. }
    cbn [snd]. by apply in_use_release_acquire.
  - by rewrite (get_connection_none w Ha).
Qed.

(** X2 (every connection goes back).  Each of the thirteen methods, started
    with no transaction open, ends with none open and with as many
    connections handed out as before, on every path: success, a refused
    statement, a KeyError that escapes.  A manager that was ready for a call
    is ready for the next one. *)
Theorem connection_always_returned :
  returns_connection (get_max_request_number fault)
  ∧ (∀ request_data items_data,
       returns_connection (save_request fault request_data items_data))
  ∧ (∀ request_id, returns_connection (get_request_by_id fault request_id))
  ∧ (∀ request_number,
       returns_connection (get_request_by_number fault request_number))
  ∧ (∀ request_id, returns_connection (delete_request fault request_id))
  ∧ returns_connection (test_connection fault)
  ∧ (∀ request_id new_status,
       returns_connection (update_request_status fault request_id new_status))
  ∧ (∀ search_text, returns_connection (search_in_items fault search_text))
  ∧ (∀ request_id, returns_connection (get_request_items fault request_id))
  ∧ (∀ request_number,
       returns_connection (check_duplicate_request_number fault request_number))
  ∧ (∀ request_id, returns_connection (restore_request fault request_id))
  ∧ (∀ filters include_deleted,
       returns_connection (search_requests fault filters include_deleted))
  ∧ returns_connection (get_statistics fault).
Proof.
  split_and!.
  - eapply returns_connection_as; [reflexivity|keeps_tac].
  - intros rd items. eapply returns_connection_as; [reflexivity|].
    unfold request_params, item_params, insert_request, executemany,
      insert_item. keeps_tac.
  - intros id. eapply returns_connection_as; [reflexivity|keeps_tac].
  - intros n. eapply returns_connection_as; [reflexivity|keeps_tac].
  - intros id. eapply returns_connection_as; [reflexivity|unfold update; keeps_tac].
  - apply test_connection_returns.
  - apply update_request_status_returns.
  - apply search_in_items_returns.
  - intros id. eapply returns_connection_as; [reflexivity|keeps_tac].
  - intros n. eapply returns_connection_as; [reflexivity|keeps_tac].
  - intros id. eapply returns_connection_as; [reflexivity|unfold update; keeps_tac].
  - intros filters include_deleted. eapply returns_connection_as; [reflexivity|keeps_tac].
  - eapply returns_connection_as; [reflexivity|unfold select_count; keeps_tac].
Qed.
Lemma run_as {A} (m : M A) d1 d2 body w :
  m = with_connection d1 d2 body →
  keeps same_manager body →
  ready w →
  m w = ((body (acquire w)).1, release (body (acquire w)).2)
  ∧ committed (release (body (acquire w)).2) = committed (body (acquire w)).2
  ∧ ready (release (body (acquire w)).2).
Proof.
  intros -> Hbody Hready. pose proof Hready as (Hc & Ha & Ht).
  rewrite with_connection_run, Hc, Ha.
  destruct (finally_release body w Ha Hbody) as [-> Hsame].
  split; [done|].
  destruct (in_use_release_acquire w _ Ha Hsame) as (_ & _ & Hr).
  split; [|by apply Hr].
  destruct (acquire_pool w Ha) as (p & Hp & Hcl).
  destruct Hsame as (Hpool & _).
  apply (release_spec _ p). by rewrite Hpool.
Qed.

Lemma filter_all {A} (P : A → Prop) `{∀ x, Decision (P x)} (l : list A) :
  (∀ x, x ∈ l → P x) → filter P l = l.
Proof.
  induction l as [|x l IH]; intros Hl; [done|].
  rewrite filter_cons_True by (apply Hl; left).
  f_equal. apply IH. intros y Hy. apply Hl. by right.
Qed.

Lemma delete_request_cases request_id w :
  ready w →
  ((delete_request fault request_id w).1,
   committed (delete_request fault request_id w).2) =
    match fault (committed w) (DeleteRequest request_id) with
    | Some msg =>
        (Return (false, Some ("خطا در حذف درخواست: " +:+ msg)), committed w)
    | None =>
        match fault (db_delete request_id (committed w)) Commit with
        | Some msg =>
            (Return (false, Some ("خطا در حذف درخواست: " +:+ msg)), committed w)
        | None => (Return (true, None), db_delete request_id (committed w))
        end
    end
  ∧ ready (delete_request fault request_id w).2.
Proof.
  intros Hready.
  edestruct (run_as (delete_request fault request_id)) as (-> & Hc & Hr);
    [reflexivity|unfold update; keeps_tac|exact Hready|].
  cbn [fst snd]. split; [|done]. rewrite Hc. clear Hc Hr.
  destruct Hready as (_ & _ & Ht). destruct (acquire_spec w) as (Hca & _).
  match goal with |- context [(?b (acquire w)).2] =>
    destruct (b (acquire w)) as [r x] eqn:Hrun end.
  cbn [fst snd].
  unfold try_except in Hrun. rewrite bind_run in Hrun. unfold update in Hrun.
  rewrite bind_run in Hrun. unfold execute in Hrun.
  rewrite (snapshot_acquire w Ht) in Hrun.
  destruct (fault (committed w) (DeleteRequest request_id)) as [msg|] eqn:Hf.
  { injection Hrun as <- <-. cbn. by rewrite Hca. }
  cbv beta iota zeta in Hrun. rewrite bind_run in Hrun.
  unfold modify at 1, ret at 1 in Hrun.
  cbv beta iota in Hrun. rewrite bind_run, commit_run in Hrun.
  change (snapshot (set_txn (Some ?d) ?y)) with d in Hrun.
  destruct (fault (db_delete request_id (committed w)) Commit) as [msg|] eqn:Hcm.
  { injection Hrun as <- <-. cbn. by rewrite Hca. }
  injection Hrun as <- <-. by cbn.
Qed.


Lemma delete_request_ok request_id w :
  ready w →
  fault (committed w) (DeleteRequest request_id) = None →
  fault (db_delete request_id (committed w)) Commit = None →
  (delete_request fault request_id w).1 = Return (true, None)
  ∧ committed (delete_request fault request_id w).2
    = db_delete request_id (committed w)
  ∧ ready (delete_request fault request_id w).2.
Proof.
  intros Hready Hf Hc.
  destruct (delete_request_cases request_id w Hready) as [Hcases Hr].
  rewrite Hf, Hc in Hcases. by injection Hcases as -> ->.
Qed.

(** X4 (what a delete removes).  When the server refuses nothing,
    delete_request leaves exactly the requests with another id and exactly
    the items of other requests; an id that no row carries is a success all
    the same, with the tables unchanged. *)
Theorem delete_request_cascades request_id w :
  ready w →
  fault (committed w) (DeleteRequest request_id) = None →
  fault (db_delete request_id (committed w)) Commit = None →
  let w' := (delete_request fault request_id w).2 in
  (delete_request fault request_id w).1 = Return (true, None)
  ∧ (∀ row, row ∈ purchase_requests (committed w')
            ↔ row ∈ purchase_requests (committed w) ∧ PR.id row ≠ request_id)
  ∧ (∀ it, it ∈ request_items (committed w')
           ↔ it ∈ request_items (committed w)
             ∧ RI.request_id (RI.data it) ≠ request_id)
  ∧ ((∀ row, row ∈ purchase_requests (committed w) → PR.id row ≠ request_id) →
     (∀ it, it ∈ request_items (committed w) →
            RI.request_id (RI.data it) ≠ request_id) →
     committed w' = committed w).
Proof.
  intros Hready Hf Hc w'.
  destruct (delete_request_ok request_id w Hready Hf Hc) as (Hok & Hdb & _).
  split; [done|].
  subst w'. rewrite Hdb. unfold db_delete. cbn [purchase_requests request_items].
  split_and!.
  - intros row. rewrite list_elem_of_filter. tauto.
  - intros it. rewrite list_elem_of_filter. tauto.
  - intros Hrows Hitems. rewrite !filter_all by done. by destruct (committed w).
Qed.

Lemma get_request_items_run request_id w :
  ready w →
  fault (committed w) (SelectItemsByRequest request_id) = None →
  (get_request_items fault request_id w).1
  = Return (items_of request_id (committed w)).
Proof.
  intros Hready Hf.
  edestruct (run_as (get_request_items fault request_id)) as (-> & _ & _);
    [reflexivity|keeps_tac|exact Hready|].
  cbn [fst]. destruct Hready as (_ & _ & Ht).
  unfold try_except. rewrite bind_run. unfold execute.
  rewrite (snapshot_acquire w Ht), Hf. done.
Qed.

Lemma merge_sort_nil_inv {A} (R : relation A) `{∀ x y, Decision (R x y)} l :
  l = [] → merge_sort R l = [].
Proof. by intros ->. Qed.

(** X5 (a deleted request is gone for every reader).  After
    delete_request on a server that refuses nothing, get_request_by_id
    returns None for the id, get_request_items returns the empty list, and
    neither search_in_items nor search_requests (deleted rows included or
    not) returns a record of that id. *)
Theorem delete_request_then_lookups request_id w :
  ready w →
  (∀ d s, fault d s = None) →
  let w' := (delete_request fault request_id w).2 in
  (get_request_by_id fault request_id w').1 = Return None
  ∧ (get_request_items fault request_id w').1 = Return []
  ∧ (∀ text l, (search_in_items fault text w').1 = Return (Some l, None) →
               ∀ record, record ∈ l → Match.id record ≠ request_id)
  ∧ (∀ filters include_deleted record,
       (search_requests fault filters include_deleted w').1 = Return record →
       ∀ x, x ∈ record → PR.id (request x) ≠ request_id).
Proof.
  intros Hready Hfault w'.
  destruct (delete_request_ok request_id w Hready (Hfault _ _) (Hfault _ _))
    as (_ & Hdb & Hr). fold w' in Hdb, Hr.
  assert (Hrows : requests_by_id request_id (committed w') = []).
  { rewrite Hdb. unfold requests_by_id, db_delete. cbn [purchase_requests].
    apply filter_none. intros row [Hne _]%list_elem_of_filter. done. }
  assert (Hitems : items_of request_id (committed w') = []).
  { rewrite Hdb. unfold items_of, db_delete. cbn [request_items].
    apply merge_sort_nil_inv.
    apply filter_none. intros it [Hne _]%list_elem_of_filter. done. }
  split_and!.
  - rewrite (get_request_by_id_run fault request_id w' Hr) by (intros; apply Hfault).
    by rewrite Hrows.
  - rewrite (get_request_items_run request_id w' Hr) by apply Hfault.
    by rewrite Hitems.
  - intros text l. rewrite (search_in_items_run fault text w' Hr) by (intros; apply Hfault).
    intros [= <-] record. unfold items_like.
    rewrite merge_sort_Permutation, elem_of_remove_dups, list_elem_of_fmap.
    intros ([row it] & -> & Hin). apply list_elem_of_filter in Hin as [_ Hin].
    unfold inner_join in Hin. apply list_elem_of_bind in Hin as (row' & Hin & Hrow).
    apply list_elem_of_bind in Hin as (it' & Hin & Hit).
    apply list_elem_of_singleton in Hin as [= -> ->]. cbn.
    rewrite Hdb in Hrow. unfold db_delete in Hrow. cbn [purchase_requests] in Hrow.
    by apply list_elem_of_filter in Hrow as [Hne _].
  - intros filters include_deleted record.
    rewrite (search_requests_run fault filters include_deleted w' Hr) by apply Hfault.
    intros [= <-] x. unfold select_requests.
    rewrite merge_sort_Permutation, list_elem_of_fmap.
    intros (row & -> & Hin). cbn. apply list_elem_of_filter in Hin as [_ Hin].
    rewrite Hdb in Hin. unfold db_delete in Hin. cbn [purchase_requests] in Hin.
    by apply list_elem_of_filter in Hin as [Hne _].
Qed.

Lemma committed_release w x :
  can_acquire w = true → same_manager (acquire w) x →
  committed (release x) = committed x.
Proof.
  intros Ha (Hpool & _). destruct (acquire_pool w Ha) as (p & Hp & _).
  apply (release_spec _ p). by rewrite Hpool.
Qed.

Lemma update_request_status_cases request_id new_status w :
  txn w = None →
  can_acquire w = true →
  new_status ∈ VStr <$> valid_statuses →
  ((update_request_status fault request_id new_status w).1,
   committed (update_request_status fault request_id new_status w).2) =
    match fault (committed w) (UpdateStatus new_status request_id) with
    | Some msg =>
        (Return (false, Some ("خطا در تغییر وضعیت: " +:+ msg)), committed w)
    | None =>
        match head (requests_by_id request_id (committed w)) with
        | None => (Return (false, Some msg_not_found), committed w)
        | Some _ =>
            match fault (db_update_status new_status request_id (committed w))
                    Commit with
            | Some msg =>
                (Return (false, Some ("خطا در تغییر وضعیت: " +:+ msg)),
                 committed w)
            | None =>
                (Return (true, None),
                 db_update_status new_status request_id (committed w))
            end
        end
    end.
Proof.
  intros Ht Ha Hvalid. unfold update_request_status.
  rewrite bool_decide_eq_true_2 by done. cbn [negb].
  rewrite bind_run. unfold attempt. rewrite (pool_getconn_some w Ha).
  cbv beta iota.
  match goal with |- context [try_finally ?b _ _] =>
    destruct (finally_putconn b w Ha) as [-> Hsame] end.
  { unfold update. keeps_tac. }
  cbn [fst snd]. rewrite (committed_release w _ Ha Hsame). clear Hsame.
  destruct (acquire_spec w) as (Hca & _).
  match goal with |- context [(?b (acquire w)).2] =>
    destruct (b (acquire w)) as [r x] eqn:Hrun end.
  cbn [fst snd].
  unfold try_except in Hrun. rewrite bind_run in Hrun. unfold update in Hrun.
  rewrite bind_run in Hrun. unfold execute in Hrun.
  rewrite (snapshot_acquire w Ht) in Hrun.
  destruct (fault (committed w) (UpdateStatus new_status request_id))
    as [msg|] eqn:Hf.
  { injection Hrun as <- <-. cbn. by rewrite Hca. }
  cbv beta iota zeta in Hrun. rewrite bind_run in Hrun.
  unfold modify at 1, ret at 1 in Hrun. cbv beta iota in Hrun.
  destruct (requests_by_id request_id (committed w)) as [|row rows] eqn:Hrows.
  { change (head (returning_number [])) with (@None val) in Hrun.
    cbv beta iota in Hrun. injection Hrun as <- <-. cbn. by rewrite Hca. }
  cbn [returning_number map head] in Hrun. cbv beta iota in Hrun.
  rewrite bind_run, commit_run in Hrun.
  change (snapshot (set_txn (Some ?d) ?y)) with d in Hrun.
  destruct (fault (db_update_status new_status request_id (committed w)) Commit)
    as [msg|] eqn:Hcm.
  { injection Hrun as <- <-. cbn. by rewrite Hca. }
  injection Hrun as <- <-. by cbn.
Qed.


Lemma set_status_status s r : status_of (set_status s r) = s.
Proof. done. Qed.

(** X7 (what a status change changes).  For a valid status and an id some
    row carries, on a ready manager whose server refuses nothing:
    update_request_status succeeds, the items and the rows of other ids are
    untouched, every row of the id carries the new status afterwards,
    whether it is soft-deleted or not (deleted_at is not looked at), and
    get_request_by_id shows the new status. *)
Theorem update_request_status_applies request_id new_status row w :
  ready w →
  new_status ∈ VStr <$> valid_statuses →
  row ∈ purchase_requests (committed w) →
  PR.id row = request_id →
  (∀ d s, fault d s = None) →
  let w' := (update_request_status fault request_id new_status w).2 in
  (update_request_status fault request_id new_status w).1 = Return (true, None)
  ∧ request_items (committed w') = request_items (committed w)
  ∧ (∀ r, r ∈ purchase_requests (committed w) →
          PR.id r ≠ request_id → r ∈ purchase_requests (committed w'))
  ∧ (∀ r, r ∈ purchase_requests (committed w') →
          PR.id r = request_id → status_of r = new_status)
  ∧ set_status new_status row ∈ purchase_requests (committed w')
  ∧ ∃ request items,
      (get_request_by_id fault request_id w').1 = Return (Some (request, items))
      ∧ status_of request = new_status.
Proof.
  intros Hready Hvalid Hrow Hid Hfault w'.
  pose proof Hready as (Hc & Ha & Ht).
  pose proof (update_request_status_cases request_id new_status w Ht Ha Hvalid)
    as Hcases.
  assert (Hr : ready w').
  { destruct (update_request_status_returns request_id new_status w Ht)
      as (_ & _ & Hr). by apply Hr. }
  rewrite !Hfault in Hcases.
  destruct (head (requests_by_id request_id (committed w))) as [row0|] eqn:Hhead.
  2: { exfalso. apply (filter_head (λ r, PR.id r = request_id)) in Hrow; [|done].
       unfold requests_by_id in Hhead. rewrite Hhead in Hrow. by destruct Hrow. }
  injection Hcases as Hres Hdb. fold w' in Hdb.
  assert (Hnew : ∀ r, r ∈ purchase_requests (committed w') →
                      PR.id r = request_id → status_of r = new_status).
  { intros r. rewrite Hdb. unfold db_update_status. cbn [purchase_requests].
    intros (r0 & -> & Hr0)%list_elem_of_fmap. by case_decide. }
  split_and!; try done.
  - by rewrite Hdb.
  - intros r Hin Hne. rewrite Hdb. unfold db_update_status.
    cbn [purchase_requests]. apply list_elem_of_fmap. exists r.
    split; [by rewrite decide_False|done].
  - rewrite Hdb. unfold db_update_status. cbn [purchase_requests].
    apply list_elem_of_fmap. exists row. split; [by rewrite decide_True|done].
  - rewrite (get_request_by_id_run fault request_id w' Hr) by (intros; apply Hfault).
    assert (Hsome : is_Some (head (requests_by_id request_id (committed w')))).
    { apply (filter_head _ _ (set_status new_status row)); [|by cbn].
      rewrite Hdb. unfold db_update_status. cbn [purchase_requests].
      apply list_elem_of_fmap. exists row. split; [by rewrite decide_True|done]. }
    destruct Hsome as [request Hreq]. rewrite Hreq. eexists _, _. split; [done|].
    apply head_Some_elem_of in Hreq. apply list_elem_of_filter in Hreq as [? ?].
    by apply Hnew.
Qed.

#[local] Instance by_row_number_total : Total by_row_number.
Proof. intros a b. apply order_le_total. Qed.

Lemma save_request_ok rd items w :
  ready w →
  (∀ d s, fault d s = None) →
  has_fields request_fields rd →
  Forall (has_fields item_fields) items →
  let i := purchase_requests_id_seq w in
  let w' := (save_request fault rd items w).2 in
  ∃ params new_items,
    (save_request fault rd items w).1 = Return (true, Some i, None)
    ∧ (∀ w0, (request_params rd w0).1 = Return params)
    ∧ (∀ w0, (map_M (item_params i) items w0).1 = Return (RI.data <$> new_items))
    ∧ Forall (λ it, RI.request_id (RI.data it) = i) new_items
    ∧ committed w' =
        Db (purchase_requests (committed w) ++ [PR.Row i params None])
           (request_items (committed w) ++ new_items)
    ∧ ready w'.
Proof.
  intros Hready Hfault Hrd Hitems i w'.
  destruct (save_request_run fault rd items w Hready)
    as (r & w1 & Hrun & Htxn & Haon & Hok).
  destruct (request_params_ok rd w Hrd) as (params & Hp & _).
  destruct (map_M_item_params_ok i items w Hitems) as (cols & Hcols).
  specialize (Hok params cols Hfault).
  rewrite Hp in Hok. fold i in Hok. rewrite Hcols in Hok.
  specialize (Hok eq_refl eq_refl). subst r.
  assert (Hready' : ready w').
  { assert (Hret : returns_connection (save_request fault rd items)).
    { eapply returns_connection_as; [reflexivity|].
      unfold request_params, item_params, insert_request, executemany,
        insert_item. keeps_tac. }
    destruct Hready as (Hc & Ha & Ht).
    destruct (Hret w Ht) as (_ & _ & Hr). by apply Hr. }
  subst w'. rewrite Hrun in *. cbn [fst snd] in *.
  destruct Haon as [(id & params' & new_items & Hr & Hid & Hp' & Hmap & Hlen
                     & Hown & _ & Hdb)|(_ & [[msg [=]]|(e & [=] & _)])].
  injection Hr as <-. rewrite Hp in Hp'. injection Hp' as <-.
  exists params, new_items. split_and!; try done.
  - intros w0.
    destruct (lookup_only_run (request_params rd) w0
                (lookup_only_request_params rd)) as [_ Hsame].
    by rewrite <- (Hsame w), Hp.
  - intros w0.
    destruct (lookup_only_run (map_M (item_params i) items) w0) as [_ Hsame].
    { apply lookup_only_map_M. intros item. apply lookup_only_item_params. }
    by rewrite <- (Hsame w), Hmap.
Qed.

(** X8 (a saved request is read back whole).  On a ready manager whose
    tables are consistent and whose server refuses nothing, save_request of
    dicts that hold the required keys returns the next id of the sequence,
    and get_request_by_id on that id returns the row built from the request
    dict, active, together with exactly the saved items (as many as were
    passed, the columns read off the item dicts) in row_number order. *)
Theorem save_request_then_get_request_by_id rd items w :
  ready w →
  (∀ d s, fault d s = None) →
  has_fields request_fields rd →
  Forall (has_fields item_fields) items →
  consistent w →
  let i := purchase_requests_id_seq w in
  let w' := (save_request fault rd items w).2 in
  ∃ params cols its,
    (save_request fault rd items w).1 = Return (true, Some i, None)
    ∧ (request_params rd w).1 = Return params
    ∧ (map_M (item_params i) items w).1 = Return cols
    ∧ (get_request_by_id fault i w').1
      = Return (Some (PR.Row i params None, its))
    ∧ RI.data <$> its ≡ₚ cols
    ∧ length its = length items
    ∧ Sorted by_row_number its.
Proof.
  intros Hready Hfault Hrd Hitems [Hids Hfk] i w'.
  assert (Hfresh_r : ∀ r, r ∈ purchase_requests (committed w) → PR.id r ≠ i).
  { intros r Hr. specialize (Hids r Hr). fold i in Hids. lia. }
  assert (Hfresh_i : ∀ it, it ∈ request_items (committed w) →
                           RI.request_id (RI.data it) ≠ i).
  { intros it Hit. destruct (Hfk it Hit) as (r & Hr & <-). by apply Hfresh_r. }
  clear Hids Hfk.
  destruct (save_request_ok rd items w Hready Hfault Hrd Hitems)
    as (params & new_items & Hres & Hp & Hcols & Hown & Hdb & Hr).
  fold i in Hres, Hcols, Hown, Hdb. fold w' in Hdb, Hr.
  exists params, (RI.data <$> new_items), (merge_sort by_row_number new_items).
  split_and!; try done.
  - rewrite (get_request_by_id_run fault i w' Hr) by (intros; apply Hfault).
    assert (Hhead : head (requests_by_id i (committed w'))
                    = Some (PR.Row i params None)).
    { unfold requests_by_id. rewrite Hdb. cbn [purchase_requests].
      apply head_filter_unique; [|set_solver|done].
      intros x [Hx|Hx%list_elem_of_singleton]%elem_of_app Hid; [|done].
      by destruct (Hfresh_r x Hx). }
    rewrite Hhead. do 3 f_equal. unfold items_of. rewrite Hdb.
    cbn [request_items]. rewrite filter_app.
    rewrite (filter_none _ (request_items (committed w)))
      by (intros it Hit; by apply Hfresh_i).
    rewrite filter_all; [done|]. intros it Hit.
    by apply (proj1 (Forall_forall _ _) Hown).
  - by rewrite merge_sort_Permutation.
  - rewrite merge_sort_Permutation.
    destruct (map_M_item_params i items w _ (Hcols w)) as [Hlen _].
    by rewrite length_fmap in Hlen.
  - apply (Sorted_merge_sort _).
Qed.

Lemma request_params_number rd w params :
  (request_params rd w).1 = Return params →
  rd !! "request_number" = Some (PR.request_number params).
Proof.
  unfold request_params, bind, getitem, ret, raise.
  destruct (rd !! "request_number") as [v1|]; [|done].
  destruct (rd !! "request_date_jalali"); [|done].
  destruct (rd !! "request_date_gregorian"); [|done].
  destruct (rd !! "requesting_unit"); [|done].
  destruct (rd !! "requester_name"); [|done].
  destruct (rd !! "pdf_file_path"); [|done].
  destruct (rd !! "year"); [|done].
  destruct (rd !! "month"); [|done].
  destruct (rd !! "month_name"); [|done].
  cbn. by intros [= <-].
Qed.

(** X9 (the duplicate check sees a saved request).  After a successful
    save_request under a number that is not None,
    check_duplicate_request_number on that number answers (True, row) with
    an active row of the table that carries the number. *)
Theorem save_request_then_check_duplicate rd items n w :
  ready w →
  (∀ d s, fault d s = None) →
  has_fields request_fields rd →
  Forall (has_fields item_fields) items →
  rd !! "request_number" = Some n →
  n ≠ VNone →
  let w' := (save_request fault rd items w).2 in
  ∃ row,
    (check_duplicate_request_number fault n w').1 = Return (true, Some row)
    ∧ row ∈ purchase_requests (committed w')
    ∧ number_of row = n
    ∧ active row.
Proof.
  intros Hready Hfault Hrd Hitems Hn Hnn w'.
  destruct (save_request_ok rd items w Hready Hfault Hrd Hitems)
    as (params & new_items & Hres & Hp & Hcols & Hown & Hdb & Hr).
  fold w' in Hdb, Hr.
  pose proof (request_params_number rd w params (Hp w)) as Hnum.
  rewrite Hn in Hnum. injection Hnum as Hnum.
  rewrite (check_duplicate_request_number_run fault n w' Hr). cbv zeta.
  rewrite Hfault.
  assert (Hsome : is_Some (head (active_by_number n (committed w')))).
  { apply (filter_head _ _ (PR.Row (purchase_requests_id_seq w) params None)).
    - rewrite Hdb. cbn [purchase_requests]. set_solver.
    - split; [|done]. unfold number_of. cbn. rewrite <- Hnum.
      by apply sql_eq_refl. }
  destruct Hsome as [row Hrow]. rewrite Hrow. exists row. cbn [fst].
  apply head_Some_elem_of in Hrow.
  apply list_elem_of_filter in Hrow as [[Heq Hact] Hin].
  split_and!; try done. by apply sql_eq_true in Heq.
Qed.

Lemma committed_release_any x : committed (release x) = committed x.
Proof. unfold release. by destruct (connection_pool x). Qed.

(** X10 (a hard delete is final).  After delete_request, restore_request
    of the same id fails with the not-found-or-not-deleted message and
    changes nothing: delete_request removes the row, it does not set
    deleted_at, and the module has no method that sets it. *)
Theorem delete_request_then_restore_fails request_id w :
  ready w →
  (∀ d s, fault d s = None) →
  let w' := (delete_request fault request_id w).2 in
  (restore_request fault request_id w').1
  = Return (false, Some msg_not_restorable)
  ∧ committed (restore_request fault request_id w').2 = committed w'.
Proof.
  intros Hready Hfault w'.
  destruct (delete_request_ok request_id w Hready (Hfault _ _) (Hfault _ _))
    as (_ & Hdb & Hr). fold w' in Hdb, Hr.
  rewrite (restore_request_run fault request_id w' Hr) by apply Hfault.
  cbv zeta.
  rewrite (filter_none (restorable request_id)); cycle 1.
  { intros row. rewrite Hdb. unfold db_delete. cbn [purchase_requests].
    intros [Hne _]%list_elem_of_filter [Hid _]. done. }
  change (head (returning_number [])) with (@None val). cbv beta iota.
  split; [done|]. cbn [snd]. rewrite committed_release_any. cbn.
  by destruct (acquire_spec w') as (-> & _).
Qed.

(** X11 (restore_request checks no number either).  Restoring a
    soft-deleted request while another, active request carries the same
    number succeeds when the server refuses nothing, and leaves two
    different active rows with that number. *)
Theorem restore_request_revives_duplicate request_id row other w :
  ready w →
  (∀ d s, fault d s = None) →
  row ∈ purchase_requests (committed w) →
  PR.id row = request_id →
  PR.deleted_at row ≠ None →
  other ∈ purchase_requests (committed w) →
  PR.id other ≠ request_id →
  active other →
  number_of other = number_of row →
  let w' := (restore_request fault request_id w).2 in
  (restore_request fault request_id w).1 = Return (true, None)
  ∧ clear_deleted_at row ∈ purchase_requests (committed w')
  ∧ other ∈ purchase_requests (committed w')
  ∧ active (clear_deleted_at row)
  ∧ clear_deleted_at row ≠ other
  ∧ number_of (clear_deleted_at row) = number_of other.
Proof.
  intros Hready Hfault Hrow Hid Hdel Hother Hne Hact Hnum w'. subst w'.
  rewrite (restore_request_run fault request_id w Hready) by apply Hfault.
  cbv zeta.
  destruct (filter_head (restorable request_id) _ row Hrow) as [r0 Hr0]; [done|].
  destruct (filter _ _) as [|r1 rest]; [done|].
  cbn [returning_number map head]. cbv beta iota. cbn [fst snd].
  rewrite committed_release_any. cbn [committed set_txn set_committed].
  unfold db_restore. cbn [purchase_requests].
  split_and!; try done.
  - apply list_elem_of_fmap. exists row. split; [|done].
    by rewrite decide_True.
  - apply list_elem_of_fmap. exists other. split; [|done].
    rewrite decide_False; [done|]. by intros [? _].
  - intros <-. by cbn in Hne.
Qed.

Lemma select_count_cases s w :
  select_count fault s w =
    let w1 := log (Execute (SelectCount s)) (set_txn (Some (snapshot w)) w) in
    match fault (snapshot w) (SelectCount s) with
    | Some msg => (Raise (Error msg), w1)
    | None => (Return (count_requests s (snapshot w)), w1)
    end.
Proof.
  unfold select_count, bind, execute. cbv zeta. by destruct (fault _ _).
Qed.

Lemma get_statistics_body w :
  txn w = None →
  let d := committed w in
  (try_except
     (do total <- select_count fault None;
      do pending <- select_count fault (Some "pending");
      do approved <- select_count fault (Some "approved");
      do rejected <- select_count fault (Some "rejected");
      do completed <- select_count fault (Some "completed");
      ret (Statistics total pending approved rejected completed))
     is_Error (fun _ => ret no_statistics) (acquire w)).1 =
    Return
      (match fault d (SelectCount None), fault d (SelectCount (Some "pending")),
             fault d (SelectCount (Some "approved")),
             fault d (SelectCount (Some "rejected")),
             fault d (SelectCount (Some "completed")) with
       | None, None, None, None, None =>
           Statistics (count_requests None d)
             (count_requests (Some "pending") d)
             (count_requests (Some "approved") d)
             (count_requests (Some "rejected") d)
             (count_requests (Some "completed") d)
       | _, _, _, _, _ => no_statistics
       end).
Proof.
  intros Ht d. unfold try_except.
  rewrite bind_run, select_count_cases. cbv zeta.
  rewrite (snapshot_acquire w Ht). fold d.
  destruct (fault d (SelectCount None)); [done|].
  rewrite bind_run, select_count_cases. cbv zeta.
  change (snapshot (log ?e (set_txn (Some ?x) ?y))) with x.
  destruct (fault d (SelectCount (Some "pending"))); [done|].
  rewrite bind_run, select_count_cases. cbv zeta.
  change (snapshot (log ?e (set_txn (Some ?x) ?y))) with x.
  destruct (fault d (SelectCount (Some "approved"))); [done|].
  rewrite bind_run, select_count_cases. cbv zeta.
  change (snapshot (log ?e (set_txn (Some ?x) ?y))) with x.
  destruct (fault d (SelectCount (Some "rejected"))); [done|].
  rewrite bind_run, select_count_cases. cbv zeta.
  change (snapshot (log ?e (set_txn (Some ?x) ?y))) with x.
  destruct (fault d (SelectCount (Some "completed"))); done.
Qed.

(** X12 (the statistics are the five counts or five zeros).  Started with
    no transaction open, get_statistics never raises and returns either the
    zeroed record or, from a connected manager that got a connection, the
    five counts of the committed tables, never a mixture of counts and
    zeros; in both cases the four status counts add up to at most the
    total. *)
Theorem get_statistics_counts_or_zeros w :
  txn w = None →
  let d := committed w in
  ∃ s, (get_statistics fault w).1 = Return s
    ∧ (s = no_statistics
       ∨ is_connected w = true
         ∧ can_acquire w = true
         ∧ s = Statistics (count_requests None d)
                 (count_requests (Some "pending") d)
                 (count_requests (Some "approved") d)
                 (count_requests (Some "rejected") d)
                 (count_requests (Some "completed") d))
    ∧ pending s + approved s + rejected s + completed s ≤ total s.
Proof.
  intros Ht d.
  assert (Hle : ∀ s,
    s = no_statistics
    ∨ is_connected w = true ∧ can_acquire w = true
      ∧ s = Statistics (count_requests None d)
              (count_requests (Some "pending") d)
              (count_requests (Some "approved") d)
              (count_requests (Some "rejected") d)
              (count_requests (Some "completed") d) →
    pending s + approved s + rejected s + completed s ≤ total s).
  { intros s [->|(_ & _ & ->)]; [done|]. cbn. apply count_requests_sum_le. }
  assert (Hshape : get_statistics fault = with_connection no_statistics
            no_statistics
            (try_except
               (do total <- select_count fault None;
                do pending <- select_count fault (Some "pending");
                do approved <- select_count fault (Some "approved");
                do rejected <- select_count fault (Some "rejected");
                do completed <- select_count fault (Some "completed");
                ret (Statistics total pending approved rejected completed))
               is_Error (fun _ => ret no_statistics))) by reflexivity.
  rewrite Hshape, with_connection_run.
  destruct (is_connected w) eqn:Hc; [|eexists; split; [done|]; split; [by left|by apply Hle; left]].
  destruct (can_acquire w) eqn:Ha; [|eexists; split; [done|]; split; [by left|by apply Hle; left]].
  match goal with |- context [try_finally ?b _ _] =>
    destruct (finally_release b w Ha) as [-> _] end.
  { unfold select_count. keeps_tac. }
  cbn [fst]. rewrite (get_statistics_body w Ht). fold d.
  eexists. split; [done|].
  destruct (fault d (SelectCount None)),
    (fault d (SelectCount (Some "pending"))),
    (fault d (SelectCount (Some "approved"))),
    (fault d (SelectCount (Some "rejected"))),
    (fault d (SelectCount (Some "completed")));
    (split; [|apply Hle]); first [by left|by right].
Qed.

(** X13 (the items of a request, in row order).  get_request_items never
    raises; the list it returns is sorted by row_number and holds only items
    of the table that belong to the request, and on a ready manager whose
    server accepts the query it holds all of them, each once. *)
Theorem get_request_items_sorted request_id w :
  txn w = None →
  ∃ l, (get_request_items fault request_id w).1 = Return l
    ∧ Sorted by_row_number l
    ∧ (∀ it, it ∈ l →
             it ∈ request_items (committed w)
             ∧ RI.request_id (RI.data it) = request_id)
    ∧ (ready w →
       fault (committed w) (SelectItemsByRequest request_id) = None →
       l ≡ₚ filter (λ it, RI.request_id (RI.data it) = request_id)
              (request_items (committed w))).
Proof.
  intros Ht.
  assert (Hshape : get_request_items fault request_id = with_connection [] []
            (try_except
               (do d <- execute fault (SelectItemsByRequest request_id);
                ret (items_of request_id d))
               is_Error (fun _ => ret []))) by reflexivity.
  rewrite Hshape, with_connection_run.
  destruct (is_connected w) eqn:Hc.
  2: { exists []. split_and!; [done|constructor|by intros it ?%elem_of_nil|].
       intros (? & _). congruence. }
  destruct (can_acquire w) eqn:Ha.
  2: { exists []. split_and!; [done|constructor|by intros it ?%elem_of_nil|].
       intros (_ & ? & _). congruence. }
  match goal with |- context [try_finally ?b _ _] =>
    destruct (finally_release b w Ha) as [-> _] end.
  { keeps_tac. }
  cbn [fst]. unfold try_except. rewrite bind_run. unfold execute.
  rewrite (snapshot_acquire w Ht).
  destruct (fault (committed w) (SelectItemsByRequest request_id)).
  { exists []. split_and!; [done|constructor|by intros it ?%elem_of_nil|done]. }
  exists (items_of request_id (committed w)). unfold items_of.
  split_and!; [done|apply (Sorted_merge_sort _)| |].
  - intros it. rewrite merge_sort_Permutation, list_elem_of_filter. tauto.
  - intros _ _. apply merge_sort_Permutation.
Qed.

#[local] Instance by_date_desc_row_number_total : Total by_date_desc_row_number.
Proof.
  intros a b. unfold by_date_desc_row_number.
  destruct (order_le_total (Match.row_number a) (Match.row_number b)) as [H|H];
    rewrite H;
    destruct (order_le (Match.request_date_gregorian a)
                (Match.request_date_gregorian b)),
      (order_le (Match.request_date_gregorian b)
         (Match.request_date_gregorian a)); auto.
Qed.

(** X14 (what a search in the items returns).  On a ready manager whose
    server refuses nothing, search_in_items returns (records, None) where
    the records are without repetition, ordered by request date descending
    and then row_number, and are exactly the projections of the pairs of a
    request and one of its items whose description or notes match
    %text% under ILIKE, soft-deleted requests included. *)
Theorem search_in_items_result search_text w :
  ready w →
  (∀ s, fault (committed w) s = None) →
  let pattern := "%" +:+ str search_text +:+ "%" in
  ∃ l, (search_in_items fault search_text w).1 = Return (Some l, None)
    ∧ NoDup l
    ∧ Sorted by_date_desc_row_number l
    ∧ ∀ record, record ∈ l ↔
        ∃ row it, row ∈ purchase_requests (committed w)
                  ∧ it ∈ request_items (committed w)
                  ∧ PR.id row = RI.request_id (RI.data it)
                  ∧ (ilike (RI.description (RI.data it)) pattern
                     || ilike (RI.notes (RI.data it)) pattern = true)
                  ∧ record = project_match (row, it).
Proof.
  intros Hready Hfault pattern.
  rewrite (search_in_items_run fault search_text w Hready Hfault).
  eexists. split; [done|]. unfold items_like. split_and!.
  - rewrite merge_sort_Permutation. apply NoDup_remove_dups.
  - apply (Sorted_merge_sort _).
  - intros record.
    rewrite merge_sort_Permutation, elem_of_remove_dups, list_elem_of_fmap.
    split.
    + intros ([row it] & -> & Hin).
      apply list_elem_of_filter in Hin as [Hm Hin].
      unfold inner_join in Hin.
      apply list_elem_of_bind in Hin as (row' & Hin & Hrow).
      apply list_elem_of_bind in Hin as (it' & Hin & Hit).
      apply list_elem_of_singleton in Hin as [= -> ->].
      apply list_elem_of_filter in Hit as [Hown Hit].
      by exists row', it'.
    + intros (row & it & Hrow & Hit & Hown & Hm & ->).
      exists (row, it). split; [done|].
      apply list_elem_of_filter. split; [done|].
      unfold inner_join. apply list_elem_of_bind. exists row. split; [|done].
      apply list_elem_of_bind. exists it. split; [set_solver|].
      by apply list_elem_of_filter.
Qed.

Lemma string_leb_trans a b c :
  String.leb a b = true → String.leb b c = true → String.leb a c = true.
Proof.
  unfold String.leb. intros Hab Hbc.
  destruct (String.compare a b) eqn:Eab; [|clear Hab|done].
  { apply OrderedTypeEx.String_as_OT.cmp_eq in Eab as ->. done. }
  destruct (String.compare b c) eqn:Ebc; [|clear Hbc|done].
  { apply OrderedTypeEx.String_as_OT.cmp_eq in Ebc as <-. by rewrite Eab. }
  apply OrderedTypeEx.String_as_OT.cmp_lt in Eab, Ebc.
  pose proof (OrderedTypeEx.String_as_OT.lt_trans _ _ _ Eab Ebc) as Hac.
  apply OrderedTypeEx.String_as_OT.cmp_lt in Hac.
  unfold OrderedTypeEx.String_as_OT.cmp in Hac. by rewrite Hac.
Qed.

Lemma order_le_trans a b c :
  order_le a b = true → order_le b c = true → order_le a c = true.
Proof.
  destruct a as [|x|x], b as [|y|y], c as [|z|z]; cbn; try done.
  - intros ?%Z.leb_le ?%Z.leb_le. apply Z.leb_le. lia.
  - apply string_leb_trans.
Qed.

Lemma order_le_refl a : order_le a a = true.
Proof. by destruct (order_le_total a a). Qed.

Lemma max_val_cases a b :
  max_val a b = a ∧ (b = VNone ∨ a ≠ VNone ∧ order_le b a = true)
  ∨ max_val a b = b ∧ (a = VNone ∨ b ≠ VNone ∧ order_le a b = true).
Proof.
  destruct a as [|x|x], b as [|y|y]; cbn; try (by left; auto);
    try (by right; auto).
  - destruct (x <=? y)%Z eqn:E; [right; auto|left]. split; [done|]. right.
    split; [done|]. apply Z.leb_le. apply Z.leb_gt in E. lia.
  - destruct (String.leb x y) eqn:E; [right; auto|left]. split; [done|]. right.
    split; [done|]. by destruct (String.leb_total x y) as [H|H]; [congruence|].
Qed.

Lemma foldr_max_val l :
  let m := foldr max_val VNone l in
  (∀ v, v ∈ l → v ≠ VNone → m ≠ VNone ∧ order_le v m = true)
  ∧ (m ≠ VNone → m ∈ l).
Proof.
  induction l as [|a l [IHle IHin]]; cbn zeta.
  { split; [by intros v ?%elem_of_nil|done]. }
  cbn [foldr]. set (m := foldr max_val VNone l) in *.
  destruct (max_val_cases a m) as [[-> Hm]|[-> Hm]]; split.
  - intros v [->|Hv]%elem_of_cons Hne; [split; [done|apply order_le_refl]|].
    destruct (IHle v Hv Hne) as [Hmne Hvm].
    destruct Hm as [->|[Ha Hma]]; [done|]. split; [done|].
    by apply (order_le_trans _ m).
  - intros _. by left.
  - intros v [->|Hv]%elem_of_cons Hne; [|by apply IHle].
    destruct Hm as [->|[Hmne Ham]]; done.
  - intros Hne. right. by apply IHin.
Qed.

(** X15 (the greatest request number).  On a ready manager whose server
    accepts the query, get_max_request_number returns a value that is at
    least the number of every row whose number is not NULL, soft-deleted
    rows included, and that, unless it is None, is the number of some row;
    it is None only if no row has a number. *)
Theorem get_max_request_number_is_max w :
  ready w →
  fault (committed w) SelectMaxRequestNumber = None →
  ∃ m, (get_max_request_number fault w).1 = Return m
    ∧ (∀ row, row ∈ purchase_requests (committed w) →
              number_of row ≠ VNone →
              m ≠ VNone ∧ order_le (number_of row) m = true)
    ∧ (m ≠ VNone →
       ∃ row, row ∈ purchase_requests (committed w) ∧ number_of row = m).
Proof.
  intros Hready Hf.
  edestruct (run_as (get_max_request_number fault)) as (-> & _ & _);
    [reflexivity|keeps_tac|exact Hready|].
  cbn [fst]. destruct Hready as (_ & _ & Ht).
  unfold try_except. rewrite bind_run. unfold execute.
  rewrite (snapshot_acquire w Ht), Hf. cbv beta iota zeta.
  eexists. split; [done|]. unfold max_request_number.
  destruct (foldr_max_val (map number_of (purchase_requests (committed w))))
    as [Hle Hin].
  split.
  - intros row Hrow Hne. apply Hle; [|done].
    apply list_elem_of_fmap. by exists row.
  - intros Hne. apply Hin in Hne. apply list_elem_of_fmap in Hne as (row & ? & ?).
    by exists row.
Qed.

(** X16 (when the duplicate check says yes).  On a ready manager whose
    server accepts the query, check_duplicate_request_number answers
    (True, row) with an active row of the table that carries the number, or
    (False, None) and then no active row carries it; for the number None
    the answer is always (False, None). *)
Theorem check_duplicate_request_number_exact request_number w :
  ready w →
  fault (committed w) (SelectActiveByNumber request_number) = None →
  (∃ row,
      (check_duplicate_request_number fault request_number w).1
      = Return (true, Some row)
      ∧ row ∈ purchase_requests (committed w)
      ∧ active row
      ∧ number_of row = request_number
      ∧ request_number ≠ VNone)
  ∨ ((check_duplicate_request_number fault request_number w).1
     = Return (false, None)
     ∧ ∀ row, row ∈ purchase_requests (committed w) → active row →
              number_of row ≠ request_number ∨ request_number = VNone).
Proof.
  intros Hready Hf.
  rewrite (check_duplicate_request_number_run fault request_number w Hready).
  cbv zeta. rewrite Hf.
  destruct (head (active_by_number request_number (committed w)))
    as [row|] eqn:Hhead.
  - left. exists row. apply head_Some_elem_of in Hhead.
    apply list_elem_of_filter in Hhead as [[Heq Hact] Hin].
    split_and!; try done; [by apply sql_eq_true|].
    intros ->. by destruct (number_of row).
  - right. split; [done|]. intros row Hin Hact.
    destruct (decide (request_number = VNone)) as [|Hnn]; [by right|left].
    intros Heq.
    destruct (filter_head (λ r, sql_eq (number_of r) request_number = true
                                ∧ active r) _ row Hin) as [r0 Hr0].
    { split; [|done]. rewrite Heq. by apply sql_eq_refl. }
    unfold active_by_number in Hhead. by rewrite Hhead in Hr0.
Qed.

#[local] Instance same_connectivity_preorder : PreOrder same_connectivity.
Proof.
  split; [by intros w|].
  intros w1 w2 w3 (H1 & H2) (H3 & H4). unfold same_connectivity.
  by rewrite H3, H4.
Qed.

Lemma execute_keeps_connectivity s : keeps same_connectivity (execute fault s).
Proof. intros w. unfold execute. by destruct (fault _ _). Qed.

Lemma commit_keeps_connectivity : keeps same_connectivity (commit fault).
Proof. intros w. unfold commit. by destruct (fault _ _). Qed.

Lemma rollback_keeps_connectivity : keeps same_connectivity rollback.
Proof. by intros w. Qed.

Lemma pool_getconn_keeps_connectivity : keeps same_connectivity pool_getconn.
Proof.
  intros w. unfold pool_getconn, bind, get, getconn, same_connectivity.
  destruct (connection_pool w) as [p|] eqn:Hp; [|cbn; by rewrite ?Hp].
  destruct (closed p) eqn:Hcl; [cbn; by rewrite ?Hp|].
  destruct (_ && _); [cbn; by rewrite ?Hp|].
  destruct (_ && _); [cbn; by rewrite ?Hp|].
  cbn. by rewrite ?Hcl.
Qed.

Lemma pool_putconn_keeps_connectivity c :
  keeps same_connectivity (pool_putconn c).
Proof.
  intros w. unfold pool_putconn, bind, get, putconn, same_connectivity.
  destruct (connection_pool w) as [p|] eqn:Hp; [|cbn; by rewrite ?Hp].
  destruct (closed p) eqn:Hcl; [cbn; by rewrite ?Hp|]. cbn. by rewrite ?Hcl.
Qed.

Lemma get_connection_keeps_connectivity : keeps same_connectivity get_connection.
Proof.
  intros w. pose proof (pool_getconn_keeps_connectivity w) as Hk. revert Hk.
  unfold get_connection, pool_getconn, bind, get, try_except.
  destruct (connection_pool w) as [p|]; [|done].
  by destruct (getconn p w) as [[c|[]] x].
Qed.

Lemma return_connection_keeps_connectivity c :
  keeps same_connectivity (return_connection c).
Proof.
  intros w. destruct c as [c|].
  - pose proof (pool_putconn_keeps_connectivity c w) as Hk. revert Hk.
    unfold return_connection, pool_putconn, bind, get.
    by destruct (connection_pool w).
  - unfold return_connection, bind, get. by destruct (connection_pool w).
Qed.

#[local] Hint Resolve execute_keeps_connectivity commit_keeps_connectivity
  rollback_keeps_connectivity pool_getconn_keeps_connectivity
  pool_putconn_keeps_connectivity get_connection_keeps_connectivity
  return_connection_keeps_connectivity : keeps.

(** X17 (no method reconnects).  None of the thirteen methods changes
    is_connected, creates a pool where there is none, or closes or reopens
    the pool: a manager whose construction failed stays disconnected, and a
    pool closed by close_all_connections stays closed, whatever is called. *)
Theorem connectivity_never_changes :
  keeps same_connectivity (get_max_request_number fault)
  ∧ (∀ request_data items_data,
       keeps same_connectivity (save_request fault request_data items_data))
  ∧ (∀ request_id, keeps same_connectivity (get_request_by_id fault request_id))
  ∧ (∀ request_number,
       keeps same_connectivity (get_request_by_number fault request_number))
  ∧ (∀ request_id, keeps same_connectivity (delete_request fault request_id))
  ∧ keeps same_connectivity (test_connection fault)
  ∧ (∀ request_id new_status,
       keeps same_connectivity
         (update_request_status fault request_id new_status))
  ∧ (∀ search_text, keeps same_connectivity (search_in_items fault search_text))
  ∧ (∀ request_id, keeps same_connectivity (get_request_items fault request_id))
  ∧ (∀ request_number,
       keeps same_connectivity
         (check_duplicate_request_number fault request_number))
  ∧ (∀ request_id, keeps same_connectivity (restore_request fault request_id))
  ∧ (∀ filters include_deleted,
       keeps same_connectivity (search_requests fault filters include_deleted))
  ∧ keeps same_connectivity (get_statistics fault).
Proof.
  split_and!; intros;
    unfold get_max_request_number, save_request, get_request_by_id,
      get_request_by_number, delete_request, test_connection,
      update_request_status, search_in_items, get_request_items,
      check_duplicate_request_number, restore_request, search_requests,
      get_statistics, select_count, update, request_params, item_params,
      insert_request, executemany, insert_item;
    keeps_tac.
Qed.

(** X18 (with the flag down, no work is done).  When is_connected is false,
    each of the eleven methods that read the flag returns its not-connected
    value at once and leaves the world, trace included, untouched: no
    connection is asked for and no statement is sent. *)
Theorem not_connected_short_circuits w :
  is_connected w = false →
  get_max_request_number fault w = (Return VNone, w)
  ∧ (∀ request_data items_data,
       save_request fault request_data items_data w
       = (Return (false, None, Some msg_not_connected), w))
  ∧ (∀ request_id, get_request_by_id fault request_id w = (Return None, w))
  ∧ (∀ request_number,
       get_request_by_number fault request_number w = (Return None, w))
  ∧ (∀ request_id,
       delete_request fault request_id w
       = (Return (false, Some msg_not_connected), w))
  ∧ (∀ search_text,
       search_in_items fault search_text w
       = (Return (None, Some "دیتابیس متصل نیست"), w))
  ∧ (∀ request_id, get_request_items fault request_id w = (Return [], w))
  ∧ (∀ request_number,
       check_duplicate_request_number fault request_number w
       = (Return (false, None), w))
  ∧ (∀ request_id,
       restore_request fault request_id w
       = (Return (false, Some msg_not_connected), w))
  ∧ (∀ filters include_deleted,
       search_requests fault filters include_deleted w = (Return [], w))
  ∧ get_statistics fault w = (Return no_statistics, w).
Proof.
  intros Hc.
  split_and!; intros;
    unfold get_max_request_number, save_request, get_request_by_id,
      get_request_by_number, delete_request, search_in_items,
      get_request_items, check_duplicate_request_number, restore_request,
      search_requests, get_statistics;
    rewrite bind_run; unfold get at 1; by rewrite Hc.
Qed.

(** X19 (with no connection to be had, the methods fail fast).  On a
    manager that is flagged connected but cannot get a connection (pool
    closed, or exhausted, or the server unreachable with no idle
    connection), every method returns its failure value and leaves the
    world untouched. *)
Theorem no_connection_fails_fast w :
  is_connected w = true →
  can_acquire w = false →
  get_max_request_number fault w = (Return VNone, w)
  ∧ (∀ request_data items_data,
       save_request fault request_data items_data w
       = (Return (false, None, Some msg_no_connection), w))
  ∧ (∀ request_id, get_request_by_id fault request_id w = (Return None, w))
  ∧ (∀ request_number,
       get_request_by_number fault request_number w = (Return None, w))
  ∧ (∀ request_id,
       delete_request fault request_id w
       = (Return (false, Some msg_no_connection), w))
  ∧ test_connection fault w = (Return false, w)
  ∧ (∀ request_id new_status,
       ∃ msg, update_request_status fault request_id new_status w
              = (Return (false, Some msg), w))
  ∧ (∀ search_text,
       ∃ msg, search_in_items fault search_text w
              = (Return (None, Some msg), w))
  ∧ (∀ request_id, get_request_items fault request_id w = (Return [], w))
  ∧ (∀ request_number,
       check_duplicate_request_number fault request_number w
       = (Return (false, None), w))
  ∧ (∀ request_id,
       restore_request fault request_id w
       = (Return (false, Some msg_no_connection), w))
  ∧ (∀ filters include_deleted,
       search_requests fault filters include_deleted w = (Return [], w))
  ∧ get_statistics fault w = (Return no_statistics, w).
Proof.
  intros Hc Ha.
  assert (Hwith : ∀ A (m : M A) d1 d2 body,
            m = with_connection d1 d2 body → m w = (Return d2, w)).
  { intros A m d1 d2 body ->. by rewrite with_connection_run, Hc, Ha. }
  split_and!; intros; try (by eapply Hwith).
  - unfold test_connection. rewrite bind_run.
    by rewrite (get_connection_none w Ha).
  - unfold update_request_status. destruct (bool_decide _); cbn [negb].
    + rewrite bind_run. unfold attempt.
      destruct (pool_getconn_cases w) as [[Ha' _]|[e ->]]; [congruence|].
      by eexists.
    + by eexists.
  - unfold search_in_items. rewrite bind_run. unfold get at 1. rewrite Hc.
    cbn [negb]. cbv beta iota. rewrite bind_run. unfold attempt.
    destruct (pool_getconn_cases w) as [[Ha' _]|[e ->]]; [congruence|].
    by eexists.
Qed.

(** X20 (what the constructor leaves).  __init__ never raises; it leaves
    is_connected true and a pool of one idle connection exactly when the
    server was reachable, and no pool otherwise; it does not touch the
    tables, and the manager is ready for a call iff the server was
    reachable. *)
Theorem init_connects_iff_server_up w :
  let w0 := (__init__ w).2 in
  (__init__ w).1 = Return tt
  ∧ is_connected w0 = server_up w
  ∧ connection_pool w0
    = (if server_up w then Some (Pool minconn 0 false) else None)
  ∧ committed w0 = committed w
  ∧ (txn w = None → (ready w0 ↔ server_up w = true)).
Proof.
  unfold __init__, _initialize_pool, bind, modify, ret, get, try_except, ready,
    can_acquire.
  cbn. destruct (server_up w) eqn:Hup; cbn; rewrite ?Hup; split_and!; try done.
  intros Ht. split; [by intros (? & _)|done].
Qed.

(** X21 (after close_all_connections).  Closing the pool of a ready manager
    succeeds and leaves is_connected true with no connection to be had;
    update_request_status and search_in_items then report the pool's own
    message (connection pool is closed), and a second close raises it. *)
Theorem close_all_connections_then w :
  ready w →
  let w' := (close_all_connections w).2 in
  (close_all_connections w).1 = Return tt
  ∧ is_connected w' = true
  ∧ can_acquire w' = false
  ∧ committed w' = committed w
  ∧ (∀ request_id new_status,
       new_status ∈ VStr <$> valid_statuses →
       update_request_status fault request_id new_status w'
       = (Return (false, Some ("خطا در تغییر وضعیت: "
                               +:+ "connection pool is closed")), w'))
  ∧ (∀ search_text,
       search_in_items fault search_text w'
       = (Return (None, Some "connection pool is closed"), w'))
  ∧ close_all_connections w'
    = (Raise (Error "connection pool is closed"), w').
Proof.
  intros (Hc & Ha & Ht) w'.
  destruct (acquire_pool w Ha) as (p' & _ & _).
  assert (Hclose : close_all_connections w
                   = (Return tt, set_pool (Some (Pool 0 0 true)) w)).
  { revert Ha. unfold can_acquire, close_all_connections, bind, get.
    destruct (connection_pool w) as [p|]; [|done].
    by destruct (closed p). }
  subst w'. rewrite Hclose. cbn [fst snd].
  split_and!; try done.
  - intros request_id new_status Hvalid. unfold update_request_status.
    by rewrite bool_decide_eq_true_2.
  - intros search_text. unfold search_in_items. rewrite bind_run.
    unfold get at 1. cbn [is_connected set_pool]. by rewrite Hc.
Qed.

(** X22 (test_connection).  Started with no transaction open,
    test_connection returns true exactly when a connection can be had and
    the server answers SELECT version(); it never raises and does not read
    is_connected. *)
Theorem test_connection_spec w :
  txn w = None →
  (test_connection fault w).1
  = Return (can_acquire w
            && bool_decide (fault (committed w) SelectVersion = None)).
Proof.
  intros Ht. unfold test_connection. rewrite bind_run.
  destruct (can_acquire w) eqn:Ha.
  - rewrite (get_connection_some w Ha). cbv beta iota.
    match goal with |- context [try_finally ?b _ _] =>
      destruct (finally_release b w Ha) as [-> _] end.
    { keeps_tac. }
    cbn [fst]. unfold try_except. rewrite bind_run. unfold execute.
    rewrite (snapshot_acquire w Ht).
    by destruct (fault (committed w) SelectVersion).
  - by rewrite (get_connection_none w Ha).
Qed.

#[local] Instance carries_preorder K : PreOrder (carries K).
Proof.
  split; [intros w HK; exact HK|]. intros w1 w2 w3 H1 H2 HK. by apply H2, H1.
Qed.

Lemma snapshot_tables_of w : snapshot w ∈ tables_of w.
Proof. unfold snapshot, tables_of. destruct (txn w); repeat constructor. Qed.

Lemma tables_of_txn_none w d : txn w = None → d ∈ tables_of w → d = committed w.
Proof. unfold tables_of. intros ->. by intros ->%list_elem_of_singleton. Qed.

Section Carried.
Context (P : Z → db → Prop).

Lemma execute_carries s : keeps (carries (throughout P)) (execute fault s).
Proof.
  intros w HK. unfold execute. cbv zeta.
  pose proof (HK _ (snapshot_tables_of w)) as Hs.
  assert (HK' : throughout P (log (Execute s) (set_txn (Some (snapshot w)) w))).
  { intros d. unfold tables_of. cbn. intros [->|[->|[]%elem_of_nil]%elem_of_cons]%elem_of_cons; [|done].
    apply HK. unfold tables_of. set_solver. }
  destruct (fault _ _); exact HK'.
Qed.

Lemma commit_carries : keeps (carries (throughout P)) (commit fault).
Proof.
  intros w HK. unfold commit. cbv zeta.
  pose proof (HK _ (snapshot_tables_of w)) as Hs.
  destruct (fault _ _); [exact HK|].
  intros d. unfold tables_of. cbn. by intros ->%list_elem_of_singleton.
Qed.

Lemma rollback_carries : keeps (carries (throughout P)) rollback.
Proof.
  intros w HK d. unfold tables_of. cbn. intros ->%list_elem_of_singleton.
  apply HK. unfold tables_of. set_solver.
Qed.

Lemma update_carries s f :
  (∀ z d, P z d → P z (f d)) → keeps (carries (throughout P)) (update fault s f).
Proof.
  intros Hf w HK. unfold update, bind, execute, modify, ret. cbv zeta.
  pose proof (HK _ (snapshot_tables_of w)) as Hs.
  destruct (fault _ _).
  - intros d. unfold tables_of. cbn.
    intros [->|[->|[]%elem_of_nil]%elem_of_cons]%elem_of_cons; [|done].
    apply HK. unfold tables_of. set_solver.
  - intros d. unfold tables_of. cbn.
    intros [->|[->|[]%elem_of_nil]%elem_of_cons]%elem_of_cons; [|by apply Hf].
    apply HK. unfold tables_of. set_solver.
Qed.

Lemma pool_getconn_carries : keeps (carries (throughout P)) pool_getconn.
Proof.
  intros w HK. unfold pool_getconn, bind, get, getconn.
  destruct (connection_pool w) as [p|]; [|done].
  destruct (closed p); [done|]. destruct (_ && _); [done|].
  destruct (_ && _); done.
Qed.

Lemma pool_putconn_carries c : keeps (carries (throughout P)) (pool_putconn c).
Proof.
  intros w HK. unfold pool_putconn, bind, get, putconn.
  destruct (connection_pool w) as [p|]; [|done].
  destruct (closed p); [done|].
  intros d. unfold tables_of. cbn. intros ->%list_elem_of_singleton.
  apply HK. unfold tables_of. set_solver.
Qed.

Lemma get_connection_carries : keeps (carries (throughout P)) get_connection.
Proof.
  intros w. pose proof (pool_getconn_carries w) as Hk. revert Hk.
  unfold get_connection, pool_getconn, bind, get, try_except.
  destruct (connection_pool w) as [p|]; [|done].
  by destruct (getconn p w) as [[c|[]] x].
Qed.

Lemma return_connection_carries c : keeps (carries (throughout P)) (return_connection c).
Proof.
  intros w. destruct c as [c|].
  - pose proof (pool_putconn_carries c w) as Hk. revert Hk.
    unfold return_connection, pool_putconn, bind, get.
    by destruct (connection_pool w).
  - unfold return_connection, bind, get. by destruct (connection_pool w).
Qed.
End Carried.

Lemma execute_carries_ids s : keeps (carries ids_in_sequence) (execute fault s).
Proof. apply (execute_carries ids_below). Qed.
Lemma commit_carries_ids : keeps (carries ids_in_sequence) (commit fault).
Proof. apply (commit_carries ids_below). Qed.
Lemma rollback_carries_ids : keeps (carries ids_in_sequence) rollback.
Proof. apply (rollback_carries ids_below). Qed.
Lemma pool_getconn_carries_ids : keeps (carries ids_in_sequence) pool_getconn.
Proof. apply (pool_getconn_carries ids_below). Qed.
Lemma pool_putconn_carries_ids c :
  keeps (carries ids_in_sequence) (pool_putconn c).
Proof. apply (pool_putconn_carries ids_below). Qed.
Lemma get_connection_carries_ids : keeps (carries ids_in_sequence) get_connection.
Proof. apply (get_connection_carries ids_below). Qed.
Lemma return_connection_carries_ids c :
  keeps (carries ids_in_sequence) (return_connection c).
Proof. apply (return_connection_carries ids_below). Qed.

Lemma execute_carries_owned s : keeps (carries items_owned) (execute fault s).
Proof. apply (execute_carries (λ _, no_orphans)). Qed.
Lemma commit_carries_owned : keeps (carries items_owned) (commit fault).
Proof. apply (commit_carries (λ _, no_orphans)). Qed.
Lemma rollback_carries_owned : keeps (carries items_owned) rollback.
Proof. apply (rollback_carries (λ _, no_orphans)). Qed.
Lemma pool_getconn_carries_owned : keeps (carries items_owned) pool_getconn.
Proof. apply (pool_getconn_carries (λ _, no_orphans)). Qed.
Lemma pool_putconn_carries_owned c :
  keeps (carries items_owned) (pool_putconn c).
Proof. apply (pool_putconn_carries (λ _, no_orphans)). Qed.
Lemma get_connection_carries_owned : keeps (carries items_owned) get_connection.
Proof. apply (get_connection_carries (λ _, no_orphans)). Qed.
Lemma return_connection_carries_owned c :
  keeps (carries items_owned) (return_connection c).
Proof. apply (return_connection_carries (λ _, no_orphans)). Qed.

Lemma db_delete_ids i z d : ids_below z d → ids_below z (db_delete i d).
Proof.
  intros H r. unfold db_delete. cbn. intros [_ Hr]%list_elem_of_filter.
  by apply H.
Qed.

Lemma db_update_status_ids s i z d :
  ids_below z d → ids_below z (db_update_status s i d).
Proof.
  intros H r. unfold db_update_status. cbn.
  intros (r0 & -> & Hr0)%list_elem_of_fmap. specialize (H r0 Hr0).
  by case_decide.
Qed.

Lemma db_restore_ids i z d : ids_below z d → ids_below z (db_restore i d).
Proof.
  intros H r. unfold db_restore. cbn.
  intros (r0 & -> & Hr0)%list_elem_of_fmap. specialize (H r0 Hr0).
  by case_decide.
Qed.

Lemma db_delete_owned i d : no_orphans d → no_orphans (db_delete i d).
Proof.
  intros H it. unfold db_delete. cbn. intros [Hne Hit]%list_elem_of_filter.
  destruct (H it Hit) as (r & Hr & Hid). exists r. split; [|done].
  apply list_elem_of_filter. split; [congruence|done].
Qed.

Lemma db_update_status_owned s i d :
  no_orphans d → no_orphans (db_update_status s i d).
Proof.
  intros H it. unfold db_update_status. cbn. intros Hit.
  destruct (H it Hit) as (r & Hr & Hid).
  exists (if decide (PR.id r = i) then set_status s r else r).
  split; [|by case_decide]. apply list_elem_of_fmap. by exists r.
Qed.

Lemma db_restore_owned i d : no_orphans d → no_orphans (db_restore i d).
Proof.
  intros H it. unfold db_restore. cbn. intros Hit.
  destruct (H it Hit) as (r & Hr & Hid).
  exists (if decide (restorable i r) then clear_deleted_at r else r).
  split; [|by case_decide]. apply list_elem_of_fmap. by exists r.
Qed.

Lemma delete_carries_ids i :
  keeps (carries ids_in_sequence) (update fault (DeleteRequest i) (db_delete i)).
Proof. apply (update_carries ids_below). intros. by apply db_delete_ids. Qed.
Lemma update_status_carries_ids s i :
  keeps (carries ids_in_sequence)
    (update fault (UpdateStatus s i) (db_update_status s i)).
Proof. apply (update_carries ids_below). intros. by apply db_update_status_ids. Qed.
Lemma restore_carries_ids i :
  keeps (carries ids_in_sequence) (update fault (ClearDeletedAt i) (db_restore i)).
Proof. apply (update_carries ids_below). intros. by apply db_restore_ids. Qed.

Lemma delete_carries_owned i :
  keeps (carries items_owned) (update fault (DeleteRequest i) (db_delete i)).
Proof. apply (update_carries (λ _, no_orphans)). intros. by apply db_delete_owned. Qed.
Lemma update_status_carries_owned s i :
  keeps (carries items_owned)
    (update fault (UpdateStatus s i) (db_update_status s i)).
Proof.
  apply (update_carries (λ _, no_orphans)). intros. by apply db_update_status_owned.
Qed.
Lemma restore_carries_owned i :
  keeps (carries items_owned) (update fault (ClearDeletedAt i) (db_restore i)).
Proof. apply (update_carries (λ _, no_orphans)). intros. by apply db_restore_owned. Qed.

Lemma ids_below_mono z z' d : (z ≤ z')%Z → ids_below z d → ids_below z' d.
Proof. intros Hz H r Hr. specialize (H r Hr). lia. Qed.

Lemma insert_request_carries_ids c :
  keeps (carries ids_in_sequence) (insert_request fault c).
Proof.
  intros w HK. rewrite insert_request_run. cbv zeta.
  pose proof (HK _ (snapshot_tables_of w)) as Hs.
  assert (Hc : ids_below (purchase_requests_id_seq w) (committed w)).
  { apply HK. unfold tables_of. constructor. }
  destruct (fault _ _); intros d; unfold tables_of; cbn;
    intros [->|[->|[]%elem_of_nil]%elem_of_cons]%elem_of_cons;
    try (eapply ids_below_mono; [|done]; lia).
  intros r. unfold db_insert_request. cbn.
  intros [Hr| ->%list_elem_of_singleton]%elem_of_app; [|cbn; lia].
  specialize (Hs r Hr). lia.
Qed.

Lemma insert_item_carries_ids c :
  keeps (carries ids_in_sequence) (insert_item fault c).
Proof.
  intros w HK. unfold insert_item, bind, get, modify, execute. cbv zeta.
  pose proof (HK _ (snapshot_tables_of w)) as Hs.
  assert (Hc : ids_below (purchase_requests_id_seq w) (committed w)).
  { apply HK. unfold tables_of. constructor. }
  change (snapshot (set_seqs ?a ?b w)) with (snapshot w).
  destruct (fault _ _); intros d; unfold tables_of; cbn;
    intros [->|[->|[]%elem_of_nil]%elem_of_cons]%elem_of_cons; done.
Qed.

#[local] Hint Resolve execute_carries_ids commit_carries_ids
  rollback_carries_ids pool_getconn_carries_ids pool_putconn_carries_ids
  get_connection_carries_ids return_connection_carries_ids
  execute_carries_owned commit_carries_owned rollback_carries_owned
  pool_getconn_carries_owned pool_putconn_carries_owned
  get_connection_carries_owned return_connection_carries_owned
  delete_carries_ids update_status_carries_ids restore_carries_ids
  delete_carries_owned update_status_carries_owned restore_carries_owned
  insert_request_carries_ids insert_item_carries_ids : keeps.

Lemma consistent_tables w :
  txn w = None → consistent w → ids_in_sequence w ∧ items_owned w.
Proof.
  intros Ht [Hids Hown].
  split; intros d ->%(tables_of_txn_none w d Ht); done.
Qed.

Lemma tables_consistent w : ids_in_sequence w → items_owned w → consistent w.
Proof.
  intros Hids Hown. split; [apply Hids|apply Hown]; unfold tables_of; constructor.
Qed.

Lemma carries_consistent {A} (m : M A) :
  keeps (carries ids_in_sequence) m →
  keeps (carries items_owned) m →
  ∀ w, txn w = None → consistent w → consistent (m w).2.
Proof.
  intros H1 H2 w Ht [Hids Hown]%(consistent_tables w Ht).
  apply tables_consistent; [by apply H1|by apply H2].
Qed.

Lemma save_request_carries_ids rd items :
  keeps (carries ids_in_sequence) (save_request fault rd items).
Proof. unfold save_request, request_params, item_params, executemany. keeps_tac. Qed.

Lemma save_request_owned rd items w :
  txn w = None →
  no_orphans (committed w) →
  no_orphans (committed (save_request fault rd items w).2).
Proof.
  intros Ht Hown.
  destruct (is_connected w) eqn:Hc; cycle 1.
  { destruct (save_request_unavailable fault rd items w) as [msg ->]; auto. }
  destruct (can_acquire w) eqn:Ha; cycle 1.
  { destruct (save_request_unavailable fault rd items w) as [msg ->]; auto. }
  destruct (save_request_run fault rd items w) as (r & w' & Hrun & _ & Haon & _);
    [done|].
  rewrite Hrun. cbn [snd].
  destruct Haon as [(id & params & new_items & _ & _ & _ & _ & _ & Hnew & _ & Hdb)
                   |[Hdb _]]; rewrite Hdb; [|done].
  intros it. cbn. intros [Hit|Hit]%elem_of_app.
  - destruct (Hown it Hit) as (r0 & Hr0 & Hid). exists r0.
    split; [|done]. apply elem_of_app. by left.
  - exists (PR.Row id params None). split; [apply elem_of_app; right; constructor|].
    cbn. symmetry. by apply (proj1 (Forall_forall _ _) Hnew).
Qed.

(** X23 (ids are never reused, items are never orphaned).  If every id
    in purchase_requests is below the next value of the id sequence and
    every item belongs to a request of the table, the same holds after each
    of the thirteen methods, whatever the server refuses: save_request
    always gets an id no row and no item carries, also after a rolled back
    save or a delete. *)
Theorem tables_stay_consistent w :
  txn w = None →
  consistent w →
  consistent (get_max_request_number fault w).2
  ∧ (∀ request_data items_data,
       consistent (save_request fault request_data items_data w).2)
  ∧ (∀ request_id, consistent (get_request_by_id fault request_id w).2)
  ∧ (∀ request_number,
       consistent (get_request_by_number fault request_number w).2)
  ∧ (∀ request_id, consistent (delete_request fault request_id w).2)
  ∧ consistent (test_connection fault w).2
  ∧ (∀ request_id new_status,
       consistent (update_request_status fault request_id new_status w).2)
  ∧ (∀ search_text, consistent (search_in_items fault search_text w).2)
  ∧ (∀ request_id, consistent (get_request_items fault request_id w).2)
  ∧ (∀ request_number,
       consistent (check_duplicate_request_number fault request_number w).2)
  ∧ (∀ request_id, consistent (restore_request fault request_id w).2)
  ∧ (∀ filters include_deleted,
       consistent (search_requests fault filters include_deleted w).2)
  ∧ consistent (get_statistics fault w).2.
Proof.
  intros Ht Hcons.
  assert (Hsave : ∀ rd items, consistent (save_request fault rd items w).2).
  { intros rd items. split.
    - destruct (consistent_tables w Ht Hcons) as [Hids _].
      apply (save_request_carries_ids rd items w Hids).
      unfold tables_of. constructor.
    - apply save_request_owned; [done|apply Hcons]. }
  split_and!; intros; try apply Hsave;
    (apply carries_consistent; [| |done|done]);
    unfold get_max_request_number, get_request_by_id,
      get_request_by_number, delete_request, test_connection,
      update_request_status, search_in_items, get_request_items,
      check_duplicate_request_number, restore_request, search_requests,
      get_statistics, select_count;
    keeps_tac.
Qed.

(** X24 (save_request checks no number).  Saving the same request twice
    succeeds twice when the server refuses nothing: the table ends with two
    active rows, under two ids, that carry the same request number.  The
    uniqueness of the number among active rows rests on the caller asking
    check_duplicate_request_number first, or on a constraint of the schema. *)
Theorem save_request_accepts_duplicate rd items w :
  ready w →
  (∀ d s, fault d s = None) →
  has_fields request_fields rd →
  Forall (has_fields item_fields) items →
  consistent w →
  let w1 := (save_request fault rd items w).2 in
  let w2 := (save_request fault rd items w1).2 in
  ∃ i j params,
    (save_request fault rd items w).1 = Return (true, Some i, None)
    ∧ (save_request fault rd items w1).1 = Return (true, Some j, None)
    ∧ (i < j)%Z
    ∧ purchase_requests (committed w2)
      = purchase_requests (committed w)
        ++ [PR.Row i params None; PR.Row j params None]
    ∧ rd !! "request_number" = Some (PR.request_number params).
Proof.
  intros Hready Hfault Hrd Hitems Hcons w1 w2.
  destruct (save_request_ok rd items w Hready Hfault Hrd Hitems)
    as (params & new_items & Hres & Hp & _ & _ & Hdb & Hr).
  fold w1 in Hdb, Hr.
  destruct (save_request_ok rd items w1 Hr Hfault Hrd Hitems)
    as (params' & new_items' & Hres' & Hp' & _ & _ & Hdb' & _).
  fold w2 in Hdb'.
  pose proof (Hp w) as Hpw. rewrite (Hp' w) in Hpw. injection Hpw as ->.
  exists (purchase_requests_id_seq w), (purchase_requests_id_seq w1), params.
  split_and!; try done.
  - destruct Hready as (_ & _ & Ht).
    destruct (consistent_tables w Ht Hcons) as [Hids _].
    apply (save_request_carries_ids rd items w Hids (committed w1)
             (list_elem_of_here _ _)
             (PR.Row (purchase_requests_id_seq w) params None)).
    rewrite Hdb. cbn [purchase_requests]. apply elem_of_app. right. constructor.
  - rewrite Hdb', Hdb. cbn [purchase_requests]. by rewrite <- app_assoc.
  - by apply (request_params_number rd w).
Qed.



(** X26 (the two point lookups).  On a ready manager whose server refuses
    nothing: get_request_by_id returns a row of the table with that id
    together with all its items in row_number order, or None when no row
    carries the id; get_request_by_number returns a row of the table with
    that number, or None when no row carries it (always None for the number
    None). *)
Theorem point_lookups_exact w :
  ready w →
  (∀ s, fault (committed w) s = None) →
  (∀ request_id,
     (∃ row items,
         (get_request_by_id fault request_id w).1 = Return (Some (row, items))
         ∧ row ∈ purchase_requests (committed w)
         ∧ PR.id row = request_id
         ∧ Sorted by_row_number items
         ∧ items ≡ₚ filter (λ it, RI.request_id (RI.data it) = request_id)
                      (request_items (committed w)))
     ∨ ((get_request_by_id fault request_id w).1 = Return None
        ∧ ∀ row, row ∈ purchase_requests (committed w) →
                 PR.id row ≠ request_id))
  ∧ (∀ request_number,
       (∃ row,
           (get_request_by_number fault request_number w).1 = Return (Some row)
           ∧ row ∈ purchase_requests (committed w)
           ∧ number_of row = request_number)
       ∨ ((get_request_by_number fault request_number w).1 = Return None
          ∧ ∀ row, row ∈ purchase_requests (committed w) →
                   number_of row ≠ request_number
                   ∨ request_number = VNone)).
Proof.
  intros Hready Hfault. split.
  - intros request_id.
    rewrite (get_request_by_id_run fault request_id w Hready Hfault).
    destruct (head (requests_by_id request_id (committed w)))
      as [row|] eqn:Hhead.
    + left. exists row, (items_of request_id (committed w)).
      apply head_Some_elem_of in Hhead.
      apply list_elem_of_filter in Hhead as [Hid Hin].
      split_and!; try done; unfold items_of.
      * apply (Sorted_merge_sort _).
      * apply merge_sort_Permutation.
    + right. split; [done|]. intros row Hin Hid.
      destruct (filter_head (λ r, PR.id r = request_id) _ row Hin Hid)
        as [r0 Hr0].
      unfold requests_by_id in Hhead. by rewrite Hhead in Hr0.
  - intros request_number.
    rewrite (get_request_by_number_run fault request_number w Hready Hfault).
    destruct (head (requests_by_number request_number (committed w)))
      as [row|] eqn:Hhead.
    + left. exists row. apply head_Some_elem_of in Hhead.
      apply list_elem_of_filter in Hhead as [Heq Hin].
      split_and!; try done. by apply sql_eq_true.
    + right. split; [done|]. intros row Hin.
      destruct (decide (request_number = VNone)) as [|Hnn]; [by right|left].
      intros Heq.
      destruct (filter_head (λ r, sql_eq (number_of r) request_number = true)
                  _ row Hin) as [r0 Hr0].
      { rewrite Heq. by apply sql_eq_refl. }
      unfold requests_by_number in Hhead. by rewrite Hhead in Hr0.
Qed.
End Further.

(** ** The properties at work *)

(** The worlds above are states between two calls of a connected manager. *)
Lemma ready_online : ready online.
Proof. repeat split. Qed.

Lemma ready_bin : ready bin.
Proof. repeat split. Qed.

Lemma ready_saved : ready saved.
Proof. repeat split. Qed.

(** C1 at work: saving request 1001 with its two items, on a server that
    takes them and on one that refuses the second item. *)
Lemma save_request_atomic_witness :
  txn online = None
  ∧ all_or_nothing no_fault request_1001 two_items online
      (save_request no_fault request_1001 two_items online).1
      (save_request no_fault request_1001 two_items online).2
  ∧ committed (save_request refuse_paper request_1001 two_items online).2 =
      committed online.
Proof.
  split; [reflexivity|]. split.
  - exact (proj1 (proj2 (save_request_atomic no_fault request_1001 two_items
                           online eq_refl))).
  - refine (proj1 (proj2 (proj2 (save_request_atomic refuse_paper request_1001
                                   two_items online eq_refl))
                     _ (RI.Cols 1 (VInt 2) (VStr "Paper") (VInt 2) (VStr "box")
                          (VStr "تهران") VNone) eq_refl _ _)).
    + right. left.
    + intros d. done.
Defined.

(** C2 at work: request 1001 without its number. *)
Lemma save_request_missing_field_raises_witness :
  ready online
  ∧ (save_request no_fault (delete "request_number" request_1001) two_items
       online).1 = Raise (KeyError "request_number").
Proof.
  split; [exact ready_online|].
  apply (save_request_missing_field_raises no_fault); [exact ready_online|].
  reflexivity.
Defined.


(** C3 at work: 'archived' is turned down with the world intact; 'approved'
    for an id no row carries is not found. *)
Lemma update_request_status_validates_witness :
  update_request_status no_fault 7 (VStr "archived") online =
    (Return (false,
             Some "وضعیت نامعتبر. مقادیر مجاز: pending, approved, rejected, completed"),
     online)
  ∧ (update_request_status no_fault 7 (VStr "approved") online).1 =
      Return (false, Some msg_not_found).
Proof.
  split.
  - apply (proj1 (update_request_status_validates no_fault 7 (VStr "archived")
                    online)).
    apply (bool_decide_unpack _). vm_compute. exact I.
  - apply (proj2 (update_request_status_validates no_fault 7 (VStr "approved")
                    online)); try reflexivity.
    apply (bool_decide_unpack _). vm_compute. exact I.
Defined.

(** C5 at work: restoring the soft-deleted request 1001 succeeds; restoring
    it on tables where it is active fails. *)
Lemma restore_request_only_when_deleted_witness :
  (restore_request no_fault 1 bin).1 = Return (true, None)
  ∧ (restore_request no_fault 1 saved).1 = Return (false, Some msg_not_restorable).
Proof.
  split.
  - apply (proj1 (restore_request_only_when_deleted no_fault 1 bin ready_bin
                    eq_refl eq_refl)).
    exists deleted_1001. repeat split; [by left|done].
  - apply (proj2 (restore_request_only_when_deleted no_fault 1 saved ready_saved
                    eq_refl eq_refl)).
    intros row Hrow _. apply list_elem_of_singleton in Hrow. by subst row.
Defined.

(** C8 at work: not connected; connected to a server that fails the
    query; connected, with no such number in the table. *)
Lemma check_duplicate_unavailable_looks_free_witness :
  check_duplicate_request_number no_fault (VStr "1001") offline =
    (Return (false, None), offline)
  ∧ (check_duplicate_request_number server_gone (VStr "1001") saved).1 =
      Return (false, None)
  ∧ (check_duplicate_request_number no_fault (VStr "1001") online).1 =
      Return (false, None).
Proof.
  split; [|split].
  - apply (proj1 (check_duplicate_unavailable_looks_free no_fault (VStr "1001")
                    offline)).
    by left.
  - apply (proj1 (proj2 (check_duplicate_unavailable_looks_free server_gone
                           (VStr "1001") saved)));
      [exact ready_saved|by eexists].
  - apply (proj2 (proj2 (check_duplicate_unavailable_looks_free no_fault
                           (VStr "1001") online)));
      [exact ready_online|reflexivity|reflexivity].
Defined.

(** C9 at work: the status 'archived' is stored as given. *)
Lemma save_request_status_verbatim_witness :
  (save_request no_fault (<["status" := VStr "archived"]> request_1001)
     two_items online).1 = Return (true, Some 1%Z, None).
Proof.
  apply (save_request_status_verbatim no_fault
           (<["status" := VStr "archived"]> request_1001) two_items online);
    [exact ready_online|done| |].
  - unfold has_fields, request_fields. repeat constructor; by eexists.
  - repeat constructor; by eexists.
Defined.

(** C10 at work: the soft-deleted request 1001 is found by id and by
    number, its item is found by text, and the default search skips it. *)
Lemma lookups_ignore_deleted_at_witness :
  (get_request_by_id no_fault 1 bin).1 = Return (Some (deleted_1001, [pen_of_1001]))
  ∧ (get_request_by_number no_fault (VStr "1001") bin).1 = Return (Some deleted_1001)
  ∧ (∃ l, (search_in_items no_fault (VStr "pen") bin).1 = Return (Some l, None)
          ∧ project_match (deleted_1001, pen_of_1001) ∈ l)
  ∧ (search_requests no_fault None false bin).1 = Return [].
Proof.
  assert (Hin : deleted_1001 ∈ purchase_requests (committed bin)) by (by left).
  assert (Hdel : PR.deleted_at deleted_1001 ≠ None) by done.
  assert (Huniq : ∀ r, r ∈ purchase_requests (committed bin) → r = deleted_1001).
  { intros r Hr. by apply list_elem_of_singleton in Hr. }
  pose proof (lookups_ignore_deleted_at no_fault deleted_1001 bin ready_bin
                (λ _, eq_refl) Hin Hdel) as (Hid & Hnumber & Hitems & Hsearch).
  split; [|split; [|split]].
  - apply Hid. intros r Hr _. by apply Huniq.
  - apply Hnumber; [done|]. intros r Hr _. by apply Huniq.
  - apply Hitems; [by left|done|by left].
  - reflexivity.
Defined.

(** C4, where the code departs from it.  A request saved under the status
    'archived' is a state the manager reaches, and there [get_statistics]
    counts one active request and none under any of the four statuses:
    total is 1 and the sum is 0. *)
Theorem get_statistics_total_exceeds_sum :
  (save_request no_fault (<["status" := VStr "archived"]> request_1001) []
     online).1 = Return (true, Some 1%Z, None)
  ∧ (get_statistics no_fault archived).1 = Return (Statistics 1 0 0 0 0)
  ∧ ∀ s, (get_statistics no_fault archived).1 = Return s →
         total s ≠ pending s + approved s + rejected s + completed s.
Proof.
  split; [reflexivity|]. split; [reflexivity|].
  intros s. replace (get_statistics no_fault archived).1
    with (Return (Statistics 1 0 0 0 0)) by reflexivity.
  by intros [= <-].
Qed.

(** C6, where the code departs from it.  After a construction that could
    not reach the server the flag is down and there is no pool.  The
    operations that read the flag answer with their not-connected value and
    leave the world alone; [update_request_status] never reads it: it calls
    getconn on the missing pool and reports the AttributeError inside its
    own message. [test_connection] does not read it either, and returns
    False for want of a pool. *)
Theorem update_request_status_ignores_flag fault request_id :
  is_connected offline = false
  ∧ connection_pool offline = None
  ∧ update_request_status fault request_id (VStr "approved") offline =
      (Return (false,
               Some "خطا در تغییر وضعیت: 'NoneType' object has no attribute 'getconn'"),
       offline)
  ∧ test_connection fault offline = (Return false, offline)
  ∧ save_request fault request_1001 two_items offline =
      (Return (false, None, Some msg_not_connected), offline)
  ∧ delete_request fault request_id offline =
      (Return (false, Some msg_not_connected), offline)
  ∧ restore_request fault request_id offline =
      (Return (false, Some msg_not_connected), offline)
  ∧ search_in_items fault (VStr "pen") offline =
      (Return (None, Some "دیتابیس متصل نیست"), offline)
  ∧ get_request_by_id fault request_id offline = (Return None, offline)
  ∧ get_request_by_number fault (VStr "1001") offline = (Return None, offline)
  ∧ get_request_items fault request_id offline = (Return [], offline)
  ∧ check_duplicate_request_number fault (VStr "1001") offline =
      (Return (false, None), offline)
  ∧ search_requests fault None false offline = (Return [], offline)
  ∧ get_statistics fault offline = (Return no_statistics, offline)
  ∧ get_max_request_number fault offline = (Return VNone, offline).
Proof. repeat split. Qed.

(** C7 as stated fails on a text that LIKE reads as a pattern: filtering
    the requester name by "_" returns the request of Ali, which the
    substring test does not select, "_" not occurring in "Ali". *)
Lemma search_requests_underscore_matches_any_name :
  let filters : option dict := Some {[ "requester_name" := VStr "_" ]} in
  let ali := PR.Row 1
               (PR.Cols (VStr "1001") (VStr "1403/01/01") (VStr "2024-03-20")
                  (VStr "IT") (VStr "Ali") (VStr "1001.pdf") (VInt 1403)
                  (VInt 1) (VStr "Farvardin") (VStr "pending"))
               None in
  (search_requests no_fault filters false saved).1 = Return [Found ali 2]
  ∧ ¬ selected_by_substring filters false ali
  ∧ icontains "_" (VStr "Ali") = false.
Proof. repeat split. by intros [=]. Qed.

(** C7, as amended, at work: "AL" finds Ali's request with its two items,
    as the substring test does. *)
Lemma search_requests_selects_witness :
  let filters : option dict := Some {[ "requester_name" := VStr "AL" ]} in
  ∃ l, (search_requests no_fault filters false saved).1 = Return l
       ∧ Sorted by_number_desc l
       ∧ l ≡ₚ (λ r, Found r (count_items r (committed saved)))
                <$> filter (selected_by_substring filters false)
                      (purchase_requests (committed saved)).
Proof.
  intros filters.
  destruct (search_requests_selects no_fault filters false saved
              ready_saved eq_refl) as (l & Hl & _ & Hsorted & Hplain).
  exists l. split; [done|]. split; [done|]. apply Hplain.
  intros f key v [= <-] _ Hv.
  destruct (decide (key = "requester_name")) as [->|Hne].
  - by injection Hv as <-.
  - by rewrite lookup_singleton_ne in Hv.
Defined.

(** ** The further properties at work *)

Lemma ready_reissued : ready reissued.
Proof. repeat split. Qed.

Lemma consistent_online : consistent online.
Proof. split; intros x Hx; by apply elem_of_nil in Hx. Qed.

Lemma request_1001_fields : has_fields request_fields request_1001.
Proof. unfold has_fields, request_fields. repeat constructor; by eexists. Qed.

Lemma two_items_fields : Forall (has_fields item_fields) two_items.
Proof. repeat constructor; by eexists. Qed.

(** X2 at work: the second item is refused, the connection is back. *)
Lemma connection_always_returned_witness :
  txn online = None
  ∧ in_use (save_request refuse_paper request_1001 two_items online).2
    = in_use online.
Proof.
  split; [reflexivity|].
  exact (proj1 (proj2 (proj1 (proj2 (connection_always_returned refuse_paper))
                         request_1001 two_items online eq_refl))).
Defined.


(** X4 at work: deleting a request that is not there. *)
Lemma delete_request_cascades_witness :
  ready saved
  ∧ (delete_request no_fault 7 saved).1 = Return (true, None)
  ∧ committed (delete_request no_fault 7 saved).2 = committed saved.
Proof.
  split; [exact ready_saved|].
  pose proof (delete_request_cascades no_fault 7 saved ready_saved eq_refl
                eq_refl) as (Hok & _ & _ & Hsame).
  split; [exact Hok|]. apply Hsame.
  - intros row Hrow. apply list_elem_of_singleton in Hrow. by subst row.
  - intros it Hit. apply elem_of_cons in Hit as [->|Hit]; [done|].
    apply list_elem_of_singleton in Hit. by subst it.
Defined.

(** X5 at work: request 1001 after its deletion. *)
Lemma delete_request_then_lookups_witness :
  ready saved
  ∧ (get_request_by_id no_fault 1 (delete_request no_fault 1 saved).2).1
    = Return None
  ∧ (get_request_items no_fault 1 (delete_request no_fault 1 saved).2).1
    = Return [].
Proof.
  split; [exact ready_saved|].
  pose proof (delete_request_then_lookups no_fault 1 saved ready_saved
                (λ _ _, eq_refl)) as (Hid & Hitems & _).
  by split.
Defined.


(** X7 at work: request 1001 is approved. *)
Lemma update_request_status_applies_witness :
  ready saved
  ∧ ∃ request items,
      (get_request_by_id no_fault 1
         (update_request_status no_fault 1 (VStr "approved") saved).2).1
      = Return (Some (request, items))
      ∧ status_of request = VStr "approved".
Proof.
  split; [exact ready_saved|].
  refine (proj2 (proj2 (proj2 (proj2 (proj2
            (update_request_status_applies no_fault 1 (VStr "approved")
               (clear_deleted_at deleted_1001) saved ready_saved _ _ eq_refl
               (λ _ _, eq_refl))))))).
  - apply (bool_decide_unpack _). vm_compute. exact I.
  - by left.
Defined.

(** X8 at work: request 1001 and its two items. *)
Lemma save_request_then_get_request_by_id_witness :
  ready online
  ∧ ∃ params cols its,
      (save_request no_fault request_1001 two_items online).1
      = Return (true, Some 1%Z, None)
      ∧ (request_params request_1001 online).1 = Return params
      ∧ (map_M (item_params 1) two_items online).1 = Return cols
      ∧ (get_request_by_id no_fault 1 saved).1
        = Return (Some (PR.Row 1 params None, its))
      ∧ RI.data <$> its ≡ₚ cols
      ∧ length its = length two_items
      ∧ Sorted by_row_number its.
Proof.
  split; [exact ready_online|].
  exact (save_request_then_get_request_by_id no_fault request_1001 two_items
           online ready_online (λ _ _, eq_refl) request_1001_fields
           two_items_fields consistent_online).
Defined.

(** X9 at work: the number 1001 is taken. *)
Lemma save_request_then_check_duplicate_witness :
  ready online
  ∧ ∃ row,
      (check_duplicate_request_number no_fault (VStr "1001") saved).1
      = Return (true, Some row)
      ∧ row ∈ purchase_requests (committed saved)
      ∧ number_of row = VStr "1001"
      ∧ active row.
Proof.
  split; [exact ready_online|].
  refine (save_request_then_check_duplicate no_fault request_1001 two_items
            (VStr "1001") online ready_online (λ _ _, eq_refl)
            request_1001_fields two_items_fields eq_refl _).
  discriminate.
Defined.

(** X10 at work: request 1001 cannot be restored once deleted. *)
Lemma delete_request_then_restore_fails_witness :
  ready saved
  ∧ (restore_request no_fault 1 (delete_request no_fault 1 saved).2).1
    = Return (false, Some msg_not_restorable).
Proof.
  split; [exact ready_saved|].
  exact (proj1 (delete_request_then_restore_fails no_fault 1 saved ready_saved
                  (λ _ _, eq_refl))).
Defined.

(** X11 at work: the deleted request 1001 comes back beside its successor. *)
Lemma restore_request_revives_duplicate_witness :
  ready reissued
  ∧ (restore_request no_fault 1 reissued).1 = Return (true, None)
  ∧ clear_deleted_at deleted_1001
    ∈ purchase_requests (committed (restore_request no_fault 1 reissued).2)
  ∧ active_1001
    ∈ purchase_requests (committed (restore_request no_fault 1 reissued).2).
Proof.
  split; [exact ready_reissued|].
  assert (Hrow : deleted_1001 ∈ purchase_requests (committed reissued))
    by (by left).
  assert (Hother : active_1001 ∈ purchase_requests (committed reissued))
    by (right; by left).
  assert (Hdel : PR.deleted_at deleted_1001 ≠ None) by done.
  assert (Hne : PR.id active_1001 ≠ 1%Z) by done.
  pose proof (restore_request_revives_duplicate no_fault 1 deleted_1001
                active_1001 reissued ready_reissued (λ _ _, eq_refl) Hrow
                eq_refl Hdel Hother Hne eq_refl eq_refl)
    as (Hok & Hin & Hin' & _).
  by split_and!.
Defined.

(** X12 at work: a server that fails every statement gives zeros. *)
Lemma get_statistics_counts_or_zeros_witness :
  txn saved = None
  ∧ ∃ s, (get_statistics server_gone saved).1 = Return s
         ∧ pending s + approved s + rejected s + completed s ≤ total s.
Proof.
  split; [reflexivity|].
  destruct (get_statistics_counts_or_zeros server_gone saved eq_refl)
    as (s & Hs & _ & Hle).
  by exists s.
Defined.

(** X13 at work: the two items of request 1001. *)
Lemma get_request_items_sorted_witness :
  txn saved = None
  ∧ ∃ l, (get_request_items no_fault 1 saved).1 = Return l
         ∧ Sorted by_row_number l.
Proof.
  split; [reflexivity|].
  destruct (get_request_items_sorted no_fault 1 saved eq_refl)
    as (l & Hl & Hsorted & _).
  by exists l.
Defined.

(** X14 at work: looking for pens. *)
Lemma search_in_items_result_witness :
  ready saved
  ∧ ∃ l, (search_in_items no_fault (VStr "pen") saved).1 = Return (Some l, None)
         ∧ NoDup l
         ∧ Sorted by_date_desc_row_number l.
Proof.
  split; [exact ready_saved|].
  destruct (search_in_items_result no_fault (VStr "pen") saved ready_saved
              (λ _, eq_refl)) as (l & Hl & Hnodup & Hsorted & _).
  by exists l.
Defined.

(** X15 at work: the greatest number among the deleted 1001 and its
    successor. *)
Lemma get_max_request_number_is_max_witness :
  ready reissued
  ∧ ∃ m, (get_max_request_number no_fault reissued).1 = Return m
         ∧ m ≠ VNone
         ∧ order_le (number_of deleted_1001) m = true.
Proof.
  split; [exact ready_reissued|].
  destruct (get_max_request_number_is_max no_fault reissued ready_reissued
              eq_refl) as (m & Hm & Hle & _).
  exists m. split; [exact Hm|]. apply Hle; [by left|done].
Defined.

(** X16 at work: 1001 is taken. *)
Lemma check_duplicate_request_number_exact_witness :
  ready saved
  ∧ ((∃ row,
         (check_duplicate_request_number no_fault (VStr "1001") saved).1
         = Return (true, Some row)
         ∧ row ∈ purchase_requests (committed saved)
         ∧ active row
         ∧ number_of row = VStr "1001"
         ∧ VStr "1001" ≠ VNone)
     ∨ ((check_duplicate_request_number no_fault (VStr "1001") saved).1
        = Return (false, None)
        ∧ ∀ row, row ∈ purchase_requests (committed saved) → active row →
                 number_of row ≠ VStr "1001" ∨ VStr "1001" = VNone)).
Proof.
  split; [exact ready_saved|].
  exact (check_duplicate_request_number_exact no_fault (VStr "1001") saved
           ready_saved eq_refl).
Defined.

(** X18 at work: a manager constructed while the server was down. *)
Lemma not_connected_short_circuits_witness :
  is_connected offline = false
  ∧ save_request no_fault request_1001 two_items offline
    = (Return (false, None, Some msg_not_connected), offline).
Proof.
  split; [reflexivity|].
  exact (proj1 (proj2 (not_connected_short_circuits no_fault offline eq_refl))
           request_1001 two_items).
Defined.

(** X19 at work: a manager whose pool was closed. *)
Lemma no_connection_fails_fast_witness :
  is_connected closed_down = true
  ∧ can_acquire closed_down = false
  ∧ save_request no_fault request_1001 two_items closed_down
    = (Return (false, None, Some msg_no_connection), closed_down).
Proof.
  split; [reflexivity|]. split; [reflexivity|].
  exact (proj1 (proj2 (no_connection_fails_fast no_fault closed_down eq_refl
                         eq_refl))
           request_1001 two_items).
Defined.

(** X20 at work: construction with the server up and with the server down. *)
Lemma init_connects_iff_server_up_witness :
  txn boot = None
  ∧ ready online
  ∧ connection_pool offline = None.
Proof.
  split; [reflexivity|]. split.
  - exact (proj2 (proj2 (proj2 (proj2 (proj2 (init_connects_iff_server_up boot))))
                    eq_refl) eq_refl).
  - exact (proj1 (proj2 (proj2 (init_connects_iff_server_up boot_down)))).
Defined.

(** X21 at work: closing the pool of the fresh manager. *)
Lemma close_all_connections_then_witness :
  ready online
  ∧ is_connected closed_down = true
  ∧ close_all_connections closed_down
    = (Raise (Error "connection pool is closed"), closed_down).
Proof.
  split; [exact ready_online|].
  pose proof (close_all_connections_then no_fault online ready_online)
    as (_ & Hflag & _ & _ & _ & _ & Hagain).
  by split.
Defined.

(** X22 at work: the fresh manager answers, the unconnected one does not. *)
Lemma test_connection_spec_witness :
  txn online = None
  ∧ (test_connection no_fault online).1 = Return true
  ∧ (test_connection no_fault offline).1 = Return false.
Proof.
  split; [reflexivity|]. split.
  - exact (test_connection_spec no_fault online eq_refl).
  - exact (test_connection_spec no_fault offline eq_refl).
Defined.

(** X23 at work: the tables after request 1001 was saved, and after it was
    refused. *)
Lemma tables_stay_consistent_witness :
  txn online = None
  ∧ consistent online
  ∧ consistent saved
  ∧ consistent (save_request refuse_paper request_1001 two_items online).2.
Proof.
  split; [reflexivity|]. split; [exact consistent_online|]. split.
  - exact (proj1 (proj2 (tables_stay_consistent no_fault online eq_refl
                           consistent_online)) request_1001 two_items).
  - exact (proj1 (proj2 (tables_stay_consistent refuse_paper online eq_refl
                           consistent_online)) request_1001 two_items).
Defined.

(** X24 at work: request 1001 saved twice. *)
Lemma save_request_accepts_duplicate_witness :
  ready online
  ∧ ∃ i j params,
      (save_request no_fault request_1001 two_items online).1
      = Return (true, Some i, None)
      ∧ (save_request no_fault request_1001 two_items saved).1
        = Return (true, Some j, None)
      ∧ (i < j)%Z
      ∧ purchase_requests
          (committed (save_request no_fault request_1001 two_items saved).2)
        = purchase_requests (committed online)
          ++ [PR.Row i params None; PR.Row j params None]
      ∧ request_1001 !! "request_number" = Some (PR.request_number params).
Proof.
  split; [exact ready_online|].
  exact (save_request_accepts_duplicate no_fault request_1001 two_items online
           ready_online (λ _ _, eq_refl) request_1001_fields two_items_fields
           consistent_online).
Defined.


(** X26 at work: request 1001 by id and by number. *)
Lemma point_lookups_exact_witness :
  ready saved
  ∧ ((∃ row,
         (get_request_by_number no_fault (VStr "1001") saved).1
         = Return (Some row)
         ∧ row ∈ purchase_requests (committed saved)
         ∧ number_of row = VStr "1001")
     ∨ ((get_request_by_number no_fault (VStr "1001") saved).1 = Return None
        ∧ ∀ row, row ∈ purchase_requests (committed saved) →
                 number_of row ≠ VStr "1001" ∨ VStr "1001" = VNone)).
Proof.
  split; [exact ready_saved|].
  exact (proj2 (point_lookups_exact no_fault saved ready_saved (λ _, eq_refl))
           (VStr "1001")).
Defined.
